(** * Campus registrar (assignment.py): enrollment and persistence engine

    A shallow embedding of the registrar script.  The three module-level
    collections [students], [courses] and [enrollments] become one [store]
    record that every operation takes and returns; [print] and [log_action]
    become a trace of events; an exception that nothing catches becomes the
    [Raised] status of the operation's outcome.

    Python's [float] is IEEE 754 binary64.  It is modelled by the Standard
    Library's executable specification [spec_float] at precision 53, so every
    arithmetic step below is the correctly rounded one the interpreter
    performs. *)

From Stdlib Require Import ZArith String Ascii List Bool Lia SpecFloat.
From Stdlib Require Import DecimalString Permutation Sorted.
From stdpp Require Import base gmap sets list.

Open Scope Z_scope.

(** ** Python values the script relies on *)

(** *** Floats *)

Module Float.

Definition prec : Z := 53.
Definition emax : Z := 1024.

Definition float := spec_float.

Definition zero : float := S754_zero false.

(** [float(z)] for an [int]: nearest binary64, ties to even. *)
Definition of_Z (z : Z) : float := binary_normalize prec emax z 0 false.

(** An [int] as an exact (unrounded) operand. *)
Definition exact (z : Z) : float :=
  match z with
  | Z0 => S754_zero false
  | Zpos p => S754_finite false p 0
  | Zneg p => S754_finite true p 0
  end.

Definition add (x y : float) : float := SFadd prec emax x y.
Definition mul (x y : float) : float := SFmul prec emax x y.
Definition div (x y : float) : float := SFdiv prec emax x y.
Definition ltb (x y : float) : bool := SFltb x y.
Definition leb (x y : float) : bool := SFleb x y.

Definition is_nan (x : float) : bool :=
  match x with S754_nan => true | _ => false end.

Definition is_inf (x : float) : bool :=
  match x with S754_infinity _ => true | _ => false end.

(** Neither operand is smaller: what a comparison sort sees as a tie. *)
Definition tie (x y : float) : bool := negb (ltb x y) && negb (ltb y x).

(** The decimal literal [m / 10^k], correctly rounded (as [float("3.9")]
    rounds 39/10). *)
Definition dec (m : Z) (k : nat) : float := div (exact m) (exact (10 ^ Z.of_nat k)).

(** Fixed-point rendering, the [:.Nf] format: the exact binary value is
    rounded to [digits] decimals, ties to even. *)
Definition round_half_even (num den : Z) : Z :=
  let q := num / den in
  let r := num mod den in
  match 2 * r ?= den with
  | Lt => q
  | Gt => q + 1
  | Eq => if Z.even q then q else q + 1
  end.

Definition scaled (digits : nat) (m : positive) (e : Z) : Z :=
  let n := Zpos m * 10 ^ Z.of_nat digits in
  if 0 <=? e then n * 2 ^ e else round_half_even n (2 ^ (- e)).

Definition str_nat (n : Z) : string := NilZero.string_of_int (Z.to_int n).

Fixpoint pad_zeros (k : nat) (s : string) : string :=
  match k with
  | O => s
  | S k' => if (String.length s <? S k')%nat then pad_zeros k' (String "0" s) else s
  end.

Definition fixed_digits (digits : nat) (n : Z) : string :=
  let p := 10 ^ Z.of_nat digits in
  let frac := pad_zeros digits (str_nat (n mod p)) in
  match digits with
  | O => str_nat (n / p)
  | _ => (str_nat (n / p) ++ "." ++ frac)%string
  end.

Definition sign_str (s : bool) : string := if s then "-"%string else ""%string.

Definition format_fixed (digits : nat) (x : float) : string :=
  match x with
  | S754_nan => "nan"
  | S754_infinity s => (sign_str s ++ "inf")%string
  | S754_zero s => (sign_str s ++ fixed_digits digits 0)%string
  | S754_finite s m e => (sign_str s ++ fixed_digits digits (scaled digits m e))%string
  end.

End Float.

Abbreviation float := Float.float.

(** *** Exceptions the script can let escape *)

Inductive exn :=
  | KeyError (key : string)
  | AttributeError (attr : string)
  | TypeError
  | ZeroDivisionError
  | OverflowError
  | OSError.

(** [a / b] on two [int]s: the correctly rounded quotient. *)
Definition int_truediv (a b : Z) : exn + float :=
  if b =? 0 then inl ZeroDivisionError
  else
    let q := Float.div (Float.exact a) (Float.exact b) in
    if Float.is_inf q then inl OverflowError else inr q.

(** [str(z)] for an [int]. *)
Definition str_int (z : Z) : string := NilZero.string_of_int (Z.to_int z).

(** *** Dictionaries: insertion-ordered, one binding per key *)

Section Dict.
Context {K V : Type} `{EqDecision K}.

Definition dict : Type := list (K * V).

(** [d.get(k)] *)
Fixpoint dict_get (k : K) (d : dict) : option V :=
  match d with
  | [] => None
  | (k', v) :: d' => if decide (k = k') then Some v else dict_get k d'
  end.

(** [k in d] *)
Definition dict_mem (k : K) (d : dict) : bool :=
  match dict_get k d with Some _ => true | None => false end.

(** [d[k] = v]: an existing key keeps its position, a new key goes last. *)
Fixpoint dict_set (k : K) (v : V) (d : dict) : dict :=
  match d with
  | [] => [(k, v)]
  | (k', v') :: d' =>
      if decide (k = k') then (k', v) :: d' else (k', v') :: dict_set k v d'
  end.

Definition dict_keys (d : dict) : list K := map fst d.
Definition dict_values (d : dict) : list V := map snd d.

End Dict.

Arguments dict : clear implicits.

(** ** Data model

    The dictionaries of the script, as records. *)

Record student := {
  name : string;
  year : Z;
  gpa : float
}.

(** The script stores [enrolled] as a [set] ([add_course], [setdefault]) but
    [json.load] hands back a [list]; both shapes occur in memory. *)
Inductive enrolled_val :=
  | ESet (s : gset Z)
  | EList (l : list Z).

Record course := {
  title : string;
  credits : Z;
  capacity : Z;
  prereqs : list string;
  enrolled : enrolled_val
}.

Record enrollment := {
  student_id : Z;
  course_code : string;
  grade : option float
}.

Record store := {
  students : dict Z student;
  courses : dict string course;
  enrollments : list enrollment
}.

Definition empty_store : store :=
  {| students := []; courses := []; enrollments := [] |}.

Definition with_students (st : store) (s : dict Z student) : store :=
  {| students := s; courses := courses st; enrollments := enrollments st |}.

Definition with_courses (st : store) (c : dict string course) : store :=
  {| students := students st; courses := c; enrollments := enrollments st |}.

Definition with_enrollments (st : store) (e : list enrollment) : store :=
  {| students := students st; courses := courses st; enrollments := e |}.

Definition with_enrolled (c : course) (v : enrolled_val) : course :=
  {| title := title c; credits := credits c; capacity := capacity c;
     prereqs := prereqs c; enrolled := v |}.

Definition with_grade (e : enrollment) (g : option float) : enrollment :=
  {| student_id := student_id e; course_code := course_code e; grade := g |}.

(** [len(c["enrolled"])] *)
Definition len (v : enrolled_val) : nat :=
  match v with
  | ESet s => size s
  | EList l => length l
  end.

(** The ids an [enrolled] value holds, whatever its shape. *)
Definition members (v : enrolled_val) : gset Z :=
  match v with
  | ESet s => s
  | EList l => list_to_set l
  end.

(** ** Console and log output *)

(** A printed line.  Lines that interpolate a float keep the value and name
    the format, since [str(float)] is the interpreter's business. *)
Inductive line :=
  | Text (s : string)
  | TranscriptRow (code ttl : string) (g : option float)
      (* f"{code} - {title} : {grade}" *)
  | CalculatedGPA (g : float)
      (* f"Calculated GPA: {gpa:.2f}" *)
  | TopStudent (nm : string) (g : float)
      (* f"{name} GPA {gpa}" *)
  | FillRate (code : string) (fill : float)
      (* f"{code}: {fill:.1f}% full" *)
  | AvgGrade (code : string) (avg : float).
      (* f"{code}: avg grade {avg:.2f}" *)

Inductive event :=
  | Print (l : line)
  | Log (action : string).

Inductive completion :=
  | Returned
  | Raised (e : exn).

Record outcome := {
  final : store;
  trace : list event;
  status : completion
}.

Definition say (st : store) (msg : string) : outcome :=
  {| final := st; trace := [Print (Text msg)]; status := Returned |}.

(** The text of the two lines whose float has a fixed format. *)
Definition render_gpa (g : float) : string :=
  ("Calculated GPA: " ++ Float.format_fixed 2 g)%string.

Definition render_fill (code : string) (fill : float) : string :=
  (code ++ ": " ++ Float.format_fixed 1 fill ++ "% full")%string.

(** ** Registrar operations

    Each operation takes the values its [input()] lines produced, already
    converted, and the store; it yields the store it leaves behind, what it
    printed and logged, and how it ended. *)

Definition add_student (sid : Z) (nm : string) (yr : Z) (g : float)
    (st : store) : outcome :=
  if dict_mem sid (students st) then say st "Student already exists."
  else
    {| final := with_students st
                  (dict_set sid {| name := nm; year := yr; gpa := g |}
                     (students st));
       trace := [Log ("Added student " ++ str_int sid)%string];
       status := Returned |}.

(** [pre] is the list the comprehension over the comma-separated answer
    leaves: the stripped, non-empty codes. *)
Definition add_course (code ttl : string) (cr cap : Z) (pre : list string)
    (st : store) : outcome :=
  if dict_mem code (courses st) then say st "Course already exists."
  else
    {| final := with_courses st
                  (dict_set code
                     {| title := ttl; credits := cr; capacity := cap;
                        prereqs := pre; enrolled := ESet ∅ |}
                     (courses st));
       trace := [Log ("Added course " ++ code)%string];
       status := Returned |}.

(** [e["student_id"] == sid and e["course_code"] == code] *)
Definition is_pair (sid : Z) (code : string) (e : enrollment) : bool :=
  (student_id e =? sid) && String.eqb (course_code e) code.

(** [(sid, code) in [(e["student_id"], e["course_code"]) for e in enrollments]] *)
Definition has_row (sid : Z) (code : string) (rows : list enrollment) : bool :=
  existsb (is_pair sid code) rows.

(** [all(e["course_code"] != pre for e in enrollments if e["student_id"] == sid)] *)
Definition lacks (sid : Z) (rows : list enrollment) (pre : string) : bool :=
  forallb (fun e => negb (String.eqb (course_code e) pre))
    (List.filter (fun e => student_id e =? sid) rows).

Definition new_row (sid : Z) (code : string) : enrollment :=
  {| student_id := sid; course_code := code; grade := None |}.

Definition enroll_student (sid : Z) (code : string) (st : store) : outcome :=
  match dict_get sid (students st), dict_get code (courses st) with
  | Some _, Some c =>
      if capacity c <=? Z.of_nat (len (enrolled c)) then say st "Course full."
      else if has_row sid code (enrollments st) then say st "Already enrolled."
      else if existsb (lacks sid (enrollments st)) (prereqs c) then
        say st "Missing prerequisite."
      else
        let st1 := with_enrollments st (enrollments st ++ [new_row sid code]) in
        match enrolled c with
        | ESet s =>
            {| final := with_courses st1
                          (dict_set code (with_enrolled c (ESet ({[sid]} ∪ s)))
                             (courses st1));
               trace := [Log ("Enrolled " ++ str_int sid ++ " in " ++ code)%string];
               status := Returned |}
        | EList _ =>
            (* a list has no [add]: the row is already appended *)
            {| final := st1; trace := []; status := Raised (AttributeError "add") |}
        end
  | _, _ => say st "Invalid student or course."
  end.

(** The loop of [record_grade]: the first row of the pair gets the grade;
    [None] when the loop runs off the end. *)
Fixpoint set_grade (sid : Z) (code : string) (g : float)
    (rows : list enrollment) : option (list enrollment) :=
  match rows with
  | [] => None
  | e :: rows' =>
      if is_pair sid code e then Some (with_grade e (Some g) :: rows')
      else option_map (cons e) (set_grade sid code g rows')
  end.

Definition record_grade (sid : Z) (code : string) (g : float)
    (st : store) : outcome :=
  match set_grade sid code g (enrollments st) with
  | Some rows =>
      {| final := with_enrollments st rows;
         trace := [Log ("Updated grade for " ++ str_int sid ++ " in " ++ code)%string];
         status := Returned |}
  | None => say st "Enrollment not found."
  end.

(** The loop of [transcript], with its two accumulators.  [total_points]
    starts as the int 0, which the first [+=] turns into the float 0.0. *)
Fixpoint transcript_loop (sid : Z) (cs : dict string course)
    (rows : list enrollment) (total_points : float) (total_credits : nat)
    (printed : list event) : list event * (exn + float * nat) :=
  match rows with
  | [] => (printed, inr (total_points, total_credits))
  | e :: rows' =>
      if student_id e =? sid then
        match dict_get (course_code e) cs with
        | None => (printed, inl (KeyError (course_code e)))
        | Some c =>
            let printed' :=
              printed ++ [Print (TranscriptRow (course_code e) (title c) (grade e))] in
            match grade e with
            | Some g =>
                transcript_loop sid cs rows' (Float.add total_points g)
                  (S total_credits) printed'
            | None =>
                transcript_loop sid cs rows' total_points total_credits printed'
            end
        end
      else transcript_loop sid cs rows' total_points total_credits printed
  end.

Definition transcript (sid : Z) (st : store) : outcome :=
  match dict_get sid (students st) with
  | None => say st "Student not found."
  | Some s =>
      let header :=
        [Print (Text ("Transcript for " ++ name s ++ ": ")%string)] in
      match transcript_loop sid (courses st) (enrollments st) Float.zero O header with
      | (printed, inl e) => {| final := st; trace := printed; status := Raised e |}
      | (printed, inr (total_points, total_credits)) =>
          {| final := st;
             trace :=
               if (0 <? total_credits)%nat then
                 printed ++
                 [Print (CalculatedGPA
                    (Float.div total_points (Float.of_Z (Z.of_nat total_credits))))]
               else printed;
             status := Returned |}
      end
  end.

(** *** Analytics *)

(** [list.sort] compares with [<] only and is stable.  On keys that [<]
    orders (floats none of which is [nan]) every stable sort returns the same
    list, so the insertion sort below stands for it.  With a [nan] among
    the keys [<] is no order and what the interpreter returns depends on the
    run detection and binary insertion of its own sort; the list computed
    here is then another arrangement of the same elements, and the facts
    proved about the order of a sorted list are stated for keys that are
    numbers. *)
Section Sorting.
Context {A : Type} (lt : A -> A -> bool).

(** [x] goes after every element that is not greater than it. *)
Fixpoint insert_sorted (x : A) (l : list A) : list A :=
  match l with
  | [] => [x]
  | y :: l' => if lt x y then x :: l else y :: insert_sorted x l'
  end.

Definition stable_sort (l : list A) : list A :=
  fold_left (fun acc x => insert_sorted x acc) l [].

(** [sorted(l, reverse=True)]: reverse, sort upwards, reverse again. *)
Definition sorted_reverse (l : list A) : list A :=
  rev (stable_sort (rev l)).

End Sorting.

(** [l[:n]] *)
Definition slice_to {A : Type} (n : Z) (l : list A) : list A :=
  if 0 <=? n then firstn (Z.to_nat n) l
  else firstn (length l - Z.to_nat (- n)) l.

(** [key=lambda x: x[1]["gpa"]] *)
Definition gpa_key (x : Z * student) : float := gpa (snd x).

Definition gpa_lt (a b : Z * student) : bool :=
  Float.ltb (gpa_key a) (gpa_key b).

(** The list [top] of choice 1. *)
Definition top_students (n : Z) (ss : dict Z student) : list (Z * student) :=
  slice_to n (sorted_reverse gpa_lt ss).

Definition analytics_top (n : Z) (st : store) : list event :=
  map (fun x => Print (TopStudent (name (snd x)) (gpa (snd x))))
    (top_students n (students st)).

(** [len(c["enrolled"]) / c["capacity"] * 100] *)
Definition fill_of (c : course) : exn + float :=
  match int_truediv (Z.of_nat (len (enrolled c))) (capacity c) with
  | inl e => inl e
  | inr q => inr (Float.mul q (Float.of_Z 100))
  end.

(** [fill > 90] *)
Definition over_90 (fill : float) : bool := Float.ltb (Float.of_Z 90) fill.

Definition fill_lines (code : string) (fill : float) : list event :=
  Print (FillRate code fill) ::
  (if over_90 fill then [Print (Text "Warning: over 90% capacity!")] else []).

(** The loop of choice 2; it stops at the first course whose division
    raises, keeping what was printed before. *)
Fixpoint fill_loop (cs : dict string course) : list event * completion :=
  match cs with
  | [] => ([], Returned)
  | (code, c) :: cs' =>
      match fill_of c with
      | inl e => ([], Raised e)
      | inr fill =>
          let '(rest, fin) := fill_loop cs' in (fill_lines code fill ++ rest, fin)
      end
  end.

Section Analytics.
(** The builtin [sum] on a list of floats (its summation scheme differs
    between interpreter versions). *)
Variable py_sum : list float -> float.

Definition graded_of (code : string) (rows : list enrollment) : list float :=
  omap (fun e => if String.eqb (course_code e) code then grade e else None) rows.

Definition avg_lines (st : store) : list event :=
  flat_map
    (fun code =>
       match graded_of code (enrollments st) with
       | [] => []
       | g :: gs =>
           [Print (AvgGrade code
              (Float.div (py_sum (g :: gs))
                 (Float.of_Z (Z.of_nat (length (g :: gs))))))]
       end)
    (dict_keys (courses st)).

Definition menu : list event :=
  [Print (Text "1. Top N students by GPA");
   Print (Text "2. Course fill rates");
   Print (Text "3. Average grade per course")].

(** [n] is the value read by [int(input("Enter N: "))] when the choice is 1. *)
Definition analytics (choice : string) (n : Z) (st : store) : outcome :=
  if String.eqb choice "1" then
    {| final := st; trace := menu ++ analytics_top n st; status := Returned |}
  else if String.eqb choice "2" then
    let '(printed, fin) := fill_loop (courses st) in
    {| final := st; trace := menu ++ printed; status := fin |}
  else if String.eqb choice "3" then
    {| final := st; trace := menu ++ avg_lines st; status := Returned |}
  else {| final := st; trace := menu; status := Returned |}.

End Analytics.

(** ** Storage codec *)

(** *** Values as [json] decodes them

    [json.load] returns dicts, lists, strings, numbers, booleans and [None],
    nested at will; the script then puts a [set] into some of them. *)
#[warnings="-register-all"]
Inductive pyval :=
  | PNone
  | PBool (b : bool)
  | PInt (z : Z)
  | PFloat (f : float)
  | PStr (s : string)
  | PList (l : list pyval)
  | PDict (d : list (string * pyval))
  | PSet (s : gset Z).

(** What is on disk under [courses.json]: nothing, text that [json.load]
    rejects, or text that decodes to a value.  An encoded value decodes to
    itself. *)
Inductive json_file :=
  | NoJson
  | Undecodable
  | Decoded (v : pyval).

(** What [csv.DictReader] yields for a file: one dict per row, from column
    name to cell text.  Rows shorter than the header are outside this
    model. *)
Definition csv_row : Type := dict string string.

(** A file that is missing, or one the reader reads to its end (a file on
    which the reader raises is a list of [csv_record], below). *)
Inductive csv_file :=
  | NoCsv
  | Rows (rows : list csv_row).

(** The three data files.  The log [app.log], to which [log_action]
    appends, is no part of it: what is logged is in the trace of an
    operation.  Nor are the dated copies of [students.csv] that
    [save_students] leaves behind. *)
Record files := {
  students_csv : csv_file;
  courses_json : json_file;
  enrollments_csv : csv_file
}.

(** [json.dump] accepts anything but a [set]. *)
Fixpoint json_ok (v : pyval) : bool :=
  match v with
  | PSet _ => false
  | PList l => forallb json_ok l
  | PDict d => forallb (fun kv => json_ok (snd kv)) d
  | _ => true
  end.

(** The dict a course is in memory, and back. *)
Definition py_of_enrolled (v : enrolled_val) : pyval :=
  match v with
  | ESet s => PSet s
  | EList l => PList (map PInt l)
  end.

Definition py_of_course (c : course) : pyval :=
  PDict [("title"%string, PStr (title c));
         ("credits"%string, PInt (credits c));
         ("capacity"%string, PInt (capacity c));
         ("prereqs"%string, PList (map PStr (prereqs c)));
         ("enrolled"%string, py_of_enrolled (enrolled c))].

Definition py_of_courses (cs : dict string course) : pyval :=
  PDict (map (fun kc => (fst kc, py_of_course (snd kc))) cs).

Definition as_str (v : pyval) : option string :=
  match v with PStr s => Some s | _ => None end.

Definition as_int (v : pyval) : option Z :=
  match v with PInt z => Some z | _ => None end.

Definition as_list {A : Type} (f : pyval -> option A) (v : pyval) : option (list A) :=
  match v with PList l => mapM f l | _ => None end.

Definition as_enrolled (v : pyval) : option enrolled_val :=
  match v with
  | PSet s => Some (ESet s)
  | PList l => EList <$> mapM as_int l
  | _ => None
  end.

(** The record a well-shaped course dict stands for. *)
Definition course_of_py (v : pyval) : option course :=
  match v with
  | PDict d =>
      t ← dict_get "title"%string d ≫= as_str;
      cr ← dict_get "credits"%string d ≫= as_int;
      cap ← dict_get "capacity"%string d ≫= as_int;
      pre ← dict_get "prereqs"%string d ≫= as_list as_str;
      en ← dict_get "enrolled"%string d ≫= as_enrolled;
      Some {| title := t; credits := cr; capacity := cap; prereqs := pre;
              enrolled := en |}
  | _ => None
  end.

Definition courses_of_py (v : pyval) : option (dict string course) :=
  match v with
  | PDict d => mapM (fun kc => pair (fst kc) <$> course_of_py (snd kc)) d
  | _ => None
  end.

(** *** Loading *)

(** [c.setdefault("enrolled", set())]; [None] when [c] has no such method. *)
Definition setdefault_enrolled (c : pyval) : option pyval :=
  match c with
  | PDict d =>
      Some (PDict (match dict_get "enrolled"%string d with
                   | Some _ => d
                   | None => d ++ [("enrolled"%string, PSet ∅)]
                   end))
  | _ => None
  end.

(** The loop over [courses.values()]: it mutates the dicts in place and
    stops at the first value that raises; the flag tells whether it did. *)
Fixpoint setdefault_loop (d : list (string * pyval)) : list (string * pyval) * bool :=
  match d with
  | [] => ([], false)
  | (k, c) :: d' =>
      match setdefault_enrolled c with
      | Some c' => let '(rest, failed) := setdefault_loop d' in ((k, c') :: rest, failed)
      | None => ((k, c) :: d', true)
      end
  end.

(** [load_courses]: the new value of the global [courses], and whether the
    [except Exception] handler ran. *)
Definition load_courses (f : json_file) (courses0 : pyval) : pyval * bool :=
  match f with
  | NoJson => (courses0, false)
  | Undecodable => (courses0, true)
  | Decoded v =>
      (* the global is assigned before the loop looks at the value *)
      match v with
      | PDict d => let '(d', failed) := setdefault_loop d in (PDict d', failed)
      | _ => (v, true)
      end
  end.

Section Readers.
(** The builtins [int] and [float] on a cell's text; [None] when they raise. *)
Variable py_int : string -> option Z.
Variable py_float : string -> option float.

(** The student a row stands for; [None] when building it raises. *)
Definition student_of_row (row : csv_row) : option (Z * student) :=
  sid ← dict_get "student_id"%string row ≫= py_int;
  nm ← dict_get "full_name"%string row;
  yr ← dict_get "year"%string row ≫= py_int;
  g ← dict_get "gpa"%string row ≫= py_float;
  Some (sid, {| name := nm; year := yr; gpa := g |}).

Definition load_students (f : csv_file) (students0 : dict Z student) : dict Z student :=
  match f with
  | NoCsv => students0
  | Rows rows =>
      fold_left
        (fun acc row =>
           match student_of_row row with
           | Some (sid, s) => dict_set sid s acc
           | None => acc
           end)
        rows students0
  end.

(** [float(row["grade"]) if row["grade"] else None] *)
Definition grade_of_cell (cell : string) : option (option float) :=
  if String.eqb cell "" then Some None else Some <$> py_float cell.

Definition enrollment_of_row (row : csv_row) : option enrollment :=
  sid ← dict_get "student_id"%string row ≫= py_int;
  code ← dict_get "course_code"%string row;
  g ← dict_get "grade"%string row ≫= grade_of_cell;
  Some {| student_id := sid; course_code := code; grade := g |}.

Definition load_enrollments (f : csv_file) (enrollments0 : list enrollment)
    : list enrollment :=
  match f with
  | NoCsv => enrollments0
  | Rows rows =>
      fold_left
        (fun acc row =>
           match enrollment_of_row row with
           | Some e => acc ++ [e]
           | None => acc
           end)
        rows enrollments0
  end.

End Readers.

(** *** Files the reader gives up on

    A [csv_file] is a file that the reader reads to its end.  The reader
    itself can raise while the script walks the rows: [csv.Error] on a
    record it cannot split (a field beyond the size limit, say), or
    [UnicodeDecodeError] on bytes that are no text.  The loops of
    [load_students] and [load_enrollments] stand inside a handler for
    [FileNotFoundError] only and the handler for [Exception] guards the
    conversion of a row, not the reading of it: an exception of the reader
    leaves the function, and [main] with it, while the rows met before it
    are stored already. *)

Inductive reader_error :=
  | CsvError
  | UnicodeDecodeError.

(** A file as the reader meets it, record by record: a row it yields, or
    the place where it raises (for bytes that do not decode, the place where
    the block holding them is fetched). *)
Inductive csv_record :=
  | Yielded (row : csv_row)
  | Broken (e : reader_error).

(** The rows that come out of [for row in reader], and the exception that
    ends the loop if one does. *)
Fixpoint read_records (recs : list csv_record) : list csv_row * option reader_error :=
  match recs with
  | [] => ([], None)
  | Yielded row :: recs' =>
      let '(rows, e) := read_records recs' in (row :: rows, e)
  | Broken e :: _ => ([], Some e)
  end.

(** [load_students] on a file that exists, given record by record: the new
    value of [students] and the exception that leaves the function, if
    any. *)
Definition load_students_records (py_int : string -> option Z)
    (py_float : string -> option float) (recs : list csv_record)
    (students0 : dict Z student) : dict Z student * option reader_error :=
  let '(rows, e) := read_records recs in
  (load_students py_int py_float (Rows rows) students0, e).

(** *** Saving *)

Definition map_values {K V : Type} (f : V -> V) (d : dict K V) : dict K V :=
  map (fun kv => (fst kv, f (snd kv))) d.

Section Writers.
(** [str] on a float, and the order in which [list(s)] walks a set: both
    belong to the interpreter. *)
Variable str_float : float -> string.
Variable set_order : gset Z -> list Z.

Definition row_of_student (kv : Z * student) : csv_row :=
  [("student_id"%string, str_int (fst kv));
   ("full_name"%string, name (snd kv));
   ("year"%string, str_int (year (snd kv)));
   ("gpa"%string, str_float (gpa (snd kv)))].

(** The rows [save_students] writes.  (Its backup copy, named after the
    clock, is not part of the model.) *)
Definition save_students (ss : dict Z student) : csv_file :=
  Rows (map row_of_student ss).

Definition row_of_enrollment (e : enrollment) : csv_row :=
  [("student_id"%string, str_int (student_id e));
   ("course_code"%string, course_code e);
   ("grade"%string, match grade e with Some g => str_float g | None => ""%string end)].

Definition save_enrollments (rows : list enrollment) : csv_file :=
  Rows (map row_of_enrollment rows).

(** [if isinstance(c.get("enrolled"), set): c["enrolled"] = list(c["enrolled"])] *)
Definition listify (c : course) : course :=
  match enrolled c with
  | ESet s => with_enrolled c (EList (set_order s))
  | EList _ => c
  end.

(** [if isinstance(c.get("enrolled"), list): c["enrolled"] = set(c["enrolled"])] *)
Definition setify (c : course) : course :=
  match enrolled c with
  | EList l => with_enrolled c (ESet (list_to_set l))
  | ESet _ => c
  end.

(** [save_courses]: the courses it leaves in memory, the file it leaves on
    disk, and how it ended.  [disk_ok] tells whether the file could be
    opened for writing. *)
Definition save_courses (disk_ok : bool) (cs : dict string course)
    (old : json_file) : dict string course * json_file * completion :=
  let cs1 := map_values listify cs in
  if disk_ok then
    let v := py_of_courses cs1 in
    if json_ok v then (map_values setify cs1, Decoded v, Returned)
    else (cs1, Undecodable, Raised TypeError)
  else (cs1, old, Raised OSError).

Definition save_all (disk_ok : bool) (st : store) (fs : files) : outcome * files :=
  let f1 := save_students (students st) in
  match save_courses disk_ok (courses st) (courses_json fs) with
  | (cs, f2, Returned) =>
      ({| final := with_courses st cs;
          trace := [Log "Saved and backed up data"];
          status := Returned |},
       {| students_csv := f1; courses_json := f2;
          enrollments_csv := save_enrollments (enrollments st) |})
  | (cs, f2, Raised e) =>
      ({| final := with_courses st cs; trace := []; status := Raised e |},
       {| students_csv := f1; courses_json := f2;
          enrollments_csv := enrollments_csv fs |})
  end.

End Writers.

(** *** Start-up *)

(** The three loads of [main], from empty collections, on files that the
    reader reads to their end.  [None] when what ends up in [courses] is
    not a mapping of well-shaped course dicts. *)
Definition boot (py_int : string -> option Z) (py_float : string -> option float)
    (fs : files) : option store :=
  cs ← courses_of_py (fst (load_courses (courses_json fs) (PDict [])));
  Some {| students := load_students py_int py_float (students_csv fs) [];
          courses := cs;
          enrollments := load_enrollments py_int py_float (enrollments_csv fs) [] |}.

(** ** Sessions *)

Inductive command :=
  | AddStudent (sid : Z) (nm : string) (yr : Z) (g : float)
  | AddCourse (code ttl : string) (cr cap : Z) (pre : list string)
  | Enroll (sid : Z) (code : string)
  | RecordGrade (sid : Z) (code : string) (g : float).

Definition exec (c : command) (st : store) : outcome :=
  match c with
  | AddStudent sid nm yr g => add_student sid nm yr g st
  | AddCourse code ttl cr cap pre => add_course code ttl cr cap pre st
  | Enroll sid code => enroll_student sid code st
  | RecordGrade sid code g => record_grade sid code g st
  end.

(** The menu loop on a list of choices: an exception ends the session. *)
Fixpoint run (cmds : list command) (st : store) : outcome :=
  match cmds with
  | [] => {| final := st; trace := []; status := Returned |}
  | c :: cmds' =>
      let o := exec c st in
      match status o with
      | Returned =>
          let o' := run cmds' (final o) in
          {| final := final o'; trace := trace o ++ trace o'; status := status o' |}
      | Raised _ => o
      end
  end.

(** ** Readings of the builtins on plain decimal text

    [int] and [float] accept more than this (blanks, underscores, exponents,
    inf, nan); on an optional sign followed by ASCII digits (fewer than the
    4300 at which [int] gives up), with at most one point for a float, they
    return what is computed here. *)

Definition digit_of (c : ascii) : option Z :=
  let n := Z.of_nat (nat_of_ascii c) in
  if (48 <=? n) && (n <=? 57) then Some (n - 48) else None.

Fixpoint digits_value (s : string) (acc : Z) : option Z :=
  match s with
  | EmptyString => Some acc
  | String c s' => d ← digit_of c; digits_value s' (10 * acc + d)
  end.

Definition unsigned_int (s : string) : option Z :=
  match s with
  | EmptyString => None
  | _ => digits_value s 0
  end.

Definition decimal_int (s : string) : option Z :=
  match s with
  | String "-" s' => Z.opp <$> unsigned_int s'
  | String "+" s' => unsigned_int s'
  | _ => unsigned_int s
  end.

(** Digits up to the point, and the digits after it if there is one. *)
Fixpoint split_point (s : string) : string * option string :=
  match s with
  | EmptyString => (EmptyString, None)
  | String "." s' => (EmptyString, Some s')
  | String c s' => let '(a, b) := split_point s' in (String c a, b)
  end.

Definition unsigned_float (s : string) : option float :=
  match split_point s with
  | (whole, None) => Float.of_Z <$> unsigned_int whole
  | (whole, Some frac) =>
      if (String.length whole + String.length frac =? 0)%nat then None
      else
        w ← digits_value whole 0;
        f ← digits_value frac 0;
        Some (Float.dec (w * 10 ^ Z.of_nat (String.length frac) + f)
                (String.length frac))
  end.

Definition decimal_float (s : string) : option float :=
  match s with
  | String "-" s' => SFopp <$> unsigned_float s'
  | String "+" s' => unsigned_float s'
  | _ => unsigned_float s
  end.

(** ** Vocabulary of the properties *)

(** The order of floats, read off three integers: sign class, exponent and
    mantissa (both negated below zero). *)
Definition rank (x : float) : Z * Z * Z :=
  match x with
  | S754_nan => (0, 0, 0)
  | S754_infinity true => (-2, 0, 0)
  | S754_infinity false => (2, 0, 0)
  | S754_zero _ => (0, 0, 0)
  | S754_finite true m e => (-1, - e, - Zpos m)
  | S754_finite false m e => (1, e, Zpos m)
  end.

Definition lex_lt (a b : Z * Z * Z) : Prop :=
  let '(a1, a2, a3) := a in
  let '(b1, b2, b3) := b in
  a1 < b1 \/ (a1 = b1 /\ (a2 < b2 \/ (a2 = b2 /\ a3 < b3))).

(** The enrollment rows of a course, and the students they name. *)
Definition rows_of (code : string) (rows : list enrollment) : list enrollment :=
  List.filter (fun e => String.eqb (course_code e) code) rows.

Definition sids_of (code : string) (rows : list enrollment) : list Z :=
  map student_id (rows_of code rows).

(** The rows of one (student, course) pair. *)
Definition pair_rows (sid : Z) (code : string) (rows : list enrollment)
    : list enrollment :=
  List.filter (is_pair sid code) rows.

(** Some row binds the student to the course. *)
Definition enrolled_in (sid : Z) (code : string) (rows : list enrollment) : Prop :=
  exists e, In e rows /\ student_id e = sid /\ course_code e = code.

(** Some prerequisite of the course has no row at all for the student. *)
Definition missing_prereq (sid : Z) (c : course) (rows : list enrollment) : Prop :=
  exists pre, In pre (prereqs c) /\ ~ enrolled_in sid pre rows.

(** The operation refused: it printed [msg] and left the store as it was. *)
Definition rejected (o : outcome) (st : store) (msg : string) : Prop :=
  final o = st /\ trace o = [Print (Text msg)] /\ status o = Returned.

(** [list(s)] walks exactly the elements of [s]. *)
Definition enumerates (set_order : gset Z -> list Z) : Prop :=
  forall s, list_to_set (set_order s) = s.

(** The course with its [enrolled] as a set of the same ids. *)
Definition as_set (c : course) : course :=
  with_enrolled c (ESet (members (enrolled c))).

(** The students of the rows that convert, in row order. *)
Definition converted (py_int : string -> option Z) (py_float : string -> option float)
    (rows : list csv_row) : list (Z * student) :=
  omap (student_of_row py_int py_float) rows.

(** [students[sid] = s] for each pair of the list, in order. *)
Definition set_all (l : list (Z * student)) (ss : dict Z student) : dict Z student :=
  fold_left (fun acc kv => dict_set (fst kv) (snd kv) acc) l ss.

(** Every [enrolled] is a set. *)
Definition all_sets (cs : dict string course) : Prop :=
  Forall (fun kc => exists s, enrolled (snd kc) = ESet s) cs.

(** [enrolled] as an index over the rows: every row names a known course,
    no course has two rows for one student, and each [enrolled] holds
    exactly the students of its course's rows, once each. *)
Definition consistent (st : store) : Prop :=
  (forall e, In e (enrollments st) ->
     dict_mem (course_code e) (courses st) = true) /\
  (forall code c, dict_get code (courses st) = Some c ->
     NoDup (sids_of code (enrollments st)) /\
     members (enrolled c) = list_to_set (sids_of code (enrollments st)) /\
     len (enrolled c) = length (sids_of code (enrollments st))).

(** The grades recorded for a student, in row order. *)
Definition grades_of (sid : Z) (rows : list enrollment) : list float :=
  omap grade (List.filter (fun e => student_id e =? sid) rows).

(** Arithmetic mean in float arithmetic: the running sum from 0.0, divided
    by the count. *)
Definition mean (gs : list float) : float :=
  Float.div (fold_left Float.add gs Float.zero)
    (Float.of_Z (Z.of_nat (length gs))).

(** The title the transcript prints for a course code. *)
Definition title_of (cs : dict string course) (code : string) : string :=
  match dict_get code cs with Some c => title c | None => ""%string end.

(** One transcript line per row of the student, in row order. *)
Definition transcript_rows (sid : Z) (cs : dict string course)
    (rows : list enrollment) : list event :=
  map (fun e =>
         Print (TranscriptRow (course_code e) (title_of cs (course_code e)) (grade e)))
    (List.filter (fun e => student_id e =? sid) rows).

(** The first row of a student that names an unknown course, if any. *)
Definition dangling (sid : Z) (cs : dict string course)
    (rows : list enrollment) : option enrollment :=
  List.find (fun e => (student_id e =? sid) && negb (dict_mem (course_code e) cs)) rows.

(** No earlier element is smaller than a later one. *)
Definition descending {A : Type} (key : A -> float) (l : list A) : Prop :=
  StronglySorted (fun a b => Float.ltb (key a) (key b) = false) l.

Definition ascending {A : Type} (key : A -> float) (l : list A) : Prop :=
  StronglySorted (fun a b => Float.ltb (key b) (key a) = false) l.

(** The elements whose key ties with [k], in list order. *)
Definition tied {A : Type} (key : A -> float) (k : float) (l : list A) : list A :=
  List.filter (fun a => Float.tie (key a) k) l.

Definition no_nan {A : Type} (key : A -> float) (l : list A) : Prop :=
  Forall (fun a => Float.is_nan (key a) = false) l.

(** A small registry: two students, an open course with one student in it,
    and a one-seat course that requires the first. *)
Definition ada : student := {| name := "Ada"; year := 1; gpa := Float.dec 39 1 |}.
Definition bob : student := {| name := "Bob"; year := 2; gpa := Float.dec 35 1 |}.

Definition cs101 : course :=
  {| title := "Intro"; credits := 3; capacity := 10; prereqs := [];
     enrolled := ESet {[1]} |}.

Definition cs102 : course :=
  {| title := "Data"; credits := 3; capacity := 1; prereqs := ["CS101"%string];
     enrolled := ESet ∅ |}.

Definition campus : store :=
  {| students := [(1, ada); (2, bob)];
     courses := [("CS101"%string, cs101); ("CS102"%string, cs102)];
     enrollments := [{| student_id := 1; course_code := "CS101"; grade := None |}] |}.

(** Ada with grades 90.0 and 80.0 and one course not graded yet; Bob's
    grade is not hers. *)
Definition graded : store :=
  {| students := [(1, ada); (2, bob)];
     courses := [("CS101"%string, with_enrolled cs101 (ESet {[1; 2]}));
                 ("CS102"%string, with_enrolled cs102 (ESet {[1]}));
                 ("MA101"%string,
                  {| title := "Calculus"; credits := 4; capacity := 30;
                     prereqs := []; enrolled := ESet {[1]} |})];
     enrollments :=
       [{| student_id := 1; course_code := "CS101"; grade := Some (Float.of_Z 90) |};
        {| student_id := 2; course_code := "CS101"; grade := Some (Float.of_Z 10) |};
        {| student_id := 1; course_code := "MA101"; grade := None |};
        {| student_id := 1; course_code := "CS102"; grade := Some (Float.of_Z 80) |}] |}.

(** Files in which an enrollment row names a course that [courses.json],
    being absent, does not define; and the store the script starts with. *)
Definition orphan_files : files :=
  {| students_csv :=
       Rows [[("student_id", "1"); ("full_name", "Ada"); ("year", "1");
              ("gpa", "3.9")]]%string;
     courses_json := NoJson;
     enrollments_csv :=
       Rows [[("student_id", "1"); ("course_code", "CS999"); ("grade", "")]]%string |}.

Definition orphaned : store :=
  {| students := [(1, ada)];
     courses := [];
     enrollments := [{| student_id := 1; course_code := "CS999"; grade := None |}] |}.

(** [str] on the GPAs of these examples, which have one decimal. *)
Definition str_1 (x : float) : string := Float.format_fixed 1 x.

Definition no_files : files :=
  {| students_csv := NoCsv; courses_json := NoJson; enrollments_csv := NoCsv |}.

(** [campus] as the script finds it again after saving it and starting
    anew: the [enrolled] fields are lists. *)
Definition campus_reloaded : store :=
  with_courses campus
    [("CS101"%string, with_enrolled cs101 (EList [1]));
     ("CS102"%string, with_enrolled cs102 (EList []))].

(** A students file of four rows, the third with an id that is no number. *)
Definition four_rows : list csv_row :=
  [[("student_id", "1"); ("full_name", "Ada"); ("year", "1"); ("gpa", "3.9")];
   [("student_id", "2"); ("full_name", "Bob"); ("year", "2"); ("gpa", "3.5")];
   [("student_id", "x3"); ("full_name", "Cy"); ("year", "1"); ("gpa", "3.0")];
   [("student_id", "4"); ("full_name", "Di"); ("year", "3"); ("gpa", "2.5")]]%string.

(** A courses file that is valid JSON but whose second value is a number,
    not an object. *)
Definition bent_courses : pyval :=
  PDict [("CS101"%string, PDict [("title"%string, PStr "Intro")]);
         ("CS102"%string, PInt 5)].

(** A course of ten seats with nine taken, and the same course full. *)
Definition nine_of_ten : course :=
  {| title := "Logic"; credits := 3; capacity := 10; prereqs := [];
     enrolled := ESet (list_to_set [1; 2; 3; 4; 5; 6; 7; 8; 9]) |}.

Definition ten_of_ten : course :=
  with_enrolled nine_of_ten (ESet (list_to_set [1; 2; 3; 4; 5; 6; 7; 8; 9; 10])).

Definition no_seats : course :=
  {| title := "Void"; credits := 1; capacity := 0; prereqs := [];
     enrolled := ESet ∅ |}.

(** Students A, B and C, registered in that order with GPA 3.9, 3.9, 3.5. *)
Definition abc : store :=
  final (run [AddStudent 1 "A" 1 (Float.dec 39 1);
              AddStudent 2 "B" 1 (Float.dec 39 1);
              AddStudent 3 "C" 1 (Float.dec 35 1)] empty_store).

(** [fill] for a course of non-zero capacity. *)
Definition fill_value (c : course) : float :=
  Float.mul (Float.div (Float.exact (Z.of_nat (len (enrolled c))))
               (Float.exact (capacity c)))
    (Float.of_Z 100).

(** The lines choice 2 prints for the courses of [cs]. *)
Definition fill_report (cs : dict string course) : list event :=
  flat_map (fun kc => fill_lines (fst kc) (fill_value (snd kc))) cs.

(** A course whose fill rate can be computed: its capacity is not 0 (and
    it has no more members than a container can hold). *)
Definition fillable (c : course) : Prop :=
  capacity c <> 0 /\ Z.of_nat (len (enrolled c)) < 2 ^ 63.

Definition all_fillable (cs : dict string course) : Prop :=
  forall code c, In (code, c) cs -> fillable c.
(** ** Vocabulary of the session properties *)

(** Every row names a student and a course the registry has. *)
Definition rows_known (st : store) : Prop :=
  forall e, In e (enrollments st) ->
    dict_mem (student_id e) (students st) = true /\
    dict_mem (course_code e) (courses st) = true.

(** No (student, course) pair has two rows. *)
Definition pairs_unique (st : store) : Prop :=
  forall sid code, (length (pair_rows sid code (enrollments st)) <= 1)%nat.

(** No course holds more students than its capacity, a negative capacity
    counting as none. *)
Definition within_capacity (st : store) : Prop :=
  forall code c, dict_get code (courses st) = Some c ->
    Z.of_nat (len (enrolled c)) <= Z.max 0 (capacity c).

(** Whoever has a row for a course has a row for each of its
    prerequisites. *)
Definition prereqs_met (st : store) : Prop :=
  forall e c, In e (enrollments st) ->
    dict_get (course_code e) (courses st) = Some c ->
    forall pre, In pre (prereqs c) ->
      enrolled_in (student_id e) pre (enrollments st).

(** [st'] still has every student of [st], unchanged. *)
Definition keeps_students (st st' : store) : Prop :=
  forall sid s, dict_get sid (students st) = Some s ->
    dict_get sid (students st') = Some s.

(** [st'] still has every course of [st], with the same title, credits,
    capacity and prerequisites and at least the same members. *)
Definition keeps_courses (st st' : store) : Prop :=
  forall code c, dict_get code (courses st) = Some c ->
    exists c', dict_get code (courses st') = Some c' /\
      title c' = title c /\ credits c' = credits c /\
      capacity c' = capacity c /\ prereqs c' = prereqs c /\
      members (enrolled c) ⊆ members (enrolled c').

(** [rows'] continues [rows]: it starts with as many rows, naming the same
    student and course at each position and graded wherever [rows] was,
    and may go on. *)
Definition keeps_rows (rows rows' : list enrollment) : Prop :=
  exists kept more,
    rows' = kept ++ more /\
    Forall2 (fun e e' =>
               student_id e' = student_id e /\ course_code e' = course_code e /\
               (grade e <> None -> grade e' <> None))
      rows kept.

(** ** Vocabulary of the codec properties *)

Definition is_dict (v : pyval) : bool :=
  match v with PDict _ => true | _ => false end.

(** A mapping, every value of which is an object: the shape [load_courses]
    can walk to the end. *)
Definition dict_of_dicts (v : pyval) : bool :=
  match v with
  | PDict d => forallb (fun kv => is_dict (snd kv)) d
  | _ => false
  end.

(** A course object with an [enrolled] entry: its own, or a new empty set
    put last. *)
Definition with_default (c : pyval) : pyval :=
  match c with
  | PDict d =>
      if dict_mem "enrolled"%string d then c
      else PDict (d ++ [("enrolled"%string, PSet ∅)])
  | _ => c
  end.



(** The enrollments of the rows that convert, in row order. *)
Definition converted_rows (py_int : string -> option Z)
    (py_float : string -> option float) (rows : list csv_row) : list enrollment :=
  omap (enrollment_of_row py_int py_float) rows.

(** ** Listing and searching

    The two remaining read-only operations.  [str.lower] belongs to the
    interpreter; [in] on two strings is the substring test. *)

(** [q in s] *)
Fixpoint contains (q s : string) : bool :=
  String.prefix q s ||
  match s with
  | EmptyString => false
  | String _ s' => contains q s'
  end.

Section Listing.
Variable lower : string -> string.
Variable str_float : float -> string.

Definition student_line (kv : Z * student) : event :=
  Print (Text (str_int (fst kv) ++ ": " ++ name (snd kv)))%string.

Definition course_line (cs : dict string course) (code : string) : event :=
  Print (Text (code ++ ": " ++ title_of cs code))%string.

Definition search (query : string) (st : store) : outcome :=
  let q := lower query in
  {| final := st;
     trace :=
       Print (Text "Students:")
       :: flat_map
            (fun kv =>
               if contains q (lower (name (snd kv))) then [student_line kv] else [])
            (students st)
       ++ Print (Text "Courses:")
       :: flat_map
            (fun code =>
               if contains q (lower code) then [course_line (courses st) code] else [])
            (dict_keys (courses st));
     status := Returned |}.

Definition list_students (st : store) : list event :=
  Print (Text (String "010" "--- Students ---"))
  :: map (fun kv =>
            Print (Text (str_int (fst kv) ++ ": " ++ name (snd kv)
                         ++ " (Year " ++ str_int (year (snd kv))
                         ++ ", GPA " ++ str_float (gpa (snd kv)) ++ ")")%string))
       (students st).

Definition list_courses (st : store) : list event :=
  Print (Text (String "010" "--- Courses ---"))
  :: map (fun kc =>
            Print (Text (fst kc ++ ": " ++ title (snd kc)
                         ++ " (" ++ str_int (credits (snd kc))
                         ++ " credits, cap " ++ str_int (capacity (snd kc)) ++ ")")%string))
       (courses st).

End Listing.

(** ** The program at its console

    [main] and the input handling of the operations: what the script does
    with the lines it reads.  A run is driven by the list of lines that
    [input()] will return; reading past the last one is the end of input.
    The prompts that [input] writes are not part of the recorded output.
    Writing the files is taken to succeed. *)

Inductive io_exn :=
  | Uncaught (e : exn)
  | ValueError
  | EOFError.

Record world := {
  mem : store;
  disk : files;
  stdin : list string;
  stdout : list event
}.

(** A computation that may read lines, print, change the store and the
    files, and end in an exception. *)
Definition io (A : Type) : Type := world -> (A + io_exn) * world.

#[global] Instance io_ret : MRet io := fun A a w => (inl a, w).

#[global] Instance io_bind : MBind io :=
  fun A B f m w =>
    match m w with
    | (inl a, w') => f a w'
    | (inr e, w') => (inr e, w')
    end.

(** [input(...)] *)
Definition input : io string :=
  fun w =>
    match stdin w with
    | [] => (inr EOFError, w)
    | s :: rest =>
        (inl s, {| mem := mem w; disk := disk w; stdin := rest; stdout := stdout w |})
    end.

Definition emit (evs : list event) : io unit :=
  fun w =>
    (inl tt, {| mem := mem w; disk := disk w; stdin := stdin w;
                stdout := stdout w ++ evs |}).

Definition get_mem : io store := fun w => (inl (mem w), w).

Definition raise {A : Type} (e : io_exn) : io A := fun w => (inr e, w).

(** Run an operation of the registrar on the store. *)
Definition engine (op : store -> outcome) : io unit :=
  fun w =>
    let o := op (mem w) in
    (match status o with Returned => inl tt | Raised e => inr (Uncaught e) end,
     {| mem := final o; disk := disk w; stdin := stdin w;
        stdout := stdout w ++ trace o |}).

(** [s.split(",")] *)
Fixpoint split_comma (s : string) : list string :=
  match s with
  | EmptyString => [EmptyString]
  | String c s' =>
      if Ascii.eqb c "," then EmptyString :: split_comma s'
      else
        match split_comma s' with
        | [] => [String c EmptyString]
        | p :: ps => String c p :: ps
        end
  end.

Definition main_menu : list event :=
  [Print (Text (String "010" "Campus Registrar Menu:"));
   Print (Text "1. List students/courses");
   Print (Text "2. Add student");
   Print (Text "3. Add course");
   Print (Text "4. Enroll student");
   Print (Text "5. Record/update grade");
   Print (Text "6. Show transcript");
   Print (Text "7. Search");
   Print (Text "8. Save & backup data");
   Print (Text "9. Analytics");
   Print (Text "10. Exit")].

Section Program.
(** The builtins and methods the script calls. *)
Variable py_int : string -> option Z.
Variable py_float : string -> option float.
Variable str_float : float -> string.
Variable set_order : gset Z -> list Z.
Variable py_sum : list float -> float.
Variable lower : string -> string.
Variable strip : string -> string.

(** [int(...)] and [float(...)] on a line just read. *)
Definition to_int (s : string) : io Z :=
  match py_int s with Some z => mret z | None => raise ValueError end.

Definition to_float (s : string) : io float :=
  match py_float s with Some x => mret x | None => raise ValueError end.

(** [[p.strip() for p in prereqs if p.strip()]] over the split answer. *)
Definition parse_prereqs (answer : string) : list string :=
  List.filter (fun p => negb (String.eqb p ""))
    (map strip (split_comma answer)).

Definition add_student_io : io unit :=
  t ← input; sid ← to_int t; st ← get_mem;
  if dict_mem sid (students st) then emit [Print (Text "Student already exists.")]
  else
    nm ← input; ty ← input; yr ← to_int ty; tg ← input; g ← to_float tg;
    engine (add_student sid nm yr g).

Definition add_course_io : io unit :=
  code ← input; st ← get_mem;
  if dict_mem code (courses st) then emit [Print (Text "Course already exists.")]
  else
    ttl ← input; tcr ← input; cr ← to_int tcr; tcap ← input; cap ← to_int tcap;
    answer ← input;
    engine (add_course code ttl cr cap (parse_prereqs answer)).

Definition enroll_io : io unit :=
  t ← input; sid ← to_int t; code ← input;
  engine (enroll_student sid code).

(** The grade is asked for only once the row is found. *)
Definition record_grade_io : io unit :=
  t ← input; sid ← to_int t; code ← input; st ← get_mem;
  if has_row sid code (enrollments st) then
    tg ← input; g ← to_float tg; engine (record_grade sid code g)
  else emit [Print (Text "Enrollment not found.")].

Definition transcript_io : io unit :=
  t ← input; sid ← to_int t; engine (transcript sid).

Definition search_io : io unit :=
  q ← input; engine (search lower q).

Definition analytics_io : io unit :=
  emit menu;;
  choice ← input; st ← get_mem;
  if String.eqb choice "1" then
    t ← input; n ← to_int t; emit (analytics_top n st)
  else if String.eqb choice "2" then
    let '(printed, fin) := fill_loop (courses st) in
    emit printed;;
    match fin with Returned => mret tt | Raised e => raise (Uncaught e) end
  else if String.eqb choice "3" then emit (avg_lines py_sum st)
  else mret tt.

(** [save_all()] *)
Definition save_io : io unit :=
  fun w =>
    let '(o, fs) := save_all str_float set_order true (mem w) (disk w) in
    (match status o with Returned => inl tt | Raised e => inr (Uncaught e) end,
     {| mem := final o; disk := fs; stdin := stdin w; stdout := stdout w ++ trace o |}).

Definition list_io : io unit :=
  st ← get_mem; emit (list_students str_float st ++ list_courses st).

(** The [match] of the menu loop, choice 10 apart. *)
Definition dispatch (choice : string) : io unit :=
  if String.eqb choice "1" then list_io
  else if String.eqb choice "2" then add_student_io
  else if String.eqb choice "3" then add_course_io
  else if String.eqb choice "4" then enroll_io
  else if String.eqb choice "5" then record_grade_io
  else if String.eqb choice "6" then transcript_io
  else if String.eqb choice "7" then search_io
  else if String.eqb choice "8" then save_io
  else if String.eqb choice "9" then analytics_io
  else emit [Print (Text "Invalid choice.")].

Inductive ending :=
  | Exit
  | Crash (e : io_exn).

(** The [while True] loop; [None] when [fuel] rounds were not enough. *)
Fixpoint main_loop (fuel : nat) (w : world) : option (ending * world) :=
  match fuel with
  | O => None
  | S fuel' =>
      match (emit main_menu;; input) w with
      | (inr e, w') => Some (Crash e, w')
      | (inl choice, w') =>
          if String.eqb choice "10" then
            match save_io w' with
            | (inl _, w'') => Some (Exit, w'')
            | (inr e, w'') => Some (Crash e, w'')
            end
          else
            match dispatch choice w' with
            | (inl _, w'') => main_loop fuel' w''
            | (inr e, w'') => Some (Crash e, w'')
            end
      end
  end.

(** [main()] on the files found and the lines to come; the outer [None]
    is a [courses.json] whose content is no mapping of course objects. *)
Definition main (fs : files) (lines : list string) : option (option (ending * world)) :=
  st ← boot py_int py_float fs;
  Some (main_loop (S (length lines))
          {| mem := st; disk := fs; stdin := lines; stdout := [] |}).

End Program.

(** ** Vocabulary of the program properties *)

(** A computation that only takes lines off the front of the input. *)
Definition shrinks {A : Type} (m : io A) : Prop :=
  forall w r w', m w = (r, w') -> exists used, stdin w = used ++ stdin w'.

(** A computation that leaves the three data files alone. *)
Definition keeps_disk {A : Type} (m : io A) : Prop :=
  forall w r w', m w = (r, w') -> disk w' = disk w.

(** The menu choice that starts an operation. *)
Definition choice_of (c : command) : string :=
  match c with
  | AddStudent _ _ _ _ => "2"
  | AddCourse _ _ _ _ _ => "3"
  | Enroll _ _ => "4"
  | RecordGrade _ _ _ => "5"
  end.

(** The answers that, typed after the choice, amount to the operation. *)
Definition reads_as (py_int : string -> option Z) (py_float : string -> option float)
    (strip : string -> string) (c : command) (answers : list string) : Prop :=
  match c with
  | AddStudent sid nm yr g =>
      exists ts ty tg,
        answers = [ts; nm; ty; tg] /\
        py_int ts = Some sid /\ py_int ty = Some yr /\ py_float tg = Some g
  | AddCourse code ttl cr cap pre =>
      exists tcr tcap answer,
        answers = [code; ttl; tcr; tcap; answer] /\
        py_int tcr = Some cr /\ py_int tcap = Some cap /\
        parse_prereqs strip answer = pre
  | Enroll sid code =>
      exists ts, answers = [ts; code] /\ py_int ts = Some sid
  | RecordGrade sid code g =>
      exists ts tg,
        answers = [ts; code; tg] /\ py_int ts = Some sid /\ py_float tg = Some g
  end.

(** How a run of the program reports the end of an operation. *)
Definition carried (s : completion) : unit + io_exn :=
  match s with Returned => inl tt | Raised e => inr (Uncaught e) end.

(** The answers an operation leaves unread when it returns before asking
    for them: they are the next lines the menu reads. *)
Definition unread (c : command) (st : store) (answers : list string) : list string :=
  match c with
  | AddStudent sid _ _ _ => if dict_mem sid (students st) then skipn 1 answers else []
  | AddCourse code _ _ _ _ => if dict_mem code (courses st) then skipn 1 answers else []
  | Enroll _ _ => []
  | RecordGrade sid code _ =>
      if has_row sid code (enrollments st) then [] else skipn 2 answers
  end.

(** The example campus at the console, nothing on disk yet. *)
Definition desk (lines : list string) : world :=
  {| mem := campus; disk := no_files; stdin := lines; stdout := [] |}.

(** ** Vocabulary of the ranking *)

(** Descending GPA order: the GPA of every entry is at least ([>=]) the GPA
    of each entry listed after it. *)
Definition gpa_descending (l : list (Z * student)) : Prop :=
  StronglySorted (fun a b => Float.leb (gpa (snd b)) (gpa (snd a)) = true) l.

(** Every GPA is a number. *)
Definition gpas_are_numbers (ss : dict Z student) : Prop :=
  Forall (fun x => Float.is_nan (gpa (snd x)) = false) ss.

(** [top] is the first [n] of the students ranked by GPA: of an arrangement
    of all of them in descending GPA order in which students of one GPA
    stand as they were inserted. *)
Definition ranked_top (n : Z) (ss : dict Z student) (top : list (Z * student)) : Prop :=
  exists sorted,
    top = firstn (Z.to_nat n) sorted /\
    Permutation sorted ss /\
    gpa_descending sorted /\
    forall g, Float.is_nan g = false ->
      tied (fun x => gpa (snd x)) g sorted = tied (fun x => gpa (snd x)) g ss.

(** C, A, D and B, registered in that order with GPA 3.5, 3.9, 3.7, 3.9. *)
Definition cadb : dict Z student :=
  [(3, {| name := "C"; year := 1; gpa := Float.dec 35 1 |});
   (1, {| name := "A"; year := 1; gpa := Float.dec 39 1 |});
   (4, {| name := "D"; year := 1; gpa := Float.dec 37 1 |});
   (2, {| name := "B"; year := 1; gpa := Float.dec 39 1 |})].

(** A student whose GPA was entered as [nan], which [float] accepts. *)
Definition one_nan : dict Z student :=
  [(1, {| name := "A"; year := 1; gpa := Float.of_Z 1 |});
   (2, {| name := "B"; year := 1; gpa := S754_nan |})].

(** A students file whose second record is one the reader cannot split;
    the records around it are well formed. *)
Definition torn_students : list csv_record :=
  [Yielded [("student_id", "1"); ("full_name", "Ada"); ("year", "1"); ("gpa", "3.9")];
   Broken CsvError;
   Yielded [("student_id", "2"); ("full_name", "Bob"); ("year", "2"); ("gpa", "3.5")]]%string.

(** ** Facts about floats *)

Lemma ltb_rank x y :
  Float.is_nan x = false -> Float.is_nan y = false ->
  Float.ltb x y = true <-> lex_lt (rank x) (rank y).
Proof.
  intros Hx Hy. unfold Float.ltb, SFltb.
  destruct x as [sx|sx| |sx mx ex], y as [sy|sy| |sy my ey];
    try discriminate; cbn [SFcompare rank lex_lt];
    try (destruct sx); try (destruct sy); cbn;
    try (split; [discriminate || lia | lia || reflexivity]).
  all: rewrite Pos.compare_cont_spec; cbn [Pos.switch_Eq].
  all: destruct (Z.compare_spec ex ey); destruct (Pos.compare_spec mx my); cbn;
    split; try discriminate; try reflexivity; try lia.
Qed.

Lemma ltb_false_rank x y :
  Float.is_nan x = false -> Float.is_nan y = false ->
  Float.ltb x y = false <-> ~ lex_lt (rank x) (rank y).
Proof.
  intros Hx Hy. rewrite <- (ltb_rank x y Hx Hy).
  destruct (Float.ltb x y); split; congruence.
Qed.

Ltac rank_order :=
  repeat match goal with
  | H : Float.ltb ?a ?b = true |- _ => apply ltb_rank in H; [| assumption ..]
  | H : Float.ltb ?a ?b = false |- _ => apply ltb_false_rank in H; [| assumption ..]
  | |- Float.ltb ?a ?b = true => apply ltb_rank; [assumption .. |]
  | |- Float.ltb ?a ?b = false => apply ltb_false_rank; [assumption .. |]
  end;
  repeat match goal with
  | H : context [rank ?a] |- _ => destruct (rank a) as [[? ?] ?]
  | |- context [rank ?a] => destruct (rank a) as [[? ?] ?]
  end;
  unfold lex_lt in *; lia.

Lemma ltb_trans x y z :
  Float.is_nan x = false -> Float.is_nan y = false -> Float.is_nan z = false ->
  Float.ltb x y = true -> Float.ltb y z = true -> Float.ltb x z = true.
Proof. intros Hx Hy Hz H1 H2. rank_order. Qed.

Lemma ltb_neg_trans x y z :
  Float.is_nan x = false -> Float.is_nan y = false -> Float.is_nan z = false ->
  Float.ltb x y = false -> Float.ltb y z = false -> Float.ltb x z = false.
Proof. intros Hx Hy Hz H1 H2. rank_order. Qed.

Lemma ltb_asym x y :
  Float.is_nan x = false -> Float.is_nan y = false ->
  Float.ltb x y = true -> Float.ltb y x = false.
Proof. intros Hx Hy H1. rank_order. Qed.

Lemma leb_rank x y :
  Float.is_nan x = false -> Float.is_nan y = false ->
  Float.leb x y = true <-> ~ lex_lt (rank y) (rank x).
Proof.
  intros Hx Hy. unfold Float.leb, SFleb.
  destruct x as [sx|sx| |sx mx ex], y as [sy|sy| |sy my ey];
    try discriminate; cbn [SFcompare rank lex_lt];
    try (destruct sx); try (destruct sy); cbn;
    try (split; [discriminate || lia | lia || reflexivity]).
  all: rewrite Pos.compare_cont_spec; cbn [Pos.switch_Eq].
  all: destruct (Z.compare_spec ex ey); destruct (Pos.compare_spec mx my); cbn;
    split; try discriminate; try reflexivity; try lia.
Qed.

Lemma leb_of_not_ltb x y :
  Float.is_nan x = false -> Float.is_nan y = false ->
  Float.ltb x y = false -> Float.leb y x = true.
Proof.
  intros Hx Hy H. apply leb_rank; [assumption..|].
  apply ltb_false_rank in H; assumption.
Qed.

Lemma leb_nan_r x : Float.leb x S754_nan = false.
Proof. destruct x as [[]|[]| |[] m e]; reflexivity. Qed.

Lemma leb_nan_l x : Float.leb S754_nan x = false.
Proof. destruct x as [[]|[]| |[] m e]; reflexivity. Qed.

(** ** Facts about lists and dictionaries *)

Lemma filter_none {A : Type} (f : A -> bool) (l : list A) :
  (forall a, In a l -> f a = false) -> List.filter f l = [].
Proof.
  induction l as [|a l IH]; cbn; intros H; [reflexivity|].
  rewrite (H a (or_introl eq_refl)). apply IH. intros b Hb. apply H. now right.
Qed.

Lemma StronglySorted_snoc {A : Type} (R : A -> A -> Prop) (l : list A) (x : A) :
  StronglySorted R l -> Forall (fun a => R a x) l -> StronglySorted R (l ++ [x]).
Proof.
  induction 1 as [|a l Hs IH Ha]; cbn; intros Hx.
  - repeat constructor.
  - apply Forall_cons_iff in Hx as [Hax Hx].
    constructor; [apply IH; assumption|].
    apply Forall_app. split; [assumption|]. repeat constructor. assumption.
Qed.

Lemma StronglySorted_rev {A : Type} (R : A -> A -> Prop) (l : list A) :
  StronglySorted R l -> StronglySorted (fun a b => R b a) (rev l).
Proof.
  induction 1 as [|a l Hs IH Ha]; cbn; [constructor|].
  apply StronglySorted_snoc; [assumption|].
  apply Forall_rev. assumption.
Qed.

(** ** Facts about the sort *)

Section SortFacts.
Context {A : Type} (key : A -> float).

Let lt (a b : A) : bool := Float.ltb (key a) (key b).

Lemma insert_sorted_perm x l : Permutation (insert_sorted lt x l) (x :: l).
Proof.
  induction l as [|y l IH]; cbn; [reflexivity|].
  destruct (lt x y); [reflexivity|].
  rewrite IH. apply perm_swap.
Qed.

Lemma insert_sorted_no_nan x l :
  Float.is_nan (key x) = false -> no_nan key l -> no_nan key (insert_sorted lt x l).
Proof.
  intros Hx Hl. unfold no_nan in *.
  eapply Permutation_Forall; [symmetry; apply insert_sorted_perm|].
  constructor; assumption.
Qed.

Lemma insert_sorted_ascending x l :
  Float.is_nan (key x) = false -> no_nan key l ->
  ascending key l -> ascending key (insert_sorted lt x l).
Proof.
  intros Hx Hn Hs. induction Hs as [|y l Hs IH Hy]; cbn.
  - repeat constructor.
  - apply Forall_cons_iff in Hn as [Hny Hn].
    destruct (lt x y) eqn:E; unfold lt in E.
    + constructor; [constructor; assumption|].
      constructor; [apply ltb_asym; assumption|].
      rewrite List.Forall_forall in Hy, Hn |- *. intros z Hz.
      specialize (Hy z Hz). specialize (Hn z Hz). cbn in Hy.
      destruct (Float.ltb (key z) (key x)) eqn:E2; [|reflexivity].
      rewrite (ltb_trans _ _ _ Hn Hx Hny E2 E) in Hy. discriminate.
    + constructor; [apply IH; assumption|].
      eapply Permutation_Forall; [symmetry; apply insert_sorted_perm|].
      constructor; assumption.
Qed.

Lemma insert_sorted_tied k x l :
  Float.is_nan k = false -> Float.is_nan (key x) = false -> no_nan key l ->
  ascending key l ->
  tied key k (insert_sorted lt x l) = tied key k l ++ tied key k [x].
Proof.
  intros Hk Hx Hn Hs. induction Hs as [|y l Hs IH Hy]; [reflexivity|].
  apply Forall_cons_iff in Hn as [Hny Hn]. cbn [insert_sorted].
  destruct (lt x y) eqn:E; unfold lt in E.
  - unfold tied at 3. cbn [List.filter].
    destruct (Float.tie (key x) k) eqn:T.
    + (* [x] ties with [k] and is below [y]: nothing from [y] on ties *)
      assert (Hnone : tied key k (y :: l) = []).
      { apply filter_none. intros z Hz.
        assert (Hnz : Float.is_nan (key z) = false).
        { destruct Hz as [<-|Hz]; [assumption|].
          rewrite List.Forall_forall in Hn. auto. }
        assert (Hzy : Float.ltb (key z) (key y) = false).
        { destruct Hz as [<-|Hz]; [|rewrite List.Forall_forall in Hy; auto].
          destruct (Float.ltb (key y) (key y)) eqn:E3; [|reflexivity].
          rewrite (ltb_asym _ _ Hny Hny E3) in E3. discriminate. }
        unfold Float.tie in T |- *.
        apply andb_true_iff in T as [T1 T2].
        apply negb_true_iff in T1, T2.
        apply andb_false_iff. right. apply negb_false_iff.
        clear Hz IH Hy Hn Hs. rank_order. }
      rewrite Hnone. unfold tied in Hnone |- *. cbn [List.filter].
      rewrite T. cbn [List.filter] in Hnone. rewrite Hnone. reflexivity.
    + unfold tied. cbn [List.filter]. rewrite T, app_nil_r. reflexivity.
  - unfold tied in IH |- *. cbn [List.filter].
    destruct (Float.tie (key y) k); cbn; rewrite IH by assumption; reflexivity.
Qed.

Lemma stable_sort_from acc l :
  no_nan key acc -> no_nan key l -> ascending key acc ->
  Permutation (fold_left (fun acc x => insert_sorted lt x acc) l acc) (acc ++ l) /\
  ascending key (fold_left (fun acc x => insert_sorted lt x acc) l acc) /\
  forall k, Float.is_nan k = false ->
    tied key k (fold_left (fun acc x => insert_sorted lt x acc) l acc)
    = tied key k acc ++ tied key k l.
Proof.
  revert acc. induction l as [|x l IH]; intros acc Hacc Hl Hs; cbn [fold_left].
  - rewrite app_nil_r. split; [reflexivity|]. split; [assumption|].
    intros k _. unfold tied. cbn. now rewrite app_nil_r.
  - apply Forall_cons_iff in Hl as [Hx Hl].
    destruct (IH (insert_sorted lt x acc)) as (P & S & T).
    + apply insert_sorted_no_nan; assumption.
    + assumption.
    + apply insert_sorted_ascending; assumption.
    + split; [|split; [exact S|]].
      * rewrite P, insert_sorted_perm. apply Permutation_middle.
      * intros k Hk. rewrite (T k Hk), insert_sorted_tied by assumption.
        rewrite <- app_assoc. unfold tied. cbn [List.filter].
        destruct (Float.tie (key x) k); reflexivity.
Qed.

Lemma sorted_reverse_spec l :
  no_nan key l ->
  Permutation (sorted_reverse lt l) l /\
  descending key (sorted_reverse lt l) /\
  forall k, Float.is_nan k = false ->
    tied key k (sorted_reverse lt l) = tied key k l.
Proof.
  intros Hn. unfold sorted_reverse, stable_sort.
  destruct (stable_sort_from [] (rev l)) as (P & S & T).
  - constructor.
  - apply Forall_rev. assumption.
  - constructor.
  - split; [|split].
    + rewrite <- Permutation_rev, P. cbn. symmetry. apply Permutation_rev.
    + apply (StronglySorted_rev _ _ S).
    + intros k Hk. unfold tied in *. rewrite List.filter_rev, (T k Hk). cbn.
      rewrite List.filter_rev, rev_involutive. reflexivity.
Qed.

End SortFacts.

(** ** Analytics: top students *)

Lemma slice_to_nonneg {A : Type} (n : Z) (l : list A) :
  0 <= n -> slice_to n l = firstn (Z.to_nat n) l.
Proof. intros Hn. unfold slice_to. apply Z.leb_le in Hn. now rewrite Hn. Qed.

Lemma StronglySorted_within {A : Type} (R R' : A -> A -> Prop) (l : list A) :
  (forall a b, In a l -> In b l -> R a b -> R' a b) ->
  StronglySorted R l -> StronglySorted R' l.
Proof.
  intros Himp Hs. induction Hs as [|x l Hs IH Hx]; constructor.
  - apply IH. intros a b Ha Hb. apply Himp; now right.
  - rewrite List.Forall_forall in Hx |- *. intros b Hb.
    apply Himp; [now left | now right | auto].
Qed.

(** C8, amended: for a count [n >= 0] and students whose GPAs are all
    numbers, choice 1 of [analytics] lists the first [n] entries of the
    students arranged in descending GPA order, entries whose GPAs tie
    keeping the order in which they were inserted; over A: 3.9, B: 3.9,
    C: 3.5 inserted in that order the top 2 are A then B, and over C: 3.5,
    A: 3.9, D: 3.7, B: 3.9 the top 3 are A, B, D. *)
Theorem top_students_sorted_stable :
  (forall (n : Z) (ss : dict Z student),
     0 <= n -> gpas_are_numbers ss -> ranked_top n ss (top_students n ss)) /\
  map fst (top_students 2 (students abc)) = [1; 2] /\
  map fst (top_students 3 cadb) = [1; 2; 4] /\
  (forall sum, trace (analytics sum "1" 2 abc) =
     menu ++ [Print (TopStudent "A" (Float.dec 39 1));
              Print (TopStudent "B" (Float.dec 39 1))]).
Proof.
  split; [|split; [reflexivity|split; [reflexivity|intros sum; reflexivity]]].
  intros n ss Hn Hnum.
  destruct (sorted_reverse_spec (fun x : Z * student => gpa (snd x)) ss Hnum)
    as (Hperm & Hdesc & Hties).
  exists (sorted_reverse gpa_lt ss).
  split; [apply slice_to_nonneg; assumption|].
  split; [exact Hperm|]. split; [|exact Hties].
  assert (Hnum' : gpas_are_numbers (sorted_reverse gpa_lt ss)).
  { unfold gpas_are_numbers. eapply Permutation_Forall; [symmetry; exact Hperm|].
    exact Hnum. }
  unfold gpas_are_numbers in Hnum'. rewrite List.Forall_forall in Hnum'.
  refine (StronglySorted_within _ _ _ _ Hdesc).
  intros a b Ha Hb Hab. apply leb_of_not_ltb; auto.
Qed.

Lemma top_students_sorted_stable_witness :
  ranked_top 3 cadb (top_students 3 cadb).
Proof.
  apply (proj1 top_students_sorted_stable 3 cadb).
  - lia.
  - repeat constructor.
Defined.

(** C8 refuted as stated.  Asked for the top -1, the script lists A and B:
    the slice [[:n]] with a negative [n] drops from the end.  With a GPA
    that is [nan] no arrangement of the students is in descending order, so
    whatever is listed is not the top of one; here it is A: 1.0 before
    B: nan. *)
Lemma top_students_outside_the_ranking :
  map fst (top_students (-1) (students abc)) = [1; 2] /\
  ~ ranked_top (-1) (students abc) (top_students (-1) (students abc)) /\
  map fst (top_students 2 one_nan) = [1; 2] /\
  (forall top, ~ ranked_top 2 one_nan top).
Proof.
  split; [reflexivity|]. split; [|split; [reflexivity|]].
  - intros (sorted & Htop & _). discriminate Htop.
  - intros top (sorted & _ & Hperm & Hdesc & _).
    symmetry in Hperm. apply Permutation_length_2_inv in Hperm.
    destruct Hperm as [-> | ->]; inversion Hdesc as [|x l Hs Hall]; subst;
      inversion Hall as [|y l' Hle Hrest]; subst; discriminate Hle.
Qed.

(** ** Facts about dictionaries *)

Section DictFacts.
Context {K V : Type} `{EqDecision K}.
Implicit Types (k : K) (v : V) (d : dict K V).

Lemma dict_get_set_eq k v d : dict_get k (dict_set k v d) = Some v.
Proof.
  induction d as [|[k' v'] d IH]; cbn.
  - destruct (decide (k = k)); congruence.
  - destruct (decide (k = k')) as [->|Hne]; cbn.
    + destruct (decide (k' = k')); congruence.
    + destruct (decide (k = k')); [contradiction | assumption].
Qed.

Lemma dict_get_set_ne k k' v d :
  k <> k' -> dict_get k' (dict_set k v d) = dict_get k' d.
Proof.
  intros Hne. induction d as [|[k0 v0] d IH]; cbn.
  - destruct (decide (k' = k)); congruence.
  - destruct (decide (k = k0)) as [->|Hne0]; cbn.
    + destruct (decide (k' = k0)); congruence.
    + destruct (decide (k' = k0)); [reflexivity | assumption].
Qed.

Lemma dict_mem_true k d : dict_mem k d = true <-> exists v, dict_get k d = Some v.
Proof.
  unfold dict_mem. destruct (dict_get k d) as [v|]; split.
  - eauto.
  - reflexivity.
  - discriminate.
  - intros [v Hv]. discriminate.
Qed.

Lemma dict_mem_false k d : dict_mem k d = false <-> dict_get k d = None.
Proof. unfold dict_mem. destruct (dict_get k d); split; congruence. Qed.

Lemma dict_mem_set k k' v d :
  dict_mem k' d = true -> dict_mem k' (dict_set k v d) = true.
Proof.
  intros Hm. destruct (decide (k = k')) as [->|Hne].
  - unfold dict_mem. now rewrite dict_get_set_eq.
  - unfold dict_mem in *. now rewrite dict_get_set_ne.
Qed.

Lemma dict_get_in k v d : dict_get k d = Some v -> In (k, v) d.
Proof.
  induction d as [|[k' v'] d IH]; cbn; [discriminate|].
  destruct (decide (k = k')) as [->|Hne].
  - intros [= ->]. now left.
  - intros Hg. right. auto.
Qed.

End DictFacts.

(** ** Facts about the row predicates *)

Lemma is_pair_true sid code e :
  is_pair sid code e = true <-> student_id e = sid /\ course_code e = code.
Proof.
  unfold is_pair. rewrite andb_true_iff, Z.eqb_eq, String.eqb_eq. reflexivity.
Qed.

Lemma has_row_true sid code rows :
  has_row sid code rows = true <-> enrolled_in sid code rows.
Proof.
  unfold has_row, enrolled_in. rewrite existsb_exists.
  split; intros (e & He & Hp); exists e; split; try assumption;
    apply is_pair_true; assumption.
Qed.

Lemma has_row_false sid code rows :
  has_row sid code rows = false <-> ~ enrolled_in sid code rows.
Proof.
  rewrite <- has_row_true. destruct (has_row sid code rows); split; congruence.
Qed.

Lemma lacks_true sid rows pre :
  lacks sid rows pre = true <-> ~ enrolled_in sid pre rows.
Proof.
  unfold lacks, enrolled_in. rewrite forallb_forall. split.
  - intros Hall (e & He & Hs & Hc).
    specialize (Hall e). rewrite filter_In, Z.eqb_eq in Hall.
    specialize (Hall (conj He Hs)).
    apply negb_true_iff, String.eqb_neq in Hall. contradiction.
  - intros Hno e He. apply filter_In in He as [He Hs]. apply Z.eqb_eq in Hs.
    apply negb_true_iff, String.eqb_neq. intros Hc. apply Hno. eauto.
Qed.

Lemma missing_prereq_true sid c rows :
  existsb (lacks sid rows) (prereqs c) = true <-> missing_prereq sid c rows.
Proof.
  unfold missing_prereq. rewrite existsb_exists.
  split; intros (pre & Hin & Hl); exists pre; split; try assumption;
    apply lacks_true; assumption.
Qed.

(** ** Enrollment *)

Lemma dict_keys_set_known {K V : Type} `{EqDecision K} (k : K) (v v0 : V)
    (d : dict K V) :
  dict_get k d = Some v0 -> dict_keys (dict_set k v d) = dict_keys d.
Proof.
  induction d as [|[k' v'] d IH]; cbn; [discriminate|].
  destruct (decide (k = k')) as [->|Hne]; [reflexivity|].
  intros Hg. cbn. f_equal. apply IH, Hg.
Qed.

(** C2: [enroll_student] applies its four checks in the order unknown
    student or course, course full, already enrolled, missing prerequisite;
    the first check that fails decides the message and the store is left as
    it was.  When none fails, one row with no grade is appended, the
    students and every other course stay as they were, and what becomes of
    the course depends on the shape of its [enrolled]: a set gains the
    student and the operation returns; a list (what a restart leaves) has
    no [add], so the operation stops with [AttributeError] and the course
    is as before, the row staying appended. *)
Theorem enroll_checks_in_order (sid : Z) (code : string) (st : store) :
  let rows := enrollments st in
  let o := enroll_student sid code st in
  (dict_get sid (students st) = None \/ dict_get code (courses st) = None ->
   rejected o st "Invalid student or course.") /\
  (forall s c,
     dict_get sid (students st) = Some s ->
     dict_get code (courses st) = Some c ->
     (capacity c <= Z.of_nat (len (enrolled c)) -> rejected o st "Course full.") /\
     (Z.of_nat (len (enrolled c)) < capacity c ->
      (enrolled_in sid code rows -> rejected o st "Already enrolled.") /\
      (~ enrolled_in sid code rows ->
       (missing_prereq sid c rows -> rejected o st "Missing prerequisite.") /\
       (~ missing_prereq sid c rows ->
        students (final o) = students st /\
        enrollments (final o)
        = rows ++ [{| student_id := sid; course_code := code; grade := None |}] /\
        dict_keys (courses (final o)) = dict_keys (courses st) /\
        (forall code', code' <> code ->
           dict_get code' (courses (final o)) = dict_get code' (courses st)) /\
        match enrolled c with
        | ESet ids =>
            status o = Returned /\
            dict_get code (courses (final o))
            = Some {| title := title c; credits := credits c; capacity := capacity c;
                      prereqs := prereqs c; enrolled := ESet ({[sid]} ∪ ids) |} /\
            trace o = [Log ("Enrolled " ++ str_int sid ++ " in " ++ code)%string]
        | EList l =>
            status o = Raised (AttributeError "add") /\
            dict_get code (courses (final o)) = Some c /\
            trace o = []
        end)))).
Proof.
  intros rows o. subst rows o. unfold enroll_student. split.
  - intros [Hs|Hc].
    + rewrite Hs. repeat split.
    + rewrite Hc. destruct (dict_get sid (students st)); repeat split.
  - intros s c Hs Hc. rewrite Hs, Hc. split.
    + intros Hfull. apply Z.leb_le in Hfull. rewrite Hfull. repeat split.
    + intros Hroom. apply Z.leb_gt in Hroom. rewrite Hroom. split.
      * intros Hin. apply has_row_true in Hin. rewrite Hin. repeat split.
      * intros Hnot. apply has_row_false in Hnot. rewrite Hnot. split.
        -- intros Hmiss. apply missing_prereq_true in Hmiss. rewrite Hmiss.
           repeat split.
        -- intros Hok.
           destruct (existsb (lacks sid (enrollments st)) (prereqs c)) eqn:E.
           { apply missing_prereq_true in E. contradiction. }
           destruct (enrolled c) as [ids|l] eqn:Hshape;
             cbn [final status trace students courses enrollments with_courses
                    with_enrollments].
           ++ split; [reflexivity|]. split; [reflexivity|].
              split; [apply (dict_keys_set_known _ _ c), Hc|].
              split; [intros code' Hne; now apply dict_get_set_ne|].
              split; [reflexivity|]. split; [|reflexivity].
              apply dict_get_set_eq.
           ++ repeat split; auto.
Qed.

Lemma campus_by_session :
  final (run [AddStudent 1 "Ada" 1 (Float.dec 39 1);
              AddStudent 2 "Bob" 2 (Float.dec 35 1);
              AddCourse "CS101" "Intro" 3 10 [];
              AddCourse "CS102" "Data" 3 1 ["CS101"%string];
              Enroll 1 "CS101"] empty_store) = campus.
Proof. vm_compute. reflexivity. Qed.

(** Bob enrolls in CS101 in the session that built [campus], and again
    after a save and a restart. *)
Lemma enroll_checks_in_order_witness :
  (let o := enroll_student 2 "CS101" campus in
   students (final o) = students campus /\
   enrollments (final o)
   = enrollments campus
     ++ [{| student_id := 2; course_code := "CS101"; grade := None |}] /\
   dict_keys (courses (final o)) = dict_keys (courses campus) /\
   (forall code', code' <> "CS101"%string ->
      dict_get code' (courses (final o)) = dict_get code' (courses campus)) /\
   status o = Returned /\
   dict_get "CS101"%string (courses (final o))
   = Some {| title := "Intro"; credits := 3; capacity := 10; prereqs := [];
             enrolled := ESet ({[2]} ∪ {[1]}) |} /\
   trace o = [Log "Enrolled 2 in CS101"]) /\
  (let o := enroll_student 2 "CS101" campus_reloaded in
   students (final o) = students campus_reloaded /\
   enrollments (final o)
   = enrollments campus_reloaded
     ++ [{| student_id := 2; course_code := "CS101"; grade := None |}] /\
   dict_keys (courses (final o)) = dict_keys (courses campus_reloaded) /\
   (forall code', code' <> "CS101"%string ->
      dict_get code' (courses (final o)) = dict_get code' (courses campus_reloaded)) /\
   status o = Raised (AttributeError "add") /\
   dict_get "CS101"%string (courses (final o))
   = Some {| title := "Intro"; credits := 3; capacity := 10; prereqs := [];
             enrolled := EList [1] |} /\
   trace o = []).
Proof.
  split.
  - refine (proj2 (proj2 (proj2
              (proj2 (enroll_checks_in_order 2 "CS101" campus) bob cs101 _ _) _) _) _).
    + reflexivity.
    + reflexivity.
    + reflexivity.
    + intros (e & He & Hs & Hc). cbn in He. destruct He as [<-|[]]. discriminate.
    + intros (pre & [] & _).
  - refine (proj2 (proj2 (proj2
              (proj2 (enroll_checks_in_order 2 "CS101" campus_reloaded) bob
                 {| title := "Intro"; credits := 3; capacity := 10; prereqs := [];
                    enrolled := EList [1] |} _ _) _) _) _).
    + reflexivity.
    + reflexivity.
    + reflexivity.
    + intros (e & He & Hs & Hc). cbn in He. destruct He as [<-|[]]. discriminate.
    + intros (pre & [] & _).
Defined.

(** ** The [enrolled] index *)

Lemma sids_of_snoc code rows e :
  sids_of code (rows ++ [e])
  = sids_of code rows
    ++ (if String.eqb (course_code e) code then [student_id e] else []).
Proof.
  unfold sids_of, rows_of. rewrite List.filter_app, map_app. cbn.
  destruct (String.eqb (course_code e) code); reflexivity.
Qed.

Lemma in_sids_of sid code rows :
  In sid (sids_of code rows) <-> enrolled_in sid code rows.
Proof.
  unfold sids_of, rows_of, enrolled_in. rewrite in_map_iff. split.
  - intros (e & Hs & He). apply filter_In in He as [He Hc].
    apply String.eqb_eq in Hc. eauto.
  - intros (e & He & Hs & Hc). exists e. split; [assumption|].
    apply filter_In. split; [assumption|]. now apply String.eqb_eq.
Qed.

Lemma set_grade_keeps_pairs sid code g rows rows' :
  set_grade sid code g rows = Some rows' ->
  Forall2 (fun a b => student_id a = student_id b /\ course_code a = course_code b)
    rows' rows.
Proof.
  revert rows'. induction rows as [|e rows IH]; cbn; intros rows' H; [discriminate|].
  destruct (is_pair sid code e).
  - injection H as <-. constructor; [split; reflexivity|].
    clear. induction rows; constructor; auto.
  - destruct (set_grade sid code g rows) as [r|]; [|discriminate].
    injection H as <-. constructor; [split; reflexivity | apply IH; reflexivity].
Qed.

Lemma same_pairs_sids code rows' rows :
  Forall2 (fun a b => student_id a = student_id b /\ course_code a = course_code b)
    rows' rows ->
  sids_of code rows' = sids_of code rows.
Proof.
  induction 1 as [|a b l l' [Hs Hc] _ IH]; [reflexivity|].
  unfold sids_of, rows_of in *. cbn. rewrite Hc.
  destruct (String.eqb (course_code b) code); cbn; congruence.
Qed.

Lemma same_pairs_codes rows' rows e :
  Forall2 (fun a b => student_id a = student_id b /\ course_code a = course_code b)
    rows' rows ->
  In e rows' -> exists e0, In e0 rows /\ course_code e0 = course_code e.
Proof.
  induction 1 as [|a b l l' [Hs Hc] _ IH]; cbn; [contradiction|].
  intros [<-|He].
  - exists b. auto.
  - destruct (IH He) as (e0 & H0 & H1). eauto.
Qed.

Lemma consistent_empty : consistent empty_store.
Proof. split; [intros e []|intros code c H; discriminate]. Qed.

Lemma add_student_consistent sid nm yr g st :
  consistent st -> consistent (final (add_student sid nm yr g st)).
Proof.
  unfold add_student. destruct (dict_mem sid (students st)); intros H; exact H.
Qed.

Lemma add_course_consistent code ttl cr cap pre st :
  consistent st -> consistent (final (add_course code ttl cr cap pre st)).
Proof.
  unfold add_course. destruct (dict_mem code (courses st)) eqn:E; intros [Href Hidx];
    [split; assumption|].
  split; cbn [final with_courses courses enrollments].
  - intros e He. apply dict_mem_set. auto.
  - intros code' c'. destruct (decide (code = code')) as [<-|Hne].
    + rewrite dict_get_set_eq. intros [= <-]. cbn [enrolled members len].
      assert (Hnone : sids_of code (enrollments st) = []).
      { destruct (sids_of code (enrollments st)) as [|sid l] eqn:El; [reflexivity|].
        assert (Hin : In sid (sids_of code (enrollments st))) by (rewrite El; now left).
        apply in_sids_of in Hin as (e & He & _ & Hc).
        specialize (Href e He). rewrite Hc in Href. congruence. }
      rewrite Hnone. cbn [length list_to_set]. split; [constructor|]. split; [reflexivity|].
      apply size_empty.
    + rewrite dict_get_set_ne by assumption. apply Hidx.
Qed.

Lemma record_grade_consistent sid code g st :
  consistent st -> consistent (final (record_grade sid code g st)).
Proof.
  unfold record_grade. destruct (set_grade sid code g (enrollments st)) as [rows'|] eqn:E;
    intros [Href Hidx]; [|split; assumption].
  apply set_grade_keeps_pairs in E. split; cbn [final with_enrollments courses enrollments].
  - intros e He. destruct (same_pairs_codes _ _ _ E He) as (e0 & H0 & <-). auto.
  - intros code' c' Hc'. rewrite (same_pairs_sids code' _ _ E). auto.
Qed.

Lemma enroll_student_consistent sid code st :
  consistent st -> status (enroll_student sid code st) = Returned ->
  consistent (final (enroll_student sid code st)).
Proof.
  intros [Href Hidx]. unfold enroll_student.
  destruct (dict_get sid (students st)) as [s|]; [|intros _; split; assumption].
  destruct (dict_get code (courses st)) as [c|] eqn:Ec; [|intros _; split; assumption].
  destruct (capacity c <=? Z.of_nat (len (enrolled c))); [intros _; split; assumption|].
  destruct (has_row sid code (enrollments st)) eqn:Er; [intros _; split; assumption|].
  destruct (existsb (lacks sid (enrollments st)) (prereqs c));
    [intros _; split; assumption|].
  destruct (enrolled c) as [ids|l] eqn:Een; [intros _|discriminate].
  apply has_row_false in Er. rewrite <- in_sids_of in Er.
  destruct (Hidx code c Ec) as (Hnd & Hmem & Hlen). rewrite Een in Hmem, Hlen.
  cbn [members len] in Hmem, Hlen.
  split; cbn [final with_courses with_enrollments courses enrollments].
  - intros e He. apply in_app_or in He as [He|[<-|[]]].
    + apply dict_mem_set. auto.
    + cbn [course_code new_row]. unfold dict_mem. now rewrite dict_get_set_eq.
  - intros code' c'. destruct (decide (code = code')) as [<-|Hne].
    + rewrite dict_get_set_eq. intros [= <-]. cbn [enrolled with_enrolled members len].
      rewrite sids_of_snoc. cbn [course_code student_id new_row]. rewrite String.eqb_refl.
      assert (Hnot : sid ∉ ids).
      { rewrite Hmem, elem_of_list_to_set, list_elem_of_In. assumption. }
      split; [|split].
      * apply NoDup_app. split; [assumption|]. split; [|apply NoDup_singleton].
        intros x Hx Hx'. apply list_elem_of_In in Hx.
        apply list_elem_of_singleton in Hx'. subst x. contradiction.
      * rewrite list_to_set_app_L, <- Hmem. cbn [list_to_set].
        rewrite (right_id_L ∅ (∪)). apply (comm_L (∪)).
      * rewrite size_union by (apply disjoint_singleton_l; assumption).
        rewrite size_singleton, Hlen.
        rewrite length_app. cbn [length]. lia.
    + rewrite dict_get_set_ne by assumption. intros Hc'.
      rewrite sids_of_snoc. cbn [course_code student_id new_row].
      destruct (String.eqb code code') eqn:E;
        [apply String.eqb_eq in E; contradiction|].
      rewrite app_nil_r. auto.
Qed.

Lemma exec_consistent c st :
  consistent st -> status (exec c st) = Returned -> consistent (final (exec c st)).
Proof.
  destruct c; cbn; intros H Hs.
  - now apply add_student_consistent.
  - now apply add_course_consistent.
  - now apply enroll_student_consistent.
  - now apply record_grade_consistent.
Qed.

Lemma run_consistent cmds st :
  consistent st -> status (run cmds st) = Returned -> consistent (final (run cmds st)).
Proof.
  revert st. induction cmds as [|c cmds IH]; cbn; intros st H Hs; [assumption|].
  destruct (status (exec c st)) eqn:E; cbn in *.
  - apply IH; [apply exec_consistent|]; assumption.
  - congruence.
Qed.

Lemma all_sets_get code c cs :
  all_sets cs -> dict_get code cs = Some c -> exists s, enrolled c = ESet s.
Proof.
  intros Ha Hg. apply dict_get_in in Hg.
  unfold all_sets in Ha. rewrite List.Forall_forall in Ha. apply (Ha _ Hg).
Qed.

Lemma all_sets_set code c cs :
  all_sets cs -> (exists s, enrolled c = ESet s) -> all_sets (dict_set code c cs).
Proof.
  intros Ha Hc. induction Ha as [|[k v] cs Hv Ha IH]; cbn.
  - constructor; [assumption | constructor].
  - destruct (decide (code = k)); constructor; assumption.
Qed.

Lemma exec_all_sets c st :
  all_sets (courses st) ->
  status (exec c st) = Returned /\ all_sets (courses (final (exec c st))).
Proof.
  intros Ha. destruct c as [sid nm yr g|code ttl cr cap pre|sid code|sid code g]; cbn.
  - unfold add_student. destruct (dict_mem sid (students st)); cbn; auto.
  - unfold add_course. destruct (dict_mem code (courses st)); cbn; [auto|].
    split; [reflexivity|]. apply all_sets_set; [assumption|]. cbn. eauto.
  - unfold enroll_student.
    destruct (dict_get sid (students st)); [|cbn; auto].
    destruct (dict_get code (courses st)) as [c|] eqn:Ec; [|cbn; auto].
    destruct (capacity c <=? Z.of_nat (len (enrolled c))); [cbn; auto|].
    destruct (has_row sid code (enrollments st)); [cbn; auto|].
    destruct (existsb (lacks sid (enrollments st)) (prereqs c)); [cbn; auto|].
    destruct (all_sets_get _ _ _ Ha Ec) as [ids ->]. cbn.
    split; [reflexivity|]. apply all_sets_set; [assumption|]. cbn. eauto.
  - unfold record_grade.
    destruct (set_grade sid code g (enrollments st)); cbn; auto.
Qed.

Lemma run_all_sets cmds st :
  all_sets (courses st) ->
  status (run cmds st) = Returned /\ all_sets (courses (final (run cmds st))).
Proof.
  revert st. induction cmds as [|c cmds IH]; cbn; intros st Ha; [auto|].
  destruct (exec_all_sets c st Ha) as [Hs Ha']. rewrite Hs. cbn. auto.
Qed.

(** From a store whose index is right, every session that runs to its end
    leaves the index right, whichever shape [enrolled] has. *)
Lemma session_keeps_index cmds st code c :
  consistent st -> status (run cmds st) = Returned ->
  dict_get code (courses (final (run cmds st))) = Some c ->
  len (enrolled c) = length (rows_of code (enrollments (final (run cmds st)))) /\
  forall sid, sid ∈ members (enrolled c)
              <-> enrolled_in sid code (enrollments (final (run cmds st))).
Proof.
  intros Hc Hs Hg. destruct (run_consistent cmds st Hc Hs) as [_ Hidx].
  destruct (Hidx code c Hg) as (_ & Hmem & Hlen). split.
  - rewrite Hlen. unfold sids_of. apply length_map.
  - intros sid. rewrite Hmem, elem_of_list_to_set, list_elem_of_In.
    apply in_sids_of.
Qed.

(** Whatever registrations and [enroll] calls a session makes from the
    empty registry, the session runs to its end and, for every course, the
    [enrolled] set has as many members as there are enrollment rows with
    that course code, and its members are exactly the students having such
    a row. *)
Lemma session_index_right (cmds : list command) (code : string) (c : course) :
  let o := run cmds empty_store in
  status o = Returned /\
  (dict_get code (courses (final o)) = Some c ->
   exists ids,
     enrolled c = ESet ids /\
     size ids = length (rows_of code (enrollments (final o))) /\
     forall sid, sid ∈ ids <-> enrolled_in sid code (enrollments (final o))).
Proof.
  cbn zeta. destruct (run_all_sets cmds empty_store) as [Hs Ha]; [constructor|].
  split; [assumption|]. intros Hg.
  destruct (all_sets_get _ _ _ Ha Hg) as [ids Hids]. exists ids.
  split; [assumption|].
  destruct (session_keeps_index cmds empty_store code c consistent_empty Hs Hg)
    as [Hlen Hmem].
  rewrite Hids in Hlen, Hmem. auto.
Qed.

Lemma consistent_campus : consistent campus.
Proof.
  split.
  - intros e [<-|[]]. reflexivity.
  - intros code c Hg. cbn in Hg.
    destruct (decide (code = "CS101"%string)) as [->|_].
    { injection Hg as <-. split; [|split].
      + apply NoDup_singleton.
      + vm_compute. reflexivity.
      + reflexivity. }
    destruct (decide (code = "CS102"%string)) as [->|_]; [|discriminate].
    injection Hg as <-. split; [|split].
    + apply NoDup_nil_2.
    + vm_compute. reflexivity.
    + reflexivity.
Qed.

Lemma consistent_campus_reloaded : consistent campus_reloaded.
Proof.
  split.
  - intros e [<-|[]]. reflexivity.
  - intros code c Hg. cbn in Hg.
    destruct (decide (code = "CS101"%string)) as [->|_].
    { injection Hg as <-. split; [|split].
      + apply NoDup_singleton.
      + vm_compute. reflexivity.
      + reflexivity. }
    destruct (decide (code = "CS102"%string)) as [->|_]; [|discriminate].
    injection Hg as <-. split; [|split].
    + apply NoDup_nil_2.
    + vm_compute. reflexivity.
    + reflexivity.
Qed.

(** C1: within one run from the empty registry the [enrolled] set of every
    course has exactly the students of the rows with its code, one member a
    row.  The match does not survive a restart: [campus], saved and loaded
    again, still has [enrolled] agree with the rows, but as a list; the next
    enrollment that passes the checks appends its row and stops on the
    list's missing [add], which leaves two rows for CS101 against one id in
    its [enrolled]. *)
Theorem enrolled_index_lost_after_restart :
  (forall cmds code c,
     dict_get code (courses (final (run cmds empty_store))) = Some c ->
     exists ids,
       enrolled c = ESet ids /\
       size ids = length (rows_of code (enrollments (final (run cmds empty_store)))) /\
       forall sid,
         sid ∈ ids <-> enrolled_in sid code (enrollments (final (run cmds empty_store)))) /\
  consistent campus /\
  boot decimal_int decimal_float (snd (save_all str_1 elements true campus no_files))
  = Some campus_reloaded /\
  consistent campus_reloaded /\
  (let o := enroll_student 2 "CS101" campus_reloaded in
   status o = Raised (AttributeError "add") /\
   (enrolled <$> dict_get "CS101"%string (courses (final o))) = Some (EList [1]) /\
   rows_of "CS101" (enrollments (final o))
   = [{| student_id := 1; course_code := "CS101"; grade := None |};
      {| student_id := 2; course_code := "CS101"; grade := None |}] /\
   ~ consistent (final o)).
Proof.
  split; [|split; [|split; [|split]]].
  - intros cmds code c Hg. apply (proj2 (session_index_right cmds code c)), Hg.
  - apply consistent_campus.
  - vm_compute. reflexivity.
  - apply consistent_campus_reloaded.
  - cbn zeta. split; [reflexivity|]. split; [reflexivity|]. split; [reflexivity|].
    intros [_ Hidx].
    destruct (Hidx "CS101"%string
                {| title := "Intro"; credits := 3; capacity := 10; prereqs := [];
                   enrolled := EList [1] |} eq_refl) as (_ & _ & Hlen).
    discriminate Hlen.
Qed.

(** ** Grades *)

Lemma set_grade_none sid code g rows :
  ~ enrolled_in sid code rows -> set_grade sid code g rows = None.
Proof.
  induction rows as [|e rows IH]; cbn; intros Hno; [reflexivity|].
  destruct (is_pair sid code e) eqn:E.
  - apply is_pair_true in E as [Hs Hc]. exfalso. apply Hno. exists e. cbn. auto.
  - rewrite IH; [reflexivity|]. intros (e' & He & H'). apply Hno. exists e'. cbn. auto.
Qed.

Lemma set_grade_first sid code g rows :
  enrolled_in sid code rows ->
  exists before e after,
    rows = before ++ e :: after /\
    student_id e = sid /\ course_code e = code /\
    ~ enrolled_in sid code before /\
    set_grade sid code g rows = Some (before ++ with_grade e (Some g) :: after).
Proof.
  induction rows as [|x rows IH]; intros (e & He & Hs & Hc); [destruct He|].
  cbn [set_grade]. destruct (is_pair sid code x) eqn:E.
  - apply is_pair_true in E as [Hxs Hxc].
    exists [], x, rows. repeat split; try assumption. intros (e' & [] & _).
  - destruct He as [->|He].
    { assert (is_pair sid code e = true) by (apply is_pair_true; auto). congruence. }
    destruct IH as (before & e0 & after & -> & Hs0 & Hc0 & Hno & Hset).
    { exists e. auto. }
    exists (x :: before), e0, after. rewrite Hset. repeat split; try assumption.
    intros (e' & [<-|He'] & Hs' & Hc').
    + assert (is_pair sid code x = true) by (apply is_pair_true; auto). congruence.
    + apply Hno. exists e'. auto.
Qed.

Lemma set_grade_single sid code g rows e :
  pair_rows sid code rows = [e] ->
  exists rows',
    set_grade sid code g rows = Some rows' /\
    pair_rows sid code rows' = [with_grade e (Some g)].
Proof.
  unfold pair_rows. induction rows as [|x rows IH]; cbn [List.filter set_grade];
    [discriminate|].
  destruct (is_pair sid code x) eqn:E.
  - intros [= -> Hrest]. eexists. split; [reflexivity|].
    cbn [List.filter]. change (is_pair sid code (with_grade e (Some g)))
      with (is_pair sid code e). rewrite E, Hrest. reflexivity.
  - intros Hone. destruct (IH Hone) as (rows' & -> & Hp).
    eexists. split; [reflexivity|]. cbn [List.filter]. rewrite E. assumption.
Qed.

(** C5: [record_grade] refuses with "Enrollment not found." when no row
    binds the student to the course; otherwise it writes the grade into the
    first such row and changes nothing else, in no collection; so where the
    pair has its one row, recording a grade and then another leaves that one
    row, carrying the later grade. *)
Theorem record_grade_overwrites (sid : Z) (code : string) (g : float) (st : store) :
  let rows := enrollments st in
  let o := record_grade sid code g st in
  (~ enrolled_in sid code rows -> rejected o st "Enrollment not found.") /\
  (enrolled_in sid code rows ->
   status o = Returned /\
   students (final o) = students st /\
   courses (final o) = courses st /\
   exists before e after,
     rows = before ++ e :: after /\
     student_id e = sid /\ course_code e = code /\
     ~ enrolled_in sid code before /\
     enrollments (final o) = before ++ with_grade e (Some g) :: after) /\
  (forall e, pair_rows sid code rows = [e] ->
   forall g2,
     pair_rows sid code (enrollments (final (record_grade sid code g2 (final o))))
     = [with_grade e (Some g2)]).
Proof.
  cbn zeta. unfold record_grade. split; [|split].
  - intros Hno. rewrite (set_grade_none _ _ _ _ Hno). repeat split.
  - intros Hin.
    destruct (set_grade_first sid code g _ Hin)
      as (before & e & after & Hrows & Hs & Hc & Hno & Hset).
    rewrite Hset. cbn. repeat split.
    exists before, e, after. auto.
  - intros e Hone g2.
    destruct (set_grade_single sid code g _ e Hone) as (rows1 & -> & H1).
    cbn [final with_enrollments enrollments].
    destruct (set_grade_single sid code g2 _ _ H1) as (rows2 & -> & H2).
    cbn [final with_enrollments enrollments]. exact H2.
Qed.

Lemma record_grade_overwrites_witness :
  pair_rows 1 "CS101"
    (enrollments
       (final (record_grade 1 "CS101" (Float.of_Z 95)
                 (final (record_grade 1 "CS101" (Float.of_Z 70) campus)))))
  = [{| student_id := 1; course_code := "CS101"; grade := Some (Float.of_Z 95) |}].
Proof.
  apply (proj2 (proj2 (record_grade_overwrites 1 "CS101" (Float.of_Z 70) campus))
           {| student_id := 1; course_code := "CS101"; grade := None |}).
  reflexivity.
Defined.

(** ** Transcripts *)

Lemma title_of_known cs code c : dict_get code cs = Some c -> title_of cs code = title c.
Proof. intros H. unfold title_of. now rewrite H. Qed.

(** With every course of the student's rows known, the loop prints one line
    per row and accumulates the recorded grades. *)
Lemma transcript_loop_known sid cs rows total_points total_credits printed :
  (forall e, In e rows -> student_id e = sid -> dict_mem (course_code e) cs = true) ->
  transcript_loop sid cs rows total_points total_credits printed
  = (printed ++ transcript_rows sid cs rows,
     inr (fold_left Float.add (grades_of sid rows) total_points,
          (total_credits + length (grades_of sid rows))%nat)).
Proof.
  revert total_points total_credits printed.
  induction rows as [|e rows IH]; intros tp tc printed Hknown.
  - cbn. now rewrite app_nil_r, Nat.add_0_r.
  - assert (Hrest : forall e', In e' rows -> student_id e' = sid ->
                               dict_mem (course_code e') cs = true).
    { intros e' He'. apply Hknown. now right. }
    unfold transcript_rows, grades_of in *. cbn [transcript_loop List.filter].
    destruct (student_id e =? sid) eqn:E; [|apply IH; assumption].
    apply Z.eqb_eq in E.
    specialize (Hknown e (or_introl eq_refl) E).
    apply dict_mem_true in Hknown as [c Hc]. rewrite Hc.
    cbn [map omap list_omap]. rewrite (title_of_known _ _ _ Hc).
    destruct (grade e) as [g|]; cbn [mbind option_bind]; rewrite IH by assumption;
      rewrite <- app_assoc; cbn [app fold_left length].
    + rewrite Nat.add_succ_r. reflexivity.
    + reflexivity.
Qed.

(** The loop raises at the first row of the student whose course is unknown. *)
Lemma transcript_loop_dangling sid cs rows total_points total_credits printed e :
  dangling sid cs rows = Some e ->
  snd (transcript_loop sid cs rows total_points total_credits printed)
  = inl (KeyError (course_code e)).
Proof.
  revert total_points total_credits printed.
  induction rows as [|x rows IH]; intros tp tc printed; cbn [dangling List.find];
    [discriminate|].
  cbn [transcript_loop]. unfold dangling in IH.
  destruct (student_id x =? sid); cbn [andb]; [|apply IH].
  unfold dict_mem. destruct (dict_get (course_code x) cs) as [c|]; cbn [negb].
  - intros Hd. destruct (grade x); apply IH; assumption.
  - intros [= ->]. reflexivity.
Qed.

Lemma dangling_none sid cs rows :
  dangling sid cs rows = None <->
  forall e, In e rows -> student_id e = sid -> dict_mem (course_code e) cs = true.
Proof.
  unfold dangling. split.
  - intros Hn e He Hs. pose proof (find_none _ _ Hn e He) as Hf. cbn in Hf.
    apply Z.eqb_eq in Hs. rewrite Hs in Hf. cbn in Hf.
    now apply negb_false_iff in Hf.
  - intros Hall. destruct (List.find _ rows) as [e|] eqn:Ef; [|reflexivity].
    apply find_some in Ef as [He Hp]. apply andb_true_iff in Hp as [Hs Hm].
    apply Z.eqb_eq in Hs. rewrite (Hall e He Hs) in Hm. discriminate.
Qed.

Lemma dangling_some sid cs rows e :
  dangling sid cs rows = Some e ->
  In e rows /\ student_id e = sid /\ dict_get (course_code e) cs = None.
Proof.
  unfold dangling. intros Hf. apply find_some in Hf as [He Hp].
  apply andb_true_iff in Hp as [Hs Hm].
  apply Z.eqb_eq in Hs. apply negb_true_iff, dict_mem_false in Hm. auto.
Qed.

(** C4: [transcript] refuses with "Student not found." when the student is
    absent; for a student whose rows all name known courses it prints one
    line per row of the student and then, only if some row has a grade, the
    mean of the recorded grades, rows without a grade counting neither in
    the sum nor in the divisor; grades 90.0 and 80.0 with one ungraded row
    give 85.00. *)
Theorem transcript_gpa :
  (forall sid st,
     dict_get sid (students st) = None ->
     rejected (transcript sid st) st "Student not found.") /\
  (forall sid st s,
     dict_get sid (students st) = Some s ->
     (forall e, In e (enrollments st) -> student_id e = sid ->
                dict_mem (course_code e) (courses st) = true) ->
     let o := transcript sid st in
     final o = st /\ status o = Returned /\
     trace o
     = Print (Text ("Transcript for " ++ name s ++ ": ")%string)
       :: transcript_rows sid (courses st) (enrollments st)
       ++ match grades_of sid (enrollments st) with
          | [] => []
          | gs => [Print (CalculatedGPA (mean gs))]
          end) /\
  (grades_of 1 (enrollments graded) = [Float.of_Z 90; Float.of_Z 80] /\
   trace (transcript 1 graded)
   = [Print (Text "Transcript for Ada: ");
      Print (TranscriptRow "CS101" "Intro" (Some (Float.of_Z 90)));
      Print (TranscriptRow "MA101" "Calculus" None);
      Print (TranscriptRow "CS102" "Data" (Some (Float.of_Z 80)));
      Print (CalculatedGPA (Float.of_Z 85))] /\
   render_gpa (Float.of_Z 85) = "Calculated GPA: 85.00"%string).
Proof.
  split; [|split].
  - intros sid st Hs. unfold transcript. rewrite Hs. repeat split.
  - intros sid st s Hs Hknown. cbn zeta. unfold transcript. rewrite Hs.
    rewrite transcript_loop_known by assumption.
    split; [reflexivity|]. split; [reflexivity|].
    cbn [trace app Nat.add]. f_equal.
    unfold mean. destruct (grades_of sid (enrollments st)) as [|g gs].
    + cbn. now rewrite app_nil_r.
    + reflexivity.
  - repeat split; vm_compute; reflexivity.
Qed.

Lemma transcript_gpa_witness :
  let o := transcript 1 graded in
  final o = graded /\ status o = Returned /\
  trace o
  = Print (Text ("Transcript for " ++ name ada ++ ": ")%string)
    :: transcript_rows 1 (courses graded) (enrollments graded)
    ++ match grades_of 1 (enrollments graded) with
       | [] => []
       | gs => [Print (CalculatedGPA (mean gs))]
       end.
Proof.
  apply (proj1 (proj2 transcript_gpa) 1 graded ada).
  - reflexivity.
  - intros e He Hs. cbn in He.
    repeat (destruct He as [<-|He]; [vm_compute; reflexivity|]). destruct He.
Defined.

(** C10: [transcript] looks each row's course up without a guard: for a
    known student it runs to its end exactly when every row of that student
    names a known course, and otherwise stops with the [KeyError] of the
    first row that does not; the script itself starts in such a state when
    [enrollments.csv] names a course that [courses.json] lacks. *)
Theorem transcript_needs_known_courses :
  (forall sid st s,
     dict_get sid (students st) = Some s ->
     ((forall e, In e (enrollments st) -> student_id e = sid ->
                 dict_mem (course_code e) (courses st) = true)
      <-> status (transcript sid st) = Returned) /\
     (forall e, dangling sid (courses st) (enrollments st) = Some e ->
        In e (enrollments st) /\ student_id e = sid /\
        dict_get (course_code e) (courses st) = None /\
        status (transcript sid st) = Raised (KeyError (course_code e)))) /\
  (boot decimal_int decimal_float orphan_files = Some orphaned /\
   status (transcript 1 orphaned) = Raised (KeyError "CS999")).
Proof.
  split; [|split; vm_compute; reflexivity].
  intros sid st s Hs.
  assert (Hd : forall e, dangling sid (courses st) (enrollments st) = Some e ->
                 status (transcript sid st) = Raised (KeyError (course_code e))).
  { intros e He. unfold transcript. rewrite Hs.
    pose proof (transcript_loop_dangling sid (courses st) (enrollments st)
                  Float.zero O
                  [Print (Text ("Transcript for " ++ name s ++ ": ")%string)] e He) as Hl.
    destruct (transcript_loop _ _ _ _ _ _) as [printed [err|[tp tc]]]; cbn in Hl.
    - injection Hl as ->. reflexivity.
    - discriminate. }
  split.
  - split.
    + intros Hknown. unfold transcript. rewrite Hs.
      rewrite transcript_loop_known by assumption. reflexivity.
    + intros Hret. apply dangling_none.
      destruct (dangling sid (courses st) (enrollments st)) as [e|] eqn:E;
        [|reflexivity].
      rewrite (Hd e eq_refl) in Hret. discriminate.
  - intros e He. destruct (dangling_some _ _ _ _ He) as (Hin & Hsid & Hnone).
    auto.
Qed.

Lemma transcript_needs_known_courses_witness :
  In {| student_id := 1; course_code := "CS999"; grade := None |}
    (enrollments orphaned) /\
  student_id {| student_id := 1; course_code := "CS999"; grade := None |} = 1 /\
  dict_get "CS999"%string (courses orphaned) = None /\
  status (transcript 1 orphaned) = Raised (KeyError "CS999").
Proof.
  apply (proj2 (proj1 transcript_needs_known_courses 1 orphaned ada eq_refl)
           {| student_id := 1; course_code := "CS999"; grade := None |}).
  reflexivity.
Defined.

(** ** The range of a rounded quotient *)

Lemma digits2_pos_size p : digits2_pos p = Pos.size p.
Proof. induction p; cbn; congruence. Qed.

Lemma Zdigits2_nonneg m : 0 <= Zdigits2 m.
Proof. destruct m; cbn; lia. Qed.

Lemma Zdigits2_log2 m : 0 < m -> Zdigits2 m = Z.log2 m + 1.
Proof.
  destruct m as [|p|p]; try lia. intros _. cbn [Zdigits2].
  rewrite digits2_pos_size. destruct p; cbn; lia.
Qed.

(** [m] has at most [k] binary digits exactly when it is below [2^k]. *)
Lemma Zdigits2_le m k : 0 <= m -> 0 <= k -> (Zdigits2 m <= k <-> m < 2 ^ k).
Proof.
  intros Hm Hk. destruct (Z.eq_dec m 0) as [->|Hne].
  - cbn. split; [intros _; apply Z.pow_pos_nonneg; lia | lia].
  - rewrite Zdigits2_log2 by lia.
    rewrite (Z.log2_lt_pow2 m k) by lia. lia.
Qed.

Lemma shr_1_m mrs : 0 <= shr_m mrs -> shr_m (shr_1 mrs) = shr_m mrs / 2.
Proof.
  destruct mrs as [m r s]. cbn [shr_m]. intros Hm.
  destruct m as [|p|p]; [reflexivity| |lia].
  destruct p as [p|p|]; cbn [shr_1 shr_m].
  - rewrite Pos2Z.inj_xI. apply Z.div_unique with (r := 1); lia.
  - rewrite Pos2Z.inj_xO. apply Z.div_unique with (r := 0); lia.
  - reflexivity.
Qed.

Lemma pow2_xO n : 2 ^ Zpos n~0 = 2 ^ Zpos n * 2 ^ Zpos n.
Proof. rewrite Pos2Z.inj_xO, <- Z.pow_add_r by lia. f_equal. lia. Qed.

Lemma pow2_xI n : 2 ^ Zpos n~1 = 2 * (2 ^ Zpos n * 2 ^ Zpos n).
Proof.
  rewrite Pos2Z.inj_xI, <- Z.pow_add_r, <- Z.pow_succ_r by lia. f_equal. lia.
Qed.

Lemma iter_shr_1_m n mrs :
  0 <= shr_m mrs -> shr_m (SpecFloat.iter_pos shr_1 n mrs) = shr_m mrs / 2 ^ Zpos n.
Proof.
  revert mrs. induction n as [n IH|n IH|]; intros mrs Hm; cbn [SpecFloat.iter_pos].
  - assert (H1 : 0 <= shr_m (shr_1 mrs)).
    { rewrite shr_1_m by assumption. apply Z.div_pos; lia. }
    assert (H2 : 0 <= shr_m (SpecFloat.iter_pos shr_1 n (shr_1 mrs))).
    { rewrite IH by assumption. apply Z.div_pos; [lia|]. apply Z.pow_pos_nonneg; lia. }
    assert (Hp : 0 < 2 ^ Zpos n) by (apply Z.pow_pos_nonneg; lia).
    rewrite IH, IH, shr_1_m by assumption.
    rewrite !Z.div_div by lia. rewrite pow2_xI. reflexivity.
  - assert (H2 : 0 <= shr_m (SpecFloat.iter_pos shr_1 n mrs)).
    { rewrite IH by assumption. apply Z.div_pos; [lia|]. apply Z.pow_pos_nonneg; lia. }
    assert (Hp : 0 < 2 ^ Zpos n) by (apply Z.pow_pos_nonneg; lia).
    rewrite IH, IH by assumption.
    rewrite Z.div_div by lia. rewrite pow2_xO. reflexivity.
  - rewrite shr_1_m by assumption. reflexivity.
Qed.

Lemma shr_record_of_loc_m m l : shr_m (shr_record_of_loc m l) = m.
Proof. destruct l as [|[]]; reflexivity. Qed.

(** After the shift that [shr_fexp] makes, the exponent is the larger of
    the old one and the target, and mantissa and exponent together do not
    reach further than before. *)
Lemma shr_fexp_range m e l top :
  0 <= m -> Zdigits2 m + e <= top -> e <= top -> -1074 <= top ->
  let '(mrs, e') := shr_fexp Float.prec Float.emax m e l in
  0 <= shr_m mrs /\
  e' = Z.max e (fexp Float.prec Float.emax (Zdigits2 m + e)) /\
  Zdigits2 (shr_m mrs) + e' <= top.
Proof.
  intros Hm Htop He Hlow. unfold shr_fexp, shr.
  set (t := fexp Float.prec Float.emax (Zdigits2 m + e)).
  assert (Ht : t <= Z.max (Zdigits2 m + e - 53) (-1074)).
  { unfold t, fexp, emin, Float.prec, Float.emax. lia. }
  destruct (t - e) as [|n|n] eqn:En.
  - rewrite shr_record_of_loc_m. repeat split; lia.
  - rewrite iter_shr_1_m by (rewrite shr_record_of_loc_m; assumption).
    rewrite shr_record_of_loc_m.
    assert (Hq : 0 <= m / 2 ^ Zpos n).
    { apply Z.div_pos; [assumption|]. apply Z.pow_pos_nonneg; lia. }
    split; [assumption|]. split; [lia|].
    pose proof (Zdigits2_nonneg m) as Hd.
    assert (Hdig : Zdigits2 (m / 2 ^ Zpos n) <= Z.max 0 (Zdigits2 m - Zpos n)).
    { apply Zdigits2_le; [assumption|lia|].
      apply Z.div_lt_upper_bound; [apply Z.pow_pos_nonneg; lia|].
      rewrite <- Z.pow_add_r by lia.
      assert (Hlt : m < 2 ^ Zdigits2 m) by (apply Zdigits2_le; lia).
      eapply Z.lt_le_trans; [exact Hlt|].
      apply Z.pow_le_mono_r; lia. }
    lia.
  - rewrite shr_record_of_loc_m. repeat split; lia.
Qed.

Lemma Zdigits2_mono m n : 0 <= m -> m <= n -> Zdigits2 m <= Zdigits2 n.
Proof.
  intros Hm Hn. pose proof (Zdigits2_nonneg n) as Hd.
  apply Zdigits2_le; [assumption|assumption|].
  assert (n < 2 ^ Zdigits2 n) by (apply Zdigits2_le; lia). lia.
Qed.

Lemma Zdigits2_succ m : 0 <= m -> Zdigits2 (m + 1) <= Zdigits2 m + 1.
Proof.
  intros Hm. pose proof (Zdigits2_nonneg m) as Hd.
  apply Zdigits2_le; [lia|lia|].
  assert (m < 2 ^ Zdigits2 m) by (apply Zdigits2_le; lia).
  rewrite Z.pow_add_r by lia. lia.
Qed.

Lemma round_nearest_even_range m l :
  m <= round_nearest_even m l <= m + 1.
Proof.
  unfold round_nearest_even. destruct l as [|[]]; try lia.
  destruct (Z.even m); lia.
Qed.

(** Rounding a mantissa and exponent that stay below [2^1023] never lands
    on infinity. *)
Lemma binary_round_aux_finite sx mx ex lx :
  0 <= mx -> Zdigits2 mx + ex <= 1023 -> ex <= 971 ->
  Float.is_inf (binary_round_aux Float.prec Float.emax sx mx ex lx) = false.
Proof.
  intros Hm Hd He. unfold binary_round_aux.
  pose proof (shr_fexp_range mx ex lx 1023 Hm Hd) as H1.
  destruct (shr_fexp Float.prec Float.emax mx ex lx) as [mrs' e'].
  destruct H1 as (Hm' & He' & Hd'); [lia|lia|].
  assert (He'' : e' <= 971).
  { rewrite He'. unfold fexp, emin, Float.prec, Float.emax. lia. }
  pose proof (round_nearest_even_range (shr_m mrs') (loc_of_shr_record mrs')) as Hr.
  set (m1 := round_nearest_even (shr_m mrs') (loc_of_shr_record mrs')) in *.
  assert (Hd1 : Zdigits2 m1 + e' <= 1024).
  { pose proof (Zdigits2_mono m1 (shr_m mrs' + 1)) as Hmono.
    pose proof (Zdigits2_succ (shr_m mrs') Hm'). lia. }
  pose proof (shr_fexp_range m1 e' loc_Exact 1024) as H2.
  destruct (shr_fexp Float.prec Float.emax m1 e' loc_Exact) as [mrs'' e''].
  destruct H2 as (_ & E2 & _); [lia|lia|lia|lia|].
  destruct (shr_m mrs''); [reflexivity| |reflexivity].
  assert (Hle : e'' <= 971).
  { rewrite E2. unfold fexp, emin, Float.prec, Float.emax. lia. }
  unfold Float.emax, Float.prec. apply Z.leb_le in Hle.
  change (1024 - 53) with 971. rewrite Hle. reflexivity.
Qed.

(** The unrounded quotient of two positive integers reaches no further
    than the dividend. *)
Lemma div_core_range a b :
  let '(q, e, _) := SFdiv_core_binary Float.prec Float.emax (Zpos a) 0 (Zpos b) 0 in
  0 <= q /\ e <= 0 /\ Zdigits2 q + e <= Zdigits2 (Zpos a).
Proof.
  unfold SFdiv_core_binary.
  set (d1 := Zdigits2 (Zpos a)). set (d2 := Zdigits2 (Zpos b)).
  set (e := Z.min (fexp Float.prec Float.emax (d1 + 0 - (d2 + 0))) (0 - 0)).
  assert (He : e <= 0) by (unfold e; lia).
  assert (Hlt : Zpos a < 2 ^ d1).
  { apply Zdigits2_le; try lia. apply Zdigits2_nonneg. }
  assert (Hd1 : 0 <= d1) by apply Zdigits2_nonneg.
  destruct (0 - 0 - e) as [|s|s] eqn:Es.
  - pose proof (Z.div_eucl_eq (Zpos a) (Zpos b)) as Hdiv.
    pose proof (Z.mod_pos_bound (Zpos a) (Zpos b)) as Hmod.
    unfold Z.modulo in Hmod.
    destruct (Z.div_eucl (Zpos a) (Zpos b)) as [q r].
    specialize (Hdiv ltac:(lia)). specialize (Hmod ltac:(lia)).
    assert (Hq : 0 <= q <= Zpos a) by nia.
    split; [lia|]. split; [lia|].
    pose proof (Zdigits2_mono q (Zpos a)). fold d1 in H. lia.
  - rewrite Z.shiftl_mul_pow2 by lia.
    assert (Hp : 0 < 2 ^ Zpos s) by (apply Z.pow_pos_nonneg; lia).
    pose proof (Z.div_eucl_eq (Zpos a * 2 ^ Zpos s) (Zpos b)) as Hdiv.
    pose proof (Z.mod_pos_bound (Zpos a * 2 ^ Zpos s) (Zpos b)) as Hmod.
    unfold Z.modulo in Hmod.
    destruct (Z.div_eucl (Zpos a * 2 ^ Zpos s) (Zpos b)) as [q r].
    specialize (Hdiv ltac:(lia)). specialize (Hmod ltac:(lia)).
    assert (Hq : 0 <= q <= Zpos a * 2 ^ Zpos s) by nia.
    split; [lia|]. split; [lia|].
    assert (Hdq : Zdigits2 q <= d1 + Zpos s).
    { apply Zdigits2_le; [lia|lia|].
      rewrite Z.pow_add_r by lia. nia. }
    lia.
  - lia.
Qed.

(** Dividing a count below [2^1023] by a non-zero integer yields a float,
    not an error. *)
Lemma int_truediv_defined a b :
  0 <= a < 2 ^ 1023 -> b <> 0 ->
  int_truediv a b = inr (Float.div (Float.exact a) (Float.exact b)).
Proof.
  intros Ha Hb. unfold int_truediv. apply Z.eqb_neq in Hb as Hb'. rewrite Hb'.
  assert (Hfin : Float.is_inf (Float.div (Float.exact a) (Float.exact b)) = false).
  { destruct a as [|p|p]; [| |lia].
    - destruct b; [contradiction|reflexivity|reflexivity].
    - assert (Hcase : forall sb q,
                Float.is_inf (Float.div (S754_finite false p 0) (S754_finite sb q 0))
                = false).
      { intros sb q. unfold Float.div, SFdiv.
        pose proof (div_core_range p q) as Hcore.
        destruct (SFdiv_core_binary Float.prec Float.emax (Zpos p) 0 (Zpos q) 0)
          as [[mz ez] lz].
        destruct Hcore as (Hq & He & Hd).
        apply binary_round_aux_finite; [assumption| |lia].
        assert (Zdigits2 (Zpos p) <= 1023) by (apply Zdigits2_le; lia). lia. }
      destruct b; [contradiction| |]; apply Hcase. }
  rewrite Hfin. reflexivity.
Qed.

(** ** Analytics: fill rates *)

Lemma fill_of_defined c : fillable c -> fill_of c = inr (fill_value c).
Proof.
  intros [Hcap Hlen]. unfold fill_of, fill_value.
  rewrite int_truediv_defined; [reflexivity| |assumption].
  assert (2 ^ 63 < 2 ^ 1023) by (apply Z.pow_lt_mono_r; lia). lia.
Qed.

Lemma fill_loop_all cs :
  all_fillable cs -> fill_loop cs = (fill_report cs, Returned).
Proof.
  induction cs as [|[code c] cs IH]; intros Hall; [reflexivity|].
  cbn [fill_loop fill_report flat_map].
  rewrite (fill_of_defined c) by (apply (Hall code c); now left).
  rewrite IH by (intros code' c' Hin; apply (Hall code' c'); now right).
  reflexivity.
Qed.

Lemma fill_loop_stop before code c after e :
  all_fillable before -> fill_of c = inl e ->
  fill_loop (before ++ (code, c) :: after) = (fill_report before, Raised e).
Proof.
  induction before as [|[code' c'] before IH]; intros Hall He.
  - cbn. now rewrite He.
  - cbn [app fill_loop fill_report flat_map].
    rewrite (fill_of_defined c') by (apply (Hall code' c'); now left).
    rewrite IH; [|intros k v Hin; apply (Hall k v); now right|assumption].
    reflexivity.
Qed.

(** C7: choice 2 of [analytics] computes, for a course of non-zero
    capacity, [len(enrolled) / capacity * 100] and prints the warning only
    when that value is strictly above 90: ten seats with nine taken give
    exactly 90.0 and no warning.  The division has no guard: at the first
    course of capacity 0 the operation stops with [ZeroDivisionError],
    having printed the lines of the courses before it. *)
Theorem fill_rates_boundary_and_zero_capacity :
  (forall c, capacity c = 0 -> fill_of c = inl ZeroDivisionError) /\
  (forall c, fillable c -> fill_of c = inr (fill_value c)) /\
  (forall code fill,
     In (Print (Text "Warning: over 90% capacity!")) (fill_lines code fill)
     <-> Float.ltb (Float.of_Z 90) fill = true) /\
  (forall sum n st,
     all_fillable (courses st) ->
     let o := analytics sum "2" n st in
     final o = st /\ status o = Returned /\
     trace o = menu ++ fill_report (courses st)) /\
  (forall sum n st before code c after,
     courses st = before ++ (code, c) :: after ->
     all_fillable before -> capacity c = 0 ->
     let o := analytics sum "2" n st in
     final o = st /\ status o = Raised ZeroDivisionError /\
     trace o = menu ++ fill_report before) /\
  (fill_of nine_of_ten = inr (Float.of_Z 90) /\
   fill_lines "LG100" (Float.of_Z 90) = [Print (FillRate "LG100" (Float.of_Z 90))] /\
   render_fill "LG100" (Float.of_Z 90) = "LG100: 90.0% full"%string /\
   fill_of ten_of_ten = inr (Float.of_Z 100) /\
   fill_lines "LG100" (Float.of_Z 100)
   = [Print (FillRate "LG100" (Float.of_Z 100));
      Print (Text "Warning: over 90% capacity!")]).
Proof.
  split; [|split; [|split; [|split; [|split]]]].
  - intros c Hc. unfold fill_of, int_truediv. now rewrite Hc.
  - apply fill_of_defined.
  - intros code fill. unfold fill_lines, over_90.
    destruct (Float.ltb (Float.of_Z 90) fill); cbn; split.
    + reflexivity.
    + intros _. right. now left.
    + intros [H|[]]. discriminate.
    + discriminate.
  - intros sum n st Hall. cbn zeta. unfold analytics. cbn [String.eqb Ascii.eqb Bool.eqb].
    rewrite (fill_loop_all _ Hall). repeat split.
  - intros sum n st before code c after Hcs Hall Hc. cbn zeta.
    unfold analytics. cbn [String.eqb Ascii.eqb Bool.eqb]. rewrite Hcs.
    rewrite (fill_loop_stop before code c after ZeroDivisionError Hall).
    + repeat split.
    + unfold fill_of, int_truediv. now rewrite Hc.
  - repeat split; vm_compute; reflexivity.
Qed.

Lemma fill_rates_boundary_and_zero_capacity_witness :
  let st := with_courses campus
              [("LG100"%string, nine_of_ten); ("VD000"%string, no_seats);
               ("CS101"%string, cs101)] in
  let o := analytics (fun _ => Float.zero) "2" 0 st in
  final o = st /\ status o = Raised ZeroDivisionError /\
  trace o = menu ++ fill_report [("LG100"%string, nine_of_ten)].
Proof.
  apply (proj1 (proj2 (proj2 (proj2 (proj2 fill_rates_boundary_and_zero_capacity))))
           (fun _ => Float.zero) 0
           (with_courses campus
              [("LG100"%string, nine_of_ten); ("VD000"%string, no_seats);
               ("CS101"%string, cs101)])
           [("LG100"%string, nine_of_ten)] "VD000"%string no_seats
           [("CS101"%string, cs101)]).
  - reflexivity.
  - intros code c [[= <- <-]|[]]. split; [discriminate|]. vm_compute. reflexivity.
  - reflexivity.
Defined.

(** ** Saving courses *)

Lemma dict_get_map_values {K V : Type} `{EqDecision K} (f : V -> V) (k : K)
    (d : dict K V) :
  dict_get k (map_values f d) = f <$> dict_get k d.
Proof.
  induction d as [|[k' v] d IH]; cbn; [reflexivity|].
  destruct (decide (k = k')); [reflexivity | assumption].
Qed.

Lemma map_values_compose {K V : Type} (f g : V -> V) (d : dict K V) :
  map_values g (map_values f d) = map_values (fun v => g (f v)) d.
Proof. unfold map_values. rewrite map_map. reflexivity. Qed.

Lemma map_values_ext_in {K V : Type} (f g : V -> V) (d : dict K V) :
  (forall k v, In (k, v) d -> f v = g v) -> map_values f d = map_values g d.
Proof.
  intros H. unfold map_values. apply map_ext_in. intros [k v] Hin. cbn.
  now rewrite (H k v Hin).
Qed.

Lemma as_set_of_set c ids : enrolled c = ESet ids -> as_set c = c.
Proof. destruct c. cbn. intros ->. reflexivity. Qed.

Lemma setify_listify set_order c :
  enumerates set_order -> setify (listify set_order c) = as_set c.
Proof.
  intros Hen. unfold setify, listify, as_set.
  destruct (enrolled c) as [ids|l] eqn:E; cbn.
  - now rewrite Hen.
  - rewrite E. reflexivity.
Qed.

Lemma json_ok_ints l : forallb json_ok (map PInt l) = true.
Proof. induction l; cbn; auto. Qed.

Lemma json_ok_strs l : forallb json_ok (map PStr l) = true.
Proof. induction l; cbn; auto. Qed.

(** Once every set has become a list, [json.dump] has nothing to refuse. *)
Lemma json_ok_listified set_order cs :
  json_ok (py_of_courses (map_values (listify set_order) cs)) = true.
Proof.
  unfold py_of_courses, map_values. cbn [json_ok].
  apply forallb_forall. intros [code v] Hin.
  apply in_map_iff in Hin as ([code' c'] & [= <- <-] & Hin).
  apply in_map_iff in Hin as ([code0 c] & [= <- <-] & _).
  cbn [fst snd]. unfold listify.
  destruct (enrolled c) as [ids|l] eqn:E; cbn.
  - rewrite json_ok_strs, json_ok_ints. reflexivity.
  - rewrite E. cbn. rewrite json_ok_strs, json_ok_ints. reflexivity.
Qed.

Lemma save_courses_completes set_order cs old :
  exists cs' v, save_courses set_order true cs old = (cs', Decoded v, Returned).
Proof.
  unfold save_courses. rewrite json_ok_listified. eauto.
Qed.

(** When the file cannot be opened the sets stay lists in memory. *)
Lemma save_courses_failed set_order cs old :
  save_courses set_order false cs old
  = (map_values (listify set_order) cs, old, Raised OSError).
Proof. reflexivity. Qed.

(** C9: when [save_courses] completes, every course is in memory what it
    was before, its [enrolled] a set with the members it had: same keys in
    the same order, same title, credits, capacity and prerequisites; a
    mapping whose [enrolled] fields were sets is left exactly as it was. *)
Theorem save_courses_restores_sets (set_order : gset Z -> list Z)
    (disk_ok : bool) (cs cs' : dict string course) (old f : json_file) :
  enumerates set_order ->
  save_courses set_order disk_ok cs old = (cs', f, Returned) ->
  cs' = map_values as_set cs /\
  (all_sets cs -> cs' = cs) /\
  (forall code c,
     dict_get code cs = Some c ->
     exists c',
       dict_get code cs' = Some c' /\
       title c' = title c /\ credits c' = credits c /\
       capacity c' = capacity c /\ prereqs c' = prereqs c /\
       enrolled c' = ESet (members (enrolled c))).
Proof.
  intros Hen Hsave. unfold save_courses in Hsave.
  destruct disk_ok; [|discriminate].
  rewrite json_ok_listified in Hsave. injection Hsave as <- _.
  assert (Heq : map_values setify (map_values (listify set_order) cs)
                = map_values as_set cs).
  { rewrite map_values_compose. apply map_values_ext_in. intros k v _.
    apply setify_listify. assumption. }
  rewrite Heq. split; [reflexivity|]. split.
  - intros Hall. unfold map_values.
    rewrite <- (map_id cs) at 2. apply map_ext_in. intros [k c] Hin. cbn.
    unfold all_sets in Hall. rewrite List.Forall_forall in Hall.
    destruct (Hall _ Hin) as [ids Hids]. cbn in Hids.
    now rewrite (as_set_of_set c ids Hids).
  - intros code c Hg. exists (as_set c). rewrite dict_get_map_values, Hg.
    repeat split.
Qed.

Lemma save_courses_restores_sets_witness :
  courses campus = map_values as_set (courses campus) /\
  (all_sets (courses campus) -> courses campus = courses campus) /\
  (forall code c,
     dict_get code (courses campus) = Some c ->
     exists c',
       dict_get code (courses campus) = Some c' /\
       title c' = title c /\ credits c' = credits c /\
       capacity c' = capacity c /\ prereqs c' = prereqs c /\
       enrolled c' = ESet (members (enrolled c))).
Proof.
  apply (save_courses_restores_sets elements true (courses campus) (courses campus)
           NoJson
           (Decoded (py_of_courses (map_values (listify elements) (courses campus))))).
  - intros s. apply list_to_set_elements_L.
  - vm_compute. reflexivity.
Defined.

(** ** Saving and loading again *)

Lemma mapM_as_str l : mapM as_str (map PStr l) = Some l.
Proof. induction l as [|x l IH]; cbn; [reflexivity|]. now rewrite IH. Qed.

Lemma mapM_as_int l : mapM as_int (map PInt l) = Some l.
Proof. induction l as [|x l IH]; cbn; [reflexivity|]. now rewrite IH. Qed.

Lemma dict_get_str_cons {V : Type} (k k' : string) (v : V) (d : dict string V) :
  dict_get k ((k', v) :: d) = if String.eqb k k' then Some v else dict_get k d.
Proof.
  cbn. destruct (decide (k = k')) as [->|Hne].
  - now rewrite String.eqb_refl.
  - apply String.eqb_neq in Hne. now rewrite Hne.
Qed.

Lemma course_of_py_of_course c : course_of_py (py_of_course c) = Some c.
Proof.
  destruct c as [t cr cap pre en]. unfold py_of_course, course_of_py.
  rewrite !dict_get_str_cons. cbn -[mapM dict_get].
  rewrite mapM_as_str. cbn -[mapM dict_get].
  destruct en as [ids|l]; cbn -[mapM dict_get]; [reflexivity|].
  rewrite mapM_as_int. reflexivity.
Qed.

Lemma courses_of_py_of_courses cs : courses_of_py (py_of_courses cs) = Some cs.
Proof.
  unfold courses_of_py, py_of_courses.
  induction cs as [|[code c] cs IH]; [reflexivity|].
  cbn -[course_of_py py_of_course]. rewrite course_of_py_of_course.
  cbn -[course_of_py py_of_course] in IH |- *. rewrite IH. reflexivity.
Qed.

Lemma setdefault_loop_courses cs :
  setdefault_loop (map (fun kc => (fst kc, py_of_course (snd kc))) cs)
  = (map (fun kc => (fst kc, py_of_course (snd kc))) cs, false).
Proof.
  induction cs as [|[code c] cs IH]; [reflexivity|].
  cbn [map setdefault_loop fst snd]. rewrite IH. reflexivity.
Qed.

(** What [save_courses] wrote is read back as it was written: the courses
    with every [enrolled] a list. *)
Lemma reload_courses set_order cs old :
  exists cs' f,
    save_courses set_order true cs old = (cs', f, Returned) /\
    load_courses f (PDict []) = (py_of_courses (map_values (listify set_order) cs), false) /\
    courses_of_py (fst (load_courses f (PDict [])))
    = Some (map_values (listify set_order) cs).
Proof.
  unfold save_courses. rewrite json_ok_listified.
  eexists _, _. split; [reflexivity|].
  assert (Hload : load_courses
                    (Decoded (py_of_courses (map_values (listify set_order) cs)))
                    (PDict [])
                  = (py_of_courses (map_values (listify set_order) cs), false)).
  { unfold load_courses, py_of_courses. rewrite setdefault_loop_courses. reflexivity. }
  rewrite Hload. split; [reflexivity|]. apply courses_of_py_of_courses.
Qed.

Section ReloadFacts.
Variable py_int : string -> option Z.
Variable py_float : string -> option float.
Variable str_float : float -> string.
(** What the interpreter guarantees of its own conversions. *)
Hypothesis int_of_str_int : forall z, py_int (str_int z) = Some z.
Hypothesis float_of_str_float : forall x, py_float (str_float x) = Some x.
Hypothesis float_of_empty : py_float "" = None.

Lemma str_float_not_empty x : String.eqb (str_float x) "" = false.
Proof.
  apply String.eqb_neq. intros H.
  pose proof (float_of_str_float x) as Hx. rewrite H, float_of_empty in Hx.
  discriminate.
Qed.

Lemma enrollment_of_saved_row e :
  enrollment_of_row py_int py_float (row_of_enrollment str_float e) = Some e.
Proof.
  destruct e as [sid code g]. unfold enrollment_of_row, row_of_enrollment.
  rewrite !dict_get_str_cons. cbn -[str_int]. rewrite int_of_str_int. cbn.
  unfold grade_of_cell. destruct g as [x|]; cbn.
  - rewrite str_float_not_empty, float_of_str_float. reflexivity.
  - reflexivity.
Qed.

Lemma student_of_saved_row kv :
  student_of_row py_int py_float (row_of_student str_float kv) = Some kv.
Proof.
  destruct kv as [sid [nm yr g]]. unfold student_of_row, row_of_student.
  rewrite !dict_get_str_cons. cbn -[str_int].
  rewrite !int_of_str_int. cbn. rewrite float_of_str_float. reflexivity.
Qed.

(** The enrollment rows come back as they were saved. *)
Lemma reload_enrollments rows :
  load_enrollments py_int py_float (save_enrollments str_float rows) [] = rows.
Proof.
  unfold load_enrollments, save_enrollments.
  assert (Hgen : forall acc,
            fold_left
              (fun acc row =>
                 match enrollment_of_row py_int py_float row with
                 | Some e => acc ++ [e]
                 | None => acc
                 end)
              (map (row_of_enrollment str_float) rows) acc
            = acc ++ rows).
  { induction rows as [|e rows IH]; intros acc; cbn [map fold_left].
    - now rewrite app_nil_r.
    - rewrite enrollment_of_saved_row, IH, <- app_assoc. reflexivity. }
  apply Hgen.
Qed.

Lemma dict_set_fresh {K V : Type} `{EqDecision K} (k : K) (v : V) (d : dict K V) :
  ~ In k (dict_keys d) -> dict_set k v d = d ++ [(k, v)].
Proof.
  induction d as [|[k' v'] d IH]; cbn; intros Hk; [reflexivity|].
  destruct (decide (k = k')) as [->|Hne]; [exfalso; auto|].
  rewrite IH; auto.
Qed.

(** The students come back as they were saved, in the same order. *)
Lemma reload_students ss :
  NoDup (dict_keys ss) ->
  load_students py_int py_float (save_students str_float ss) [] = ss.
Proof.
  unfold load_students, save_students.
  assert (Hgen : forall acc,
            NoDup (dict_keys (acc ++ ss)) ->
            fold_left
              (fun acc row =>
                 match student_of_row py_int py_float row with
                 | Some (sid, s) => dict_set sid s acc
                 | None => acc
                 end)
              (map (row_of_student str_float) ss) acc
            = acc ++ ss).
  { induction ss as [|[sid s] ss IH]; intros acc Hnd; cbn [map fold_left].
    - now rewrite app_nil_r.
    - rewrite student_of_saved_row.
      unfold dict_keys in Hnd. rewrite map_app in Hnd. cbn [map fst] in Hnd.
      apply NoDup_app in Hnd as (Hacc & Hdisj & Hss).
      apply NoDup_cons in Hss as [Hsid Hss].
      assert (Hfresh : ~ In sid (dict_keys acc)).
      { intros Hin. apply list_elem_of_In in Hin.
        apply (Hdisj sid Hin). now left. }
      rewrite dict_set_fresh by assumption.
      rewrite IH, <- app_assoc; [reflexivity|].
      unfold dict_keys. rewrite !map_app. cbn [map fst].
      apply NoDup_app. split; [|split; [|assumption]].
      * apply NoDup_app. split; [assumption|]. split; [|apply NoDup_singleton].
        intros x Hx Hx'. apply list_elem_of_singleton in Hx'. subst x.
        apply Hfresh. now apply list_elem_of_In.
      * intros x Hx Hx'. apply elem_of_app in Hx as [Hx|Hx].
        -- apply (Hdisj x Hx). now right.
        -- apply list_elem_of_singleton in Hx. subst x. contradiction. }
  intros Hnd. apply (Hgen [] Hnd).
Qed.

End ReloadFacts.

(** C3, on [courses]: the script saves [campus], whose CS101 has the set
    {1} as [enrolled], and starts anew from the files.  Students and
    enrollment rows come back as they were; the courses come back with
    [enrolled] a list, and enrolling a second student in CS101 then appends
    the row and stops on the list's missing [add]. *)
Theorem reload_makes_enrolled_a_list :
  let saved := save_all str_1 elements true campus no_files in
  final (fst saved) = campus /\
  status (fst saved) = Returned /\
  boot decimal_int decimal_float (snd saved) = Some campus_reloaded /\
  students campus_reloaded = students campus /\
  enrollments campus_reloaded = enrollments campus /\
  (enrolled <$> dict_get "CS101"%string (courses campus)) = Some (ESet {[1]}) /\
  (enrolled <$> dict_get "CS101"%string (courses campus_reloaded)) = Some (EList [1]) /\
  status (enroll_student 2 "CS101" campus) = Returned /\
  status (enroll_student 2 "CS101" campus_reloaded) = Raised (AttributeError "add") /\
  enrollments (final (enroll_student 2 "CS101" campus_reloaded))
  = enrollments campus
    ++ [{| student_id := 2; course_code := "CS101"; grade := None |}] /\
  courses (final (enroll_student 2 "CS101" campus_reloaded))
  = courses campus_reloaded.
Proof.
  cbn zeta. repeat split; vm_compute; reflexivity.
Qed.

(** ** Loading *)

Section LoadFacts.
Variable py_int : string -> option Z.
Variable py_float : string -> option float.

Lemma load_students_fold rows ss0 :
  load_students py_int py_float (Rows rows) ss0
  = set_all (converted py_int py_float rows) ss0.
Proof.
  unfold load_students, set_all, converted. revert ss0.
  induction rows as [|row rows IH]; intros ss0; [reflexivity|].
  cbn [fold_left omap list_omap].
  destruct (student_of_row py_int py_float row) as [[sid s]|]; cbn [fold_left fst snd];
    apply IH.
Qed.

Lemma converted_app rows1 rows2 :
  converted py_int py_float (rows1 ++ rows2)
  = converted py_int py_float rows1 ++ converted py_int py_float rows2.
Proof.
  unfold converted. induction rows1 as [|row rows1 IH]; [reflexivity|].
  cbn [app omap list_omap]. destruct (student_of_row py_int py_float row); cbn;
    now rewrite IH.
Qed.

Lemma set_all_keeps l ss sid :
  dict_mem sid ss = true -> dict_mem sid (set_all l ss) = true.
Proof.
  revert ss. induction l as [|[k v] l IH]; intros ss Hm; [assumption|].
  cbn. apply IH. apply dict_mem_set. assumption.
Qed.

Lemma set_all_mem l ss sid s :
  In (sid, s) l -> dict_mem sid (set_all l ss) = true.
Proof.
  revert ss. induction l as [|[k v] l IH]; intros ss; [intros []|].
  intros [[= -> ->]|Hin]; cbn.
  - apply set_all_keeps. unfold dict_mem. now rewrite dict_get_set_eq.
  - apply IH. assumption.
Qed.

Lemma in_converted row sid s rows :
  In row rows -> student_of_row py_int py_float row = Some (sid, s) ->
  In (sid, s) (converted py_int py_float rows).
Proof.
  intros Hin Hrow. unfold converted. apply list_elem_of_In.
  apply list_elem_of_omap. exists row. split; [|assumption].
  apply list_elem_of_In. assumption.
Qed.

(** A row is skipped exactly when a column is missing or a conversion
    raises. *)
Lemma student_of_row_none row :
  student_of_row py_int py_float row = None <->
  (dict_get "student_id"%string row ≫= py_int) = None \/
  dict_get "full_name"%string row = None \/
  (dict_get "year"%string row ≫= py_int) = None \/
  (dict_get "gpa"%string row ≫= py_float) = None.
Proof.
  unfold student_of_row.
  destruct (dict_get "student_id"%string row ≫= py_int) as [sid|]; cbn; [|tauto].
  destruct (dict_get "full_name"%string row) as [nm|]; cbn; [|tauto].
  destruct (dict_get "year"%string row ≫= py_int) as [yr|]; cbn; [|tauto].
  destruct (dict_get "gpa"%string row ≫= py_float) as [g|]; cbn; [|tauto].
  split; [discriminate|]. intros [H|[H|[H|H]]]; discriminate.
Qed.

End LoadFacts.

Lemma setdefault_loop_nil d : fst (setdefault_loop d) = [] -> d = [].
Proof.
  destruct d as [|[k c] d]; [reflexivity|]. cbn [setdefault_loop].
  destruct (setdefault_enrolled c); [|discriminate].
  destruct (setdefault_loop d). discriminate.
Qed.

Lemma read_records_yielded rows : read_records (map Yielded rows) = (rows, None).
Proof.
  induction rows as [|row rows IH]; [reflexivity|].
  cbn [map read_records]. rewrite IH. reflexivity.
Qed.

Lemma read_records_broken before e after :
  read_records (map Yielded before ++ Broken e :: after) = (before, Some e).
Proof.
  induction before as [|row before IH]; [reflexivity|].
  cbn [map app read_records]. rewrite IH. reflexivity.
Qed.

(** C6 refuted as stated.  In this students file the reader raises at the
    second record: the exception leaves [load_students] and the well-formed
    record after it is never loaded.  And this courses file fails to load
    (the handler runs at the second value) and yet [courses] ends up
    holding both entries, the first already given its [enrolled] set. *)
Lemma load_policy_broken :
  load_students_records decimal_int decimal_float torn_students []
  = ([(1, ada)], Some CsvError) /\
  ~ (forall recs row sid s,
       In (Yielded row) recs ->
       student_of_row decimal_int decimal_float row = Some (sid, s) ->
       dict_mem sid (fst (load_students_records decimal_int decimal_float recs []))
       = true) /\
  load_courses (Decoded bent_courses) (PDict [])
  = (PDict [("CS101"%string,
             PDict [("title"%string, PStr "Intro"); ("enrolled"%string, PSet ∅)]);
            ("CS102"%string, PInt 5)],
     true) /\
  ~ (forall f : json_file,
       snd (load_courses f (PDict [])) = true ->
       fst (load_courses f (PDict [])) = PDict []).
Proof.
  split; [vm_compute; reflexivity|]. split; [|split; [reflexivity|]].
  - intros H.
    specialize (H torn_students
                  [("student_id", "2"); ("full_name", "Bob"); ("year", "2");
                   ("gpa", "3.5")]%string 2 bob).
    assert (Hm : dict_mem 2 (fst (load_students_records decimal_int decimal_float
                                    torn_students [])) = false)
      by (vm_compute; reflexivity).
    rewrite H in Hm; [discriminate| |vm_compute; reflexivity].
    right. right. now left.
  - intros H. specialize (H (Decoded bent_courses) eq_refl). discriminate.
Qed.

(** C6, amended: on a students file that the reader reads to its end
    [load_students] converts each row on its own: a row with a missing
    column or a failed conversion is skipped and changes nothing for the
    rows around it, every row that converts is stored, and no exception
    leaves the function; a missing file leaves the mapping as it is (empty
    at start-up); where the reader itself raises, the rows before are
    stored and the exception leaves the function.  [load_courses] leaves
    the mapping as it is when the file is missing or its text is not JSON;
    at start-up a load that fails ends with the empty mapping exactly when
    the text is not JSON, and the program then starts with no courses and
    the students and enrollments of the other two files. *)
Theorem load_failure_policy :
  (forall py_int py_float rows ss0,
     load_students py_int py_float (Rows rows) ss0
     = set_all (converted py_int py_float rows) ss0) /\
  (forall py_int py_float before bad after ss0,
     student_of_row py_int py_float bad = None ->
     load_students py_int py_float (Rows (before ++ bad :: after)) ss0
     = load_students py_int py_float (Rows (before ++ after)) ss0) /\
  (forall py_int py_float rows ss0 row sid s,
     In row rows -> student_of_row py_int py_float row = Some (sid, s) ->
     dict_mem sid (load_students py_int py_float (Rows rows) ss0) = true) /\
  (forall py_int py_float ss0, load_students py_int py_float NoCsv ss0 = ss0) /\
  (forall py_int py_float rows ss0,
     load_students_records py_int py_float (map Yielded rows) ss0
     = (load_students py_int py_float (Rows rows) ss0, None)) /\
  (forall py_int py_float before e after ss0,
     load_students_records py_int py_float (map Yielded before ++ Broken e :: after) ss0
     = (load_students py_int py_float (Rows before) ss0, Some e)) /\
  (forall cs0, load_courses Undecodable cs0 = (cs0, true)) /\
  (forall cs0, load_courses NoJson cs0 = (cs0, false)) /\
  (forall f, load_courses f (PDict []) = (PDict [], true) <-> f = Undecodable) /\
  (forall py_int py_float fs,
     courses_json fs = Undecodable ->
     boot py_int py_float fs
     = Some {| students := load_students py_int py_float (students_csv fs) [];
               courses := [];
               enrollments := load_enrollments py_int py_float (enrollments_csv fs) [] |}) /\
  (map fst (load_students decimal_int decimal_float (Rows four_rows) []) = [1; 2; 4] /\
   boot decimal_int decimal_float
     {| students_csv := Rows four_rows; courses_json := Undecodable;
        enrollments_csv := NoCsv |}
   = Some {| students := [(1, ada); (2, bob);
                          (4, {| name := "Di"; year := 3; gpa := Float.dec 25 1 |})];
             courses := [];
             enrollments := [] |}).
Proof.
  split; [|split; [|split; [|split; [|split; [|split; [|split; [|split; [|split;
    [|split]]]]]]]]].
  - intros. apply load_students_fold.
  - intros py_int py_float before bad after ss0 Hbad.
    rewrite !load_students_fold, !converted_app. unfold converted at 2.
    cbn [omap list_omap]. rewrite Hbad. reflexivity.
  - intros py_int py_float rows ss0 row sid s Hin Hrow.
    rewrite load_students_fold. apply (set_all_mem _ _ sid s).
    apply (in_converted _ _ row); assumption.
  - reflexivity.
  - intros py_int py_float rows ss0. unfold load_students_records.
    rewrite read_records_yielded. reflexivity.
  - intros py_int py_float before e after ss0. unfold load_students_records.
    rewrite read_records_broken. reflexivity.
  - reflexivity.
  - reflexivity.
  - intros f. split; [|intros ->; reflexivity].
    destruct f as [| |v]; [discriminate|reflexivity|].
    cbn [load_courses]. destruct v as [| | | | | |d|]; try discriminate.
    destruct (setdefault_loop d) as [d' failed] eqn:E. intros [= -> ->].
    pose proof (setdefault_loop_nil d) as Hnil. rewrite E in Hnil.
    rewrite (Hnil eq_refl) in E. discriminate E.
  - intros py_int py_float fs Hf. unfold boot. rewrite Hf. reflexivity.
  - split; vm_compute; reflexivity.
Qed.

Lemma load_failure_policy_witness :
  load_students decimal_int decimal_float
    (Rows ([[("student_id", "1"); ("full_name", "Ada"); ("year", "1"); ("gpa", "3.9")];
            [("student_id", "2"); ("full_name", "Bob"); ("year", "2"); ("gpa", "3.5")]]
           ++ [("student_id", "x3"); ("full_name", "Cy"); ("year", "1"); ("gpa", "3.0")]
           :: [[("student_id", "4"); ("full_name", "Di"); ("year", "3"); ("gpa", "2.5")]]))%string
    []
  = load_students decimal_int decimal_float
      (Rows ([[("student_id", "1"); ("full_name", "Ada"); ("year", "1"); ("gpa", "3.9")];
              [("student_id", "2"); ("full_name", "Bob"); ("year", "2"); ("gpa", "3.5")]]
             ++ [[("student_id", "4"); ("full_name", "Di"); ("year", "3"); ("gpa", "2.5")]]))%string
      [].
Proof.
  apply (proj1 (proj2 load_failure_policy) decimal_int decimal_float).
  vm_compute. reflexivity.
Defined.

(** ** What one operation can do to the store *)

Lemma dict_get_none_keys {K V : Type} `{EqDecision K} (k : K) (d : dict K V) :
  dict_get k d = None -> ~ In k (dict_keys d).
Proof.
  induction d as [|[k' v] d IH]; cbn; [tauto|].
  destruct (decide (k = k')) as [->|Hne]; [discriminate|].
  intros Hg [Heq|Hin]; [congruence | now apply IH].
Qed.

Lemma add_student_cases sid nm yr g st :
  status (add_student sid nm yr g st) = Returned /\
  (final (add_student sid nm yr g st) = st \/
   (dict_get sid (students st) = None /\
    final (add_student sid nm yr g st)
    = with_students st
        (students st ++ [(sid, {| name := nm; year := yr; gpa := g |})]))).
Proof.
  unfold add_student. destruct (dict_mem sid (students st)) eqn:E; cbn.
  - auto.
  - apply dict_mem_false in E. split; [reflexivity|]. right. split; [assumption|].
    rewrite dict_set_fresh by (apply dict_get_none_keys; assumption). reflexivity.
Qed.

Lemma add_course_cases code ttl cr cap pre st :
  status (add_course code ttl cr cap pre st) = Returned /\
  (final (add_course code ttl cr cap pre st) = st \/
   (dict_get code (courses st) = None /\
    final (add_course code ttl cr cap pre st)
    = with_courses st
        (courses st
         ++ [(code, {| title := ttl; credits := cr; capacity := cap;
                       prereqs := pre; enrolled := ESet ∅ |})]))).
Proof.
  unfold add_course. destruct (dict_mem code (courses st)) eqn:E; cbn.
  - auto.
  - apply dict_mem_false in E. split; [reflexivity|]. right. split; [assumption|].
    rewrite dict_set_fresh by (apply dict_get_none_keys; assumption). reflexivity.
Qed.

Lemma prereqs_all_met sid c rows :
  existsb (lacks sid rows) (prereqs c) = false ->
  forall pre, In pre (prereqs c) -> enrolled_in sid pre rows.
Proof.
  intros Hno pre Hin.
  destruct (has_row sid pre rows) eqn:Eh; [now apply has_row_true|].
  apply has_row_false, lacks_true in Eh.
  assert (existsb (lacks sid rows) (prereqs c) = true)
    by (apply existsb_exists; eauto).
  congruence.
Qed.

(** [enroll_student] either leaves the store alone, or passes its four
    checks and then appends the row, adding the student to a set or
    stopping at a list. *)
Lemma enroll_student_cases sid code st :
  let o := enroll_student sid code st in
  (status o = Returned /\ final o = st) \/
  (exists s c,
     dict_get sid (students st) = Some s /\
     dict_get code (courses st) = Some c /\
     Z.of_nat (len (enrolled c)) < capacity c /\
     ~ enrolled_in sid code (enrollments st) /\
     (forall pre, In pre (prereqs c) -> enrolled_in sid pre (enrollments st)) /\
     ((exists ids,
         enrolled c = ESet ids /\ status o = Returned /\
         final o
         = {| students := students st;
              courses := dict_set code (with_enrolled c (ESet ({[sid]} ∪ ids)))
                           (courses st);
              enrollments := enrollments st ++ [new_row sid code] |}) \/
      (exists l,
         enrolled c = EList l /\ status o = Raised (AttributeError "add") /\
         final o = with_enrollments st (enrollments st ++ [new_row sid code])))).
Proof.
  cbn zeta. unfold enroll_student.
  destruct (dict_get sid (students st)) as [s|] eqn:Es; [|left; split; reflexivity].
  destruct (dict_get code (courses st)) as [c|] eqn:Ec; [|left; split; reflexivity].
  destruct (capacity c <=? Z.of_nat (len (enrolled c))) eqn:Ecap;
    [left; split; reflexivity|].
  destruct (has_row sid code (enrollments st)) eqn:Er; [left; split; reflexivity|].
  destruct (existsb (lacks sid (enrollments st)) (prereqs c)) eqn:Ep;
    [left; split; reflexivity|].
  right. exists s, c. apply Z.leb_gt in Ecap. apply has_row_false in Er.
  repeat split; try assumption.
  - apply prereqs_all_met. assumption.
  - destruct (enrolled c) as [ids|l] eqn:Een.
    + left. exists ids. repeat split.
    + right. exists l. repeat split.
Qed.

Lemma record_grade_cases sid code g st :
  let o := record_grade sid code g st in
  status o = Returned /\
  (final o = st \/
   exists before e after,
     enrollments st = before ++ e :: after /\
     student_id e = sid /\ course_code e = code /\
     final o = with_enrollments st (before ++ with_grade e (Some g) :: after)).
Proof.
  cbn zeta. unfold record_grade.
  destruct (has_row sid code (enrollments st)) eqn:Er.
  - apply has_row_true in Er.
    destruct (set_grade_first sid code g _ Er)
      as (before & e & after & Hrows & Hs & Hc & _ & Hset).
    rewrite Hset. split; [reflexivity|]. right. exists before, e, after. auto.
  - apply has_row_false in Er. rewrite (set_grade_none _ _ _ _ Er). auto.
Qed.

(** A property that every operation keeps on a registry of sets holds
    throughout every session on one. *)
Lemma run_invariant (P : store -> Prop) :
  (forall c st, all_sets (courses st) -> P st -> P (final (exec c st))) ->
  forall cmds st, all_sets (courses st) -> P st -> P (final (run cmds st)).
Proof.
  intros Hstep cmds. induction cmds as [|c cmds IH]; intros st Ha HP; [assumption|].
  cbn [run]. destruct (exec_all_sets c st Ha) as [Hs Ha']. rewrite Hs. cbn [final].
  apply IH; [assumption|]. apply Hstep; assumption.
Qed.

(** ** What holds throughout a session *)

Lemma empty_all_sets : all_sets (courses empty_store).
Proof. constructor. Qed.

Lemma session_returns cmds :
  status (run cmds empty_store) = Returned /\
  all_sets (courses (final (run cmds empty_store))) /\
  consistent (final (run cmds empty_store)).
Proof.
  destruct (run_all_sets cmds empty_store empty_all_sets) as [Hs Ha].
  split; [assumption|]. split; [assumption|].
  apply run_consistent; [apply consistent_empty | assumption].
Qed.

Lemma dict_get_app_l {K V : Type} `{EqDecision K} (k : K) (v : V) (d d' : dict K V) :
  dict_get k d = Some v -> dict_get k (d ++ d') = Some v.
Proof.
  induction d as [|[k' v'] d IH]; cbn; [discriminate|].
  destruct (decide (k = k')); [trivial | assumption].
Qed.

Lemma dict_get_app_r {K V : Type} `{EqDecision K} (k : K) (d d' : dict K V) :
  dict_get k d = None -> dict_get k (d ++ d') = dict_get k d'.
Proof.
  induction d as [|[k' v'] d IH]; cbn; [reflexivity|].
  destruct (decide (k = k')); [discriminate | assumption].
Qed.

Lemma dict_mem_app_l {K V : Type} `{EqDecision K} (k : K) (d d' : dict K V) :
  dict_mem k d = true -> dict_mem k (d ++ d') = true.
Proof.
  intros Hm. apply dict_mem_true in Hm as [v Hv]. apply dict_mem_true.
  exists v. now apply dict_get_app_l.
Qed.

Lemma students_known_step c st :
  (forall e, In e (enrollments st) -> dict_mem (student_id e) (students st) = true) ->
  forall e, In e (enrollments (final (exec c st))) ->
    dict_mem (student_id e) (students (final (exec c st))) = true.
Proof.
  intros Hk. destruct c as [sid nm yr g|code ttl cr cap pre|sid code|sid code g];
    cbn [exec].
  - destruct (add_student_cases sid nm yr g st) as [_ [->|[Hnone ->]]]; [assumption|].
    cbn [final with_students students enrollments]. intros e He.
    apply dict_mem_app_l. auto.
  - destruct (add_course_cases code ttl cr cap pre st) as [_ [->|[_ ->]]]; assumption.
  - destruct (enroll_student_cases sid code st)
      as [[_ ->]|(s & c & Hs & Hc & _ & _ & _ & [(ids & _ & _ & ->)|(l & _ & _ & ->)])];
      [assumption| |]; cbn; intros e He;
      apply in_app_or in He as [He|[<-|[]]]; auto;
      cbn; unfold dict_mem; now rewrite Hs.
  - destruct (record_grade_cases sid code g st)
      as [_ [->|(before & e0 & after & Hrows & Hs0 & Hc0 & ->)]]; [assumption|].
    cbn. intros e He. rewrite Hrows in Hk.
    apply in_app_or in He as [He|[<-|He]].
    + apply Hk, in_or_app. now left.
    + cbn. apply (Hk e0), in_or_app. right. now left.
    + apply Hk, in_or_app. right. now right.
Qed.

(** X1: in every session from the empty registry, each enrollment row
    names a student and a course that the registry has. *)
Theorem session_rows_known (cmds : list command) :
  rows_known (final (run cmds empty_store)).
Proof.
  intros e He. split.
  - revert e He.
    apply (run_invariant
             (fun st => forall e, In e (enrollments st) ->
                          dict_mem (student_id e) (students st) = true));
      [|apply empty_all_sets|intros e []].
    intros c st _. apply students_known_step.
  - destruct (session_returns cmds) as (_ & _ & [Href _]). auto.
Qed.

(** X2: in every session from the empty registry, [transcript] runs to its
    end for whatever student id it is asked: no row names an unknown
    course. *)
Theorem session_transcript_returns (cmds : list command) (sid : Z) :
  status (transcript sid (final (run cmds empty_store))) = Returned.
Proof.
  unfold transcript.
  destruct (dict_get sid (students (final (run cmds empty_store)))); [|reflexivity].
  rewrite transcript_loop_known; [reflexivity|].
  intros e He _. apply (session_rows_known cmds e He).
Qed.

Lemma filter_by_key_nodup {A : Type} (f : A -> Z) (a : Z) (l : list A) :
  NoDup (map f l) -> (length (List.filter (fun x => (f x =? a)%Z) l) <= 1)%nat.
Proof.
  induction l as [|x l IH]; cbn [map List.filter]; intros Hnd; [cbn; lia|].
  apply NoDup_cons in Hnd as [Hx Hnd]. specialize (IH Hnd).
  destruct (f x =? a) eqn:E; [|assumption].
  apply Z.eqb_eq in E. cbn [length].
  assert (Hnone : List.filter (fun y => f y =? a) l = []).
  { apply filter_none. intros y Hy. apply Z.eqb_neq. intros Hfy.
    apply Hx. rewrite E, <- Hfy. apply list_elem_of_In, in_map. assumption. }
  rewrite Hnone. cbn. lia.
Qed.

Lemma pair_rows_of_course sid code rows :
  pair_rows sid code rows
  = List.filter (fun e => student_id e =? sid) (rows_of code rows).
Proof.
  unfold pair_rows, rows_of, is_pair.
  induction rows as [|e rows IH]; [reflexivity|]. cbn [List.filter].
  destruct (String.eqb (course_code e) code); cbn [List.filter];
    destruct (student_id e =? sid); cbn [andb]; rewrite IH; reflexivity.
Qed.

(** X3: in every session from the empty registry no student has two rows
    for one course. *)
Theorem session_pairs_unique (cmds : list command) :
  pairs_unique (final (run cmds empty_store)).
Proof.
  intros sid code. destruct (session_returns cmds) as (_ & _ & [Href Hidx]).
  rewrite pair_rows_of_course.
  destruct (dict_get code (courses (final (run cmds empty_store)))) as [c|] eqn:Ec.
  - destruct (Hidx code c Ec) as [Hnd _]. apply filter_by_key_nodup. exact Hnd.
  - (* no row names a course the registry lacks *)
    assert (Hnone : rows_of code (enrollments (final (run cmds empty_store))) = []).
    { apply filter_none. intros e He. apply String.eqb_neq. intros Hc.
      specialize (Href e He). rewrite Hc in Href.
      apply dict_mem_true in Href as [c Hc']. congruence. }
    rewrite Hnone. cbn. lia.
Qed.

Lemma dict_get_snoc {K V : Type} `{EqDecision K} (k k' : K) (v c : V) (d : dict K V) :
  dict_get k (d ++ [(k', v)]) = Some c ->
  dict_get k d = Some c \/ (dict_get k d = None /\ k = k' /\ c = v).
Proof.
  destruct (dict_get k d) as [c0|] eqn:E.
  - rewrite (dict_get_app_l k c0 d _ E). auto.
  - rewrite (dict_get_app_r k d _ E). cbn.
    destruct (decide (k = k')); [|discriminate]. intros [= <-]. auto.
Qed.

Lemma within_capacity_step c st :
  within_capacity st -> within_capacity (final (exec c st)).
Proof.
  intros Hw. destruct c as [sid nm yr g|code ttl cr cap pre|sid code|sid code g];
    cbn [exec].
  - destruct (add_student_cases sid nm yr g st) as [_ [->|[_ ->]]]; assumption.
  - destruct (add_course_cases code ttl cr cap pre st) as [_ [->|[_ ->]]]; [assumption|].
    intros code' c' Hg. cbn [final with_courses courses] in Hg.
    apply dict_get_snoc in Hg as [Hg|(_ & _ & ->)]; [now apply (Hw code')|].
    cbn. rewrite size_empty. lia.
  - destruct (enroll_student_cases sid code st)
      as [[_ ->]|(s & c & Hs & Hc & Hroom & _ & _
                  & [(ids & Hids & _ & ->)|(l & _ & _ & ->)])];
      [assumption| |assumption].
    intros code' c'. cbn [courses].
    destruct (decide (code = code')) as [<-|Hne].
    + rewrite dict_get_set_eq. intros [= <-]. cbn [enrolled with_enrolled len capacity].
      rewrite Hids in Hroom. cbn [len] in Hroom.
      assert (Hsz : (size ({[sid]} ∪ ids) <= 1 + size ids)%nat).
      { rewrite size_union_alt, size_singleton.
        apply Nat.add_le_mono_l, subseteq_size, subseteq_difference_l. reflexivity. }
      lia.
    + rewrite dict_get_set_ne by assumption. apply Hw.
  - destruct (record_grade_cases sid code g st)
      as [_ [->|(before & e0 & after & _ & _ & _ & ->)]]; assumption.
Qed.

Lemma run_keeps (P : store -> Prop) :
  (forall c st, P st -> P (final (exec c st))) ->
  forall cmds st, P st -> P (final (run cmds st)).
Proof.
  intros Hstep cmds. induction cmds as [|c cmds IH]; intros st HP; [assumption|].
  cbn [run]. destruct (status (exec c st)) eqn:E; cbn [final].
  - apply IH, Hstep, HP.
  - apply Hstep, HP.
Qed.

(** X4: an operation never fills a course beyond its capacity, so no
    session does, from whatever registry respects the capacities at its
    start; a course of negative capacity stays empty. *)
Theorem session_within_capacity (cmds : list command) (st : store) :
  within_capacity st -> within_capacity (final (run cmds st)).
Proof. apply (run_keeps within_capacity). intros c st0. apply within_capacity_step. Qed.

Lemma session_within_capacity_witness :
  within_capacity (final (run [Enroll 2 "CS101"; Enroll 2 "CS102"; Enroll 1 "CS102"] campus)).
Proof.
  apply (session_within_capacity [Enroll 2 "CS101"; Enroll 2 "CS102"; Enroll 1 "CS102"]
           campus).
  intros code c Hg. cbn in Hg.
  destruct (decide (code = "CS101"%string)) as [->|H1].
  - injection Hg as <-. vm_compute. discriminate.
  - destruct (decide (code = "CS102"%string)) as [->|H2]; [|discriminate].
    injection Hg as <-. vm_compute. discriminate.
Defined.

Lemma enrolled_in_app_l sid code rows more :
  enrolled_in sid code rows -> enrolled_in sid code (rows ++ more).
Proof. intros (e & He & H). exists e. split; [apply in_or_app; now left | exact H]. Qed.

Lemma enrolled_in_regrade sid code before e g after :
  enrolled_in sid code (before ++ e :: after) <->
  enrolled_in sid code (before ++ with_grade e g :: after).
Proof.
  split; intros (x & Hx & Hs & Hc); apply in_app_or in Hx as [Hx|[<-|Hx]].
  - exists x. split; [apply in_or_app; now left | auto].
  - exists (with_grade e g). split; [apply in_or_app; right; now left | auto].
  - exists x. split; [apply in_or_app; right; now right | auto].
  - exists x. split; [apply in_or_app; now left | auto].
  - exists e. split; [apply in_or_app; right; now left | auto].
  - exists x. split; [apply in_or_app; right; now right | auto].
Qed.

Lemma prereqs_met_step c st :
  consistent st -> prereqs_met st -> prereqs_met (final (exec c st)).
Proof.
  intros [Href _] Hp.
  destruct c as [sid nm yr g|code ttl cr cap pre|sid code|sid code g]; cbn [exec].
  - destruct (add_student_cases sid nm yr g st) as [_ [->|[_ ->]]]; assumption.
  - destruct (add_course_cases code ttl cr cap pre st) as [_ [->|[_ ->]]]; [assumption|].
    intros e c He Hg. cbn [final with_courses courses enrollments] in *.
    specialize (Href e He). apply dict_mem_true in Href as [c0 Hc0].
    rewrite (dict_get_app_l _ c0 _ _ Hc0) in Hg. injection Hg as <-.
    apply (Hp e c0 He Hc0).
  - destruct (enroll_student_cases sid code st)
      as [[_ ->]|(s & c & Hs & Hc & _ & _ & Hpre
                  & [(ids & _ & _ & ->)|(l & _ & _ & ->)])];
      [assumption| |].
    + intros e c1 He Hg pre Hin. cbn [courses enrollments] in *.
      apply enrolled_in_app_l.
      assert (Hsame : exists c0, dict_get (course_code e) (courses st) = Some c0
                                 /\ prereqs c0 = prereqs c1).
      { destruct (decide (code = course_code e)) as [Heq|Hne].
        - rewrite <- Heq, dict_get_set_eq in Hg. injection Hg as <-.
          exists c. rewrite <- Heq. auto.
        - rewrite dict_get_set_ne in Hg by assumption. eauto. }
      destruct Hsame as (c0 & Hc0 & Hpr). rewrite <- Hpr in Hin.
      apply in_app_or in He as [He|[<-|[]]].
      * apply (Hp e c0 He Hc0 pre Hin).
      * cbn [new_row student_id course_code] in *.
        rewrite Hc in Hc0. injection Hc0 as <-. auto.
    + intros e c1 He Hg pre Hin. cbn [with_enrollments courses enrollments] in *.
      apply enrolled_in_app_l.
      apply in_app_or in He as [He|[<-|[]]].
      * apply (Hp e c1 He Hg pre Hin).
      * cbn [new_row student_id course_code] in *.
        rewrite Hc in Hg. injection Hg as <-. auto.
  - destruct (record_grade_cases sid code g st)
      as [_ [->|(before & e0 & after & Hrows & _ & _ & ->)]]; [assumption|].
    intros e c1 He Hg pre Hin. cbn [with_enrollments courses enrollments] in *.
    apply enrolled_in_regrade. rewrite <- Hrows.
    apply in_app_or in He as [He|[<-|He]].
    + apply (Hp e c1); [rewrite Hrows; apply in_or_app; now left | assumption ..].
    + apply (Hp e0 c1); [rewrite Hrows; apply in_or_app; right; now left | assumption ..].
    + apply (Hp e c1); [rewrite Hrows; apply in_or_app; right; now right | assumption ..].
Qed.

(** X5: in every session from the empty registry, a student with a row for
    a course has a row for each prerequisite of that course. *)
Theorem session_prereqs_met (cmds : list command) :
  prereqs_met (final (run cmds empty_store)).
Proof.
  assert (H : consistent (final (run cmds empty_store)) /\
              prereqs_met (final (run cmds empty_store))).
  { apply (run_invariant (fun st => consistent st /\ prereqs_met st));
      [|apply empty_all_sets|split; [apply consistent_empty|intros e c []]].
    intros c st Ha [Hc Hp]. split.
    - apply exec_consistent; [assumption|]. apply (exec_all_sets c st Ha).
    - apply prereqs_met_step; assumption. }
  apply H.
Qed.

(** X6: a course that lists itself among its prerequisites takes no one:
    [enroll_student] leaves the store as it was, whoever asks. *)
Theorem self_prerequisite_blocks (sid : Z) (code : string) (st : store) (c : course) :
  dict_get code (courses st) = Some c -> In code (prereqs c) ->
  status (enroll_student sid code st) = Returned /\
  final (enroll_student sid code st) = st.
Proof.
  intros Hc Hin.
  destruct (enroll_student_cases sid code st)
    as [H|(s & c' & _ & Hc' & _ & Hnot & Hpre & _)]; [exact H|].
  rewrite Hc in Hc'. injection Hc' as <-. exfalso. apply Hnot, Hpre, Hin.
Qed.

Lemma self_prerequisite_blocks_witness :
  let st := final (add_course "RC100" "Recursion" 3 30 ["RC100"%string] campus) in
  status (enroll_student 1 "RC100" st) = Returned /\
  final (enroll_student 1 "RC100" st) = st.
Proof.
  apply (self_prerequisite_blocks 1 "RC100"
           (final (add_course "RC100" "Recursion" 3 30 ["RC100"%string] campus))
           {| title := "Recursion"; credits := 3; capacity := 30;
              prereqs := ["RC100"%string]; enrolled := ESet ∅ |}).
  - reflexivity.
  - now left.
Defined.

(** X7: on a course whose [enrolled] is a list, an enrollment that passes
    the four checks stops with [AttributeError] after the row is appended:
    students and courses are as before, the rows are one more, and an index
    that was right is now one short. *)
Theorem enroll_on_list_appends_then_raises (sid : Z) (code : string) (st : store)
    (s : student) (c : course) (l : list Z) :
  dict_get sid (students st) = Some s ->
  dict_get code (courses st) = Some c ->
  enrolled c = EList l ->
  Z.of_nat (length l) < capacity c ->
  ~ enrolled_in sid code (enrollments st) ->
  ~ missing_prereq sid c (enrollments st) ->
  let o := enroll_student sid code st in
  status o = Raised (AttributeError "add") /\
  students (final o) = students st /\
  courses (final o) = courses st /\
  enrollments (final o) = enrollments st ++ [new_row sid code] /\
  (length l = length (rows_of code (enrollments st)) ->
   length (rows_of code (enrollments (final o))) = S (length l)).
Proof.
  intros Hs Hc Hl Hroom Hnot Hpre. cbn zeta. unfold enroll_student.
  rewrite Hs, Hc, Hl. cbn [len].
  apply Z.leb_gt in Hroom. rewrite Hroom.
  apply has_row_false in Hnot. rewrite Hnot.
  destruct (existsb (lacks sid (enrollments st)) (prereqs c)) eqn:Ep.
  { apply missing_prereq_true in Ep. contradiction. }
  cbn [final status with_enrollments students courses enrollments].
  repeat split. intros Hidx.
  unfold rows_of. rewrite List.filter_app, length_app. cbn [List.filter new_row course_code].
  rewrite String.eqb_refl. cbn [length]. unfold rows_of in Hidx. lia.
Qed.

Lemma enroll_on_list_appends_then_raises_witness :
  let o := enroll_student 2 "CS101" campus_reloaded in
  status o = Raised (AttributeError "add") /\
  students (final o) = students campus_reloaded /\
  courses (final o) = courses campus_reloaded /\
  enrollments (final o) = enrollments campus_reloaded ++ [new_row 2 "CS101"] /\
  (length [1] = length (rows_of "CS101" (enrollments campus_reloaded)) ->
   length (rows_of "CS101" (enrollments (final o))) = S (length [1])).
Proof.
  apply (enroll_on_list_appends_then_raises 2 "CS101" campus_reloaded bob
           (with_enrolled cs101 (EList [1])) [1]).
  - reflexivity.
  - reflexivity.
  - reflexivity.
  - reflexivity.
  - intros (e & He & Hs & Hc). cbn in He. destruct He as [<-|[]]. discriminate.
  - intros (pre & [] & _).
Defined.

(** ** What a session never undoes *)

Lemma run_progress (R : store -> store -> Prop) :
  (forall st, R st st) ->
  (forall a b c, R a b -> R b c -> R a c) ->
  (forall c st, R st (final (exec c st))) ->
  forall cmds st, R st (final (run cmds st)).
Proof.
  intros Hrefl Htrans Hstep cmds. induction cmds as [|c cmds IH]; intros st; [apply Hrefl|].
  cbn [run]. destruct (status (exec c st)) eqn:E; cbn [final].
  - eapply Htrans; [apply Hstep | apply IH].
  - apply Hstep.
Qed.

Lemma keeps_students_step c st : keeps_students st (final (exec c st)).
Proof.
  intros k v Hg.
  destruct c as [sid nm yr g|code ttl cr cap pre|sid code|sid code g]; cbn [exec].
  - destruct (add_student_cases sid nm yr g st) as [_ [->|[_ ->]]]; [assumption|].
    cbn. now apply dict_get_app_l.
  - destruct (add_course_cases code ttl cr cap pre st) as [_ [->|[_ ->]]]; assumption.
  - destruct (enroll_student_cases sid code st)
      as [[_ ->]|(s & c & _ & _ & _ & _ & _
                  & [(ids & _ & _ & ->)|(l & _ & _ & ->)])]; assumption.
  - destruct (record_grade_cases sid code g st)
      as [_ [->|(before & e0 & after & _ & _ & _ & ->)]]; assumption.
Qed.

(** X8: no session alters or removes a student: whatever record an id has,
    it has the same record after any list of operations, however the
    session ends. *)
Theorem session_keeps_students (cmds : list command) (st : store) :
  keeps_students st (final (run cmds st)).
Proof.
  apply (run_progress keeps_students).
  - intros s k v H. exact H.
  - intros a b c Hab Hbc k v H. apply Hbc, Hab, H.
  - apply keeps_students_step.
Qed.

Lemma keeps_courses_same st st' : courses st' = courses st -> keeps_courses st st'.
Proof. intros E code c Hg. exists c. rewrite E. repeat split; auto. Qed.

Lemma keeps_courses_step c st : keeps_courses st (final (exec c st)).
Proof.
  destruct c as [sid nm yr g|code ttl cr cap pre|sid code|sid code g]; cbn [exec].
  - destruct (add_student_cases sid nm yr g st) as [_ [->|[_ ->]]];
      now apply keeps_courses_same.
  - destruct (add_course_cases code ttl cr cap pre st) as [_ [->|[_ ->]]];
      [now apply keeps_courses_same|].
    intros k c Hg. exists c. cbn. rewrite (dict_get_app_l _ _ _ _ Hg).
    repeat split; auto.
  - destruct (enroll_student_cases sid code st)
      as [[_ ->]|(s & c & _ & Hc & _ & _ & _
                  & [(ids & Hids & _ & ->)|(l & _ & _ & ->)])];
      [now apply keeps_courses_same| |now apply keeps_courses_same].
    intros k c0 Hg. cbn [courses].
    destruct (decide (code = k)) as [<-|Hne].
    + rewrite Hc in Hg. injection Hg as <-.
      exists (with_enrolled c (ESet ({[sid]} ∪ ids))).
      rewrite dict_get_set_eq. repeat split. rewrite Hids. cbn.
      apply union_subseteq_r.
    + exists c0. rewrite dict_get_set_ne by assumption. repeat split; auto.
  - destruct (record_grade_cases sid code g st)
      as [_ [->|(before & e0 & after & _ & _ & _ & ->)]]; now apply keeps_courses_same.
Qed.

(** X9: no session removes a course or changes its title, credits,
    capacity or prerequisites, and no student leaves a course. *)
Theorem session_keeps_courses (cmds : list command) (st : store) :
  keeps_courses st (final (run cmds st)).
Proof.
  apply (run_progress keeps_courses).
  - intros s. now apply keeps_courses_same.
  - intros a b c Hab Hbc k v H.
    destruct (Hab k v H) as (v1 & H1 & Ht & Hcr & Hcap & Hpre & Hm).
    destruct (Hbc k v1 H1) as (v2 & H2 & Ht' & Hcr' & Hcap' & Hpre' & Hm').
    exists v2. repeat split; try congruence. etransitivity; eassumption.
  - apply keeps_courses_step.
Qed.

Lemma session_keeps_courses_witness :
  exists c',
    dict_get "CS101"%string
      (courses (final (run [Enroll 2 "CS101"; RecordGrade 2 "CS101" (Float.of_Z 70)]
                         campus))) = Some c' /\
    title c' = title cs101 /\ credits c' = credits cs101 /\
    capacity c' = capacity cs101 /\ prereqs c' = prereqs cs101 /\
    members (enrolled cs101) ⊆ members (enrolled c').
Proof.
  apply (session_keeps_courses
           [Enroll 2 "CS101"; RecordGrade 2 "CS101" (Float.of_Z 70)] campus
           "CS101"%string cs101).
  reflexivity.
Defined.

Lemma session_keeps_students_witness :
  dict_get 1
    (students (final (run [AddStudent 1 "Eve" 4 Float.zero; Enroll 1 "CS102"] campus)))
  = Some ada.
Proof.
  apply (session_keeps_students [AddStudent 1 "Eve" 4 Float.zero; Enroll 1 "CS102"]
           campus 1 ada).
  reflexivity.
Defined.

Lemma same_row_refl rows :
  Forall2 (fun e e' =>
             student_id e' = student_id e /\ course_code e' = course_code e /\
             (grade e <> None -> grade e' <> None)) rows rows.
Proof. induction rows; constructor; auto. Qed.

Lemma keeps_rows_refl rows : keeps_rows rows rows.
Proof. exists rows, []. rewrite app_nil_r. split; [reflexivity|apply same_row_refl]. Qed.

Lemma keeps_rows_trans a b c : keeps_rows a b -> keeps_rows b c -> keeps_rows a c.
Proof.
  intros (k1 & m1 & -> & H1) (k2 & m2 & -> & H2).
  apply Forall2_app_inv_l in H2 as (k2a & k2b & H2a & H2b & ->).
  exists k2a, (k2b ++ m2). split; [now rewrite app_assoc|].
  clear H2b. revert k2a H2a. induction H1 as [|x y l l' Hxy _ IH]; intros k2a H2a.
  - apply Forall2_nil_inv_l in H2a. subst. constructor.
  - apply Forall2_cons_inv_l in H2a as (z & k' & Hyz & Hrest & ->).
    constructor; [|apply IH; assumption].
    destruct Hxy as (Hs & Hc & Hg), Hyz as (Hs' & Hc' & Hg').
    repeat split; try congruence. auto.
Qed.

Lemma keeps_rows_step c st :
  keeps_rows (enrollments st) (enrollments (final (exec c st))).
Proof.
  destruct c as [sid nm yr g|code ttl cr cap pre|sid code|sid code g]; cbn [exec].
  - destruct (add_student_cases sid nm yr g st) as [_ [->|[_ ->]]]; apply keeps_rows_refl.
  - destruct (add_course_cases code ttl cr cap pre st) as [_ [->|[_ ->]]];
      apply keeps_rows_refl.
  - destruct (enroll_student_cases sid code st)
      as [[_ ->]|(s & c & _ & _ & _ & _ & _
                  & [(ids & _ & _ & ->)|(l & _ & _ & ->)])];
      [apply keeps_rows_refl| |];
      exists (enrollments st), [new_row sid code]; split;
        [reflexivity|apply same_row_refl|reflexivity|apply same_row_refl].
  - destruct (record_grade_cases sid code g st)
      as [_ [->|(before & e0 & after & Hrows & _ & _ & ->)]]; [apply keeps_rows_refl|].
    cbn [with_enrollments enrollments]. rewrite Hrows.
    exists (before ++ with_grade e0 (Some g) :: after), [].
    rewrite app_nil_r. split; [reflexivity|].
    apply Forall2_app; [apply same_row_refl|].
    constructor; [|apply same_row_refl]. cbn. repeat split. discriminate.
Qed.

(** X10: no session removes, reorders or re-targets an enrollment row, and
    a grade once recorded is never taken away: the rows afterwards begin
    with the rows before, each naming the same student and course and
    graded if it was. *)
Theorem session_keeps_rows (cmds : list command) (st : store) :
  keeps_rows (enrollments st) (enrollments (final (run cmds st))).
Proof.
  apply (run_progress (fun a b => keeps_rows (enrollments a) (enrollments b))).
  - intros s. apply keeps_rows_refl.
  - intros a b c. apply keeps_rows_trans.
  - apply keeps_rows_step.
Qed.

(** ** Registration *)

(** X11: [add_student] refuses an id that is taken, leaving the store as it
    was; a new id is registered after all the students already there, who
    keep their places and records, and courses and rows are untouched. *)
Theorem add_student_registers (sid : Z) (nm : string) (yr : Z) (g : float)
    (st : store) :
  let o := add_student sid nm yr g st in
  let s := {| name := nm; year := yr; gpa := g |} in
  (forall s0, dict_get sid (students st) = Some s0 ->
     rejected o st "Student already exists.") /\
  (dict_get sid (students st) = None ->
   status o = Returned /\
   students (final o) = students st ++ [(sid, s)] /\
   dict_get sid (students (final o)) = Some s /\
   courses (final o) = courses st /\
   enrollments (final o) = enrollments st /\
   trace o = [Log ("Added student " ++ str_int sid)%string]).
Proof.
  cbn zeta. unfold add_student, dict_mem. split.
  - intros s0 Hs. rewrite Hs. repeat split.
  - intros Hnone. rewrite Hnone. cbn.
    rewrite dict_set_fresh by (apply dict_get_none_keys; assumption).
    repeat split.
    rewrite (dict_get_app_r _ _ _ Hnone). cbn.
    destruct (decide (sid = sid)); congruence.
Qed.

Lemma add_student_registers_witness :
  let o := add_student 3 "Cy" 1 (Float.dec 30 1) campus in
  let s := {| name := "Cy"; year := 1; gpa := Float.dec 30 1 |} in
  status o = Returned /\
  students (final o) = students campus ++ [(3, s)] /\
  dict_get 3 (students (final o)) = Some s /\
  courses (final o) = courses campus /\
  enrollments (final o) = enrollments campus /\
  trace o = [Log ("Added student " ++ str_int 3)%string].
Proof.
  apply (proj2 (add_student_registers 3 "Cy" 1 (Float.dec 30 1) campus)).
  reflexivity.
Defined.

(** X12: [add_course] refuses a code that is taken, leaving the store as it
    was; a new code is registered after the courses already there with an
    empty [enrolled] set and the prerequisite list as given, whether or not
    the codes in it name courses; students and rows are untouched. *)
Theorem add_course_registers (code ttl : string) (cr cap : Z) (pre : list string)
    (st : store) :
  let o := add_course code ttl cr cap pre st in
  let c := {| title := ttl; credits := cr; capacity := cap; prereqs := pre;
              enrolled := ESet ∅ |} in
  (forall c0, dict_get code (courses st) = Some c0 ->
     rejected o st "Course already exists.") /\
  (dict_get code (courses st) = None ->
   status o = Returned /\
   courses (final o) = courses st ++ [(code, c)] /\
   dict_get code (courses (final o)) = Some c /\
   students (final o) = students st /\
   enrollments (final o) = enrollments st /\
   trace o = [Log ("Added course " ++ code)%string]).
Proof.
  cbn zeta. unfold add_course, dict_mem. split.
  - intros c0 Hc. rewrite Hc. repeat split.
  - intros Hnone. rewrite Hnone. cbn.
    rewrite dict_set_fresh by (apply dict_get_none_keys; assumption).
    repeat split.
    rewrite (dict_get_app_r _ _ _ Hnone). cbn.
    destruct (decide (code = code)); congruence.
Qed.

Lemma add_course_registers_witness :
  let o := add_course "PH900" "Thesis" 12 5 ["XX000"%string] campus in
  let c := {| title := "Thesis"; credits := 12; capacity := 5;
              prereqs := ["XX000"%string]; enrolled := ESet ∅ |} in
  status o = Returned /\
  courses (final o) = courses campus ++ [("PH900"%string, c)] /\
  dict_get "PH900"%string (courses (final o)) = Some c /\
  students (final o) = students campus /\
  enrollments (final o) = enrollments campus /\
  trace o = [Log ("Added course " ++ "PH900")%string].
Proof.
  apply (proj2 (add_course_registers "PH900" "Thesis" 12 5 ["XX000"%string] campus)).
  reflexivity.
Defined.

(** ** More on loading *)

Lemma load_enrollments_fold py_int py_float rows rows0 :
  load_enrollments py_int py_float (Rows rows) rows0
  = rows0 ++ converted_rows py_int py_float rows.
Proof.
  unfold load_enrollments, converted_rows. revert rows0.
  induction rows as [|row rows IH]; intros rows0; cbn [fold_left omap list_omap].
  - now rewrite app_nil_r.
  - destruct (enrollment_of_row py_int py_float row) as [e|]; rewrite IH.
    + now rewrite <- app_assoc.
    + reflexivity.
Qed.

Lemma converted_rows_app py_int py_float rows1 rows2 :
  converted_rows py_int py_float (rows1 ++ rows2)
  = converted_rows py_int py_float rows1 ++ converted_rows py_int py_float rows2.
Proof.
  unfold converted_rows. induction rows1 as [|row rows1 IH]; [reflexivity|].
  cbn [app omap list_omap].
  destruct (enrollment_of_row py_int py_float row); cbn; now rewrite IH.
Qed.

(** X13: [load_enrollments] puts the rows that convert, in file order,
    behind whatever rows are already in memory, which it leaves alone; a row
    that does not convert is skipped and changes nothing for the others; a
    row with an empty grade cell is loaded without a grade; a missing file
    changes nothing. *)
Theorem load_enrollments_appends :
  (forall py_int py_float rows rows0,
     load_enrollments py_int py_float (Rows rows) rows0
     = rows0 ++ converted_rows py_int py_float rows) /\
  (forall py_int py_float before bad after rows0,
     enrollment_of_row py_int py_float bad = None ->
     load_enrollments py_int py_float (Rows (before ++ bad :: after)) rows0
     = load_enrollments py_int py_float (Rows (before ++ after)) rows0) /\
  (forall py_int py_float row sid code,
     dict_get "student_id"%string row ≫= py_int = Some sid ->
     dict_get "course_code"%string row = Some code ->
     dict_get "grade"%string row = Some ""%string ->
     enrollment_of_row py_int py_float row
     = Some {| student_id := sid; course_code := code; grade := None |}) /\
  (forall py_int py_float rows0, load_enrollments py_int py_float NoCsv rows0 = rows0).
Proof.
  split; [|split; [|split]].
  - intros. apply load_enrollments_fold.
  - intros py_int py_float before bad after rows0 Hbad.
    rewrite !load_enrollments_fold, !converted_rows_app. unfold converted_rows at 2.
    cbn [omap list_omap]. rewrite Hbad. reflexivity.
  - intros py_int py_float row sid code Hs Hc Hg. unfold enrollment_of_row.
    rewrite Hs, Hc, Hg. reflexivity.
  - reflexivity.
Qed.

Lemma load_enrollments_appends_witness :
  enrollment_of_row decimal_int decimal_float
    [("student_id", "7"); ("course_code", "CS101"); ("grade", "")]%string
  = Some {| student_id := 7; course_code := "CS101"; grade := None |}.
Proof.
  apply (proj1 (proj2 (proj2 load_enrollments_appends)) decimal_int decimal_float);
    reflexivity.
Defined.

Lemma set_all_get l sid ss :
  dict_get sid (set_all l ss)
  = match dict_get sid (rev l) with
    | Some s => Some s
    | None => dict_get sid ss
    end.
Proof.
  revert ss. induction l as [|[k v] l IH]; intros ss; [reflexivity|].
  cbn [set_all fold_left fst snd rev] in *. unfold set_all in IH. rewrite IH.
  destruct (dict_get sid (rev l)) as [s|] eqn:E.
  - now rewrite (dict_get_app_l _ _ _ _ E).
  - rewrite (dict_get_app_r _ _ _ E). cbn.
    destruct (decide (sid = k)) as [->|Hne].
    + apply dict_get_set_eq.
    + apply dict_get_set_ne. congruence.
Qed.

(** X14: when several rows of the students file give the same id, the last
    of them that converts decides the record; an id that no converting row
    gives keeps the record it had in memory, if any. *)
Theorem load_students_last_row_wins (py_int : string -> option Z)
    (py_float : string -> option float) (rows : list csv_row)
    (ss0 : dict Z student) (sid : Z) :
  dict_get sid (load_students py_int py_float (Rows rows) ss0)
  = match dict_get sid (rev (converted py_int py_float rows)) with
    | Some s => Some s
    | None => dict_get sid ss0
    end.
Proof. rewrite load_students_fold. apply set_all_get. Qed.

Lemma setdefault_enrolled_dict c :
  is_dict c = true -> setdefault_enrolled c = Some (with_default c).
Proof.
  destruct c as [| | | | | |d|]; try discriminate. intros _.
  unfold setdefault_enrolled, with_default, dict_mem.
  destruct (dict_get "enrolled"%string d); reflexivity.
Qed.

Lemma setdefault_loop_dicts d :
  forallb (fun kv => is_dict (snd kv)) d = true ->
  setdefault_loop d = (map (fun kv => (fst kv, with_default (snd kv))) d, false).
Proof.
  induction d as [|[k c] d IH]; [reflexivity|]. cbn [forallb fst snd].
  intros H. apply andb_true_iff in H as [Hc Hd].
  cbn [setdefault_loop map fst snd]. rewrite (setdefault_enrolled_dict c Hc), (IH Hd).
  reflexivity.
Qed.

Lemma setdefault_loop_stops d :
  forallb (fun kv => is_dict (snd kv)) d = false ->
  snd (setdefault_loop d) = true.
Proof.
  induction d as [|[k c] d IH]; [discriminate|]. cbn [forallb fst snd].
  intros H. cbn [setdefault_loop].
  destruct c as [| | | | | |dc|]; try reflexivity.
  cbn [is_dict andb] in H. cbn [setdefault_enrolled].
  specialize (IH H). destruct (setdefault_loop d) as [rest failed]. exact IH.
Qed.

Lemma with_default_has_enrolled c :
  is_dict c = true ->
  exists d, with_default c = PDict d /\ dict_mem "enrolled"%string d = true.
Proof.
  destruct c as [| | | | | |d|]; try discriminate. intros _.
  unfold with_default. destruct (dict_mem "enrolled"%string d) eqn:E.
  - eauto.
  - eexists. split; [reflexivity|]. apply dict_mem_false in E.
    unfold dict_mem. rewrite (dict_get_app_r _ _ _ E). cbn.
    destruct (decide ("enrolled"%string = "enrolled"%string)); congruence.
Qed.

(** X15: [load_courses] swallows an exception exactly when the file's text
    is not JSON, or decodes to something other than a mapping, or to a
    mapping with a value that is not an object.  When the file decodes to a
    mapping of objects the load keeps keys and order, gives every object
    without an [enrolled] entry an empty set and changes nothing else, so
    that every course then has an [enrolled] entry. *)
Theorem load_courses_outcome :
  (forall f cs0,
     snd (load_courses f cs0)
     = match f with
       | NoJson => false
       | Undecodable => true
       | Decoded v => negb (dict_of_dicts v)
       end) /\
  (forall d cs0,
     dict_of_dicts (PDict d) = true ->
     fst (load_courses (Decoded (PDict d)) cs0)
     = PDict (map (fun kv => (fst kv, with_default (snd kv))) d)) /\
  (forall d cs0 code c,
     dict_of_dicts (PDict d) = true ->
     fst (load_courses (Decoded (PDict d)) cs0) = PDict c ->
     forall v, In (code, v) c ->
       exists fields, v = PDict fields /\ dict_mem "enrolled"%string fields = true).
Proof.
  split; [|split].
  - intros [| |v] cs0; [reflexivity|reflexivity|].
    destruct v as [| | | | | |d|]; try reflexivity.
    cbn [load_courses dict_of_dicts].
    destruct (forallb (fun kv => is_dict (snd kv)) d) eqn:E.
    + rewrite (setdefault_loop_dicts d E). reflexivity.
    + pose proof (setdefault_loop_stops d E) as Hs.
      destruct (setdefault_loop d) as [rest failed]. exact Hs.
  - intros d cs0 Hd. cbn [dict_of_dicts] in Hd. cbn [load_courses].
    rewrite (setdefault_loop_dicts d Hd). reflexivity.
  - intros d cs0 code c Hd Hload v Hin. cbn [dict_of_dicts] in Hd.
    cbn [load_courses] in Hload. rewrite (setdefault_loop_dicts d Hd) in Hload.
    cbn [fst] in Hload. injection Hload as <-.
    apply in_map_iff in Hin as ([k c0] & [= <- <-] & Hin).
    apply with_default_has_enrolled. cbn [fst snd].
    rewrite forallb_forall in Hd. apply (Hd _ Hin).
Qed.

Lemma load_courses_outcome_witness :
  fst (load_courses
         (Decoded (PDict [("CS101"%string, PDict [("title"%string, PStr "Intro")])]))
         (PDict []))
  = PDict (map (fun kv => (fst kv, with_default (snd kv)))
             [("CS101"%string, PDict [("title"%string, PStr "Intro")])]).
Proof.
  apply (proj1 (proj2 load_courses_outcome)). reflexivity.
Defined.

(** ** Round trips through the files *)








Lemma load_saved_courses cs :
  load_courses (Decoded (py_of_courses cs)) (PDict []) = (py_of_courses cs, false).
Proof. unfold load_courses, py_of_courses. rewrite setdefault_loop_courses. reflexivity. Qed.

(** X18: what [save_courses] writes, [load_courses] reads back without an
    exception as the same courses in the same order, title, credits,
    capacity and prerequisites unchanged, and every [enrolled] a list: the
    list it was, or the elements of the set it was in the order [list]
    walks them. *)
Theorem courses_round_trip (set_order : gset Z -> list Z) (disk_ok : bool)
    (cs cs' : dict string course) (old f : json_file) :
  save_courses set_order disk_ok cs old = (cs', f, Returned) ->
  load_courses f (PDict [])
  = (py_of_courses (map_values (listify set_order) cs), false) /\
  courses_of_py (fst (load_courses f (PDict [])))
  = Some (map_values (listify set_order) cs) /\
  (forall code c,
     dict_get code cs = Some c ->
     exists c',
       dict_get code (map_values (listify set_order) cs) = Some c' /\
       title c' = title c /\ credits c' = credits c /\
       capacity c' = capacity c /\ prereqs c' = prereqs c /\
       enrolled c'
       = EList match enrolled c with ESet ids => set_order ids | EList l => l end).
Proof.
  intros Hsave. unfold save_courses in Hsave.
  destruct disk_ok; [|discriminate].
  rewrite json_ok_listified in Hsave. injection Hsave as _ <-.
  rewrite load_saved_courses. split; [reflexivity|].
  split; [apply courses_of_py_of_courses|].
  intros code c Hg. exists (listify set_order c).
  rewrite dict_get_map_values, Hg. split; [reflexivity|].
  unfold listify. destruct (enrolled c) as [ids|l] eqn:E; cbn; rewrite ?E; repeat split.
Qed.

Lemma courses_round_trip_witness :
  courses_of_py
    (fst (load_courses
            (Decoded (py_of_courses (map_values (listify elements) (courses campus))))
            (PDict [])))
  = Some (map_values (listify elements) (courses campus)).
Proof.
  refine (proj1 (proj2 (courses_round_trip elements true (courses campus)
                          (courses campus) NoJson
                          (Decoded (py_of_courses
                                      (map_values (listify elements) (courses campus))))
                          _))).
  vm_compute. reflexivity.
Defined.



Lemma setify_is_set c : exists ids, enrolled (setify c) = ESet ids.
Proof.
  unfold setify. destruct (enrolled c) as [ids|l] eqn:E; cbn; eauto.
Qed.

(** X20: when [save_courses] completes, every [enrolled] in memory is a
    set, also those that were lists before; so every session that follows
    runs to its end: no enrollment stops on a list. *)
Theorem save_courses_leaves_sets (set_order : gset Z -> list Z) (disk_ok : bool)
    (cs cs' : dict string course) (old f : json_file) :
  save_courses set_order disk_ok cs old = (cs', f, Returned) ->
  all_sets cs' /\
  forall st cmds, status (run cmds (with_courses st cs')) = Returned.
Proof.
  intros Hsave. unfold save_courses in Hsave.
  destruct disk_ok; [|discriminate].
  rewrite json_ok_listified in Hsave. injection Hsave as <- _.
  assert (Ha : all_sets (map_values setify (map_values (listify set_order) cs))).
  { unfold all_sets, map_values. apply List.Forall_forall. intros [k c] Hin.
    apply in_map_iff in Hin as ([k' c'] & [= <- <-] & _). cbn [snd fst].
    apply setify_is_set. }
  split; [exact Ha|]. intros st cmds.
  apply (run_all_sets cmds (with_courses st _)). exact Ha.
Qed.

Lemma save_courses_leaves_sets_witness :
  all_sets (map_values setify (courses campus_reloaded)) /\
  forall st cmds,
    status (run cmds (with_courses st (map_values setify (courses campus_reloaded))))
    = Returned.
Proof.
  apply (save_courses_leaves_sets elements true (courses campus_reloaded)
           (map_values setify (courses campus_reloaded)) NoJson
           (Decoded (py_of_courses (courses campus_reloaded)))).
  reflexivity.
Defined.

(** ** More on analytics *)

Lemma insert_sorted_perm_any {A : Type} (lt : A -> A -> bool) (x : A) (l : list A) :
  Permutation (insert_sorted lt x l) (x :: l).
Proof.
  induction l as [|y l IH]; cbn; [reflexivity|].
  destruct (lt x y); [reflexivity|].
  rewrite IH. apply perm_swap.
Qed.

Lemma stable_sort_perm {A : Type} (lt : A -> A -> bool) (l acc : list A) :
  Permutation (fold_left (fun acc x => insert_sorted lt x acc) l acc) (acc ++ l).
Proof.
  revert acc. induction l as [|x l IH]; intros acc; cbn [fold_left].
  - now rewrite app_nil_r.
  - rewrite IH, insert_sorted_perm_any. apply Permutation_middle.
Qed.

Lemma sorted_reverse_perm {A : Type} (lt : A -> A -> bool) (l : list A) :
  Permutation (sorted_reverse lt l) l.
Proof.
  unfold sorted_reverse, stable_sort.
  rewrite <- Permutation_rev, stable_sort_perm. cbn. symmetry. apply Permutation_rev.
Qed.

Lemma in_firstn {A : Type} (x : A) (n : nat) (l : list A) :
  In x (firstn n l) -> In x l.
Proof.
  intros H. rewrite <- (firstn_skipn n l). apply in_or_app. now left.
Qed.

(** X21: the list of choice 1 never names anyone who is not a student; for
    [n >= 0] it has [n] entries, or all of them if there are fewer; with [n]
    at least the number of students it is a rearrangement of all of them;
    and for a negative [n] it is the whole ranking without its last [-n]
    entries (without any entry when there are no more than that). *)
Theorem top_students_bounds (n : Z) (ss : dict Z student) :
  (forall x, In x (top_students n ss) -> In x ss) /\
  (0 <= n -> length (top_students n ss) = Nat.min (Z.to_nat n) (length ss)) /\
  (Z.of_nat (length ss) <= n -> Permutation (top_students n ss) ss) /\
  (n < 0 ->
   exists dropped,
     top_students (Z.of_nat (length ss)) ss = top_students n ss ++ dropped /\
     length dropped = Nat.min (Z.to_nat (- n)) (length ss)).
Proof.
  pose proof (sorted_reverse_perm gpa_lt ss) as Hperm.
  pose proof (Permutation_length Hperm) as Hlen.
  unfold top_students, slice_to. split; [|split; [|split]].
  - intros x Hx. apply (Permutation_in x Hperm).
    destruct (0 <=? n); apply (in_firstn _ _ _ Hx).
  - intros Hn. apply Z.leb_le in Hn. rewrite Hn, length_firstn, Hlen. reflexivity.
  - intros Hn. assert (H0 : 0 <= n) by lia. apply Z.leb_le in H0. rewrite H0.
    rewrite firstn_all2 by lia. exact Hperm.
  - intros Hn.
    assert (Hall : (0 <=? Z.of_nat (length ss)) = true) by (apply Z.leb_le; lia).
    apply Z.leb_gt in Hn. rewrite Hn, Hall, Nat2Z.id.
    rewrite (firstn_all2 (n := length ss)) by lia.
    exists (skipn (length (sorted_reverse gpa_lt ss) - Z.to_nat (- n))
              (sorted_reverse gpa_lt ss)).
    split; [symmetry; apply firstn_skipn|].
    rewrite length_skipn, Hlen. lia.
Qed.

Lemma top_students_bounds_witness :
  exists dropped,
    top_students (Z.of_nat (length (students abc))) (students abc)
    = top_students (-1) (students abc) ++ dropped /\
    length dropped = Nat.min (Z.to_nat (- (-1))) (length (students abc)).
Proof.
  apply (proj2 (proj2 (proj2 (top_students_bounds (-1) (students abc))))). lia.
Defined.

(** X22: choice 3 of [analytics] runs to its end on every store and leaves
    it alone; it prints an average for a course exactly when some row of
    that course has a grade, and the average is the sum of those grades
    divided by their number. *)
Theorem average_grades (sum : list float -> float) (n : Z) (st : store) :
  let o := analytics sum "3" n st in
  final o = st /\ status o = Returned /\
  forall code x,
    In (Print (AvgGrade code x)) (trace o)
    <-> In code (dict_keys (courses st)) /\
        graded_of code (enrollments st) <> [] /\
        x = Float.div (sum (graded_of code (enrollments st)))
              (Float.of_Z (Z.of_nat (length (graded_of code (enrollments st))))).
Proof.
  cbn zeta. unfold analytics. cbn [String.eqb Ascii.eqb Bool.eqb final status trace].
  split; [reflexivity|]. split; [reflexivity|].
  intros code x. rewrite in_app_iff. unfold avg_lines. rewrite in_flat_map. split.
  - intros [Hmenu|(code' & Hin & Hline)].
    + cbn in Hmenu. destruct Hmenu as [H|[H|[H|[]]]]; discriminate.
    + destruct (graded_of code' (enrollments st)) as [|g gs] eqn:E; [destruct Hline|].
      destruct Hline as [[= <- <-]|[]]. rewrite E. repeat split; [assumption|discriminate].
  - intros (Hin & Hne & ->). right. exists code. split; [assumption|].
    destruct (graded_of code (enrollments st)) as [|g gs]; [contradiction|]. now left.
Qed.

(** ** Searching *)







(** ** The program at its console *)

Section ProgramFacts.
Variable py_int : string -> option Z.
Variable py_float : string -> option float.
Variable str_float : float -> string.
Variable set_order : gset Z -> list Z.
Variable py_sum : list float -> float.
Variable lower : string -> string.
Variable strip : string -> string.

Lemma shrinks_bind {A B : Type} (m : io A) (f : A -> io B) :
  shrinks m -> (forall a, shrinks (f a)) -> shrinks (m ≫= f).
Proof.
  intros Hm Hf w r w' H. unfold mbind, io_bind in H.
  destruct (m w) as [[a|e] w1] eqn:E.
  - destruct (Hm _ _ _ E) as [u1 H1]. destruct (Hf a _ _ _ H) as [u2 H2].
    exists (u1 ++ u2). rewrite H1, H2. now rewrite app_assoc.
  - injection H as _ <-. apply (Hm _ _ _ E).
Qed.

Lemma keeps_disk_bind {A B : Type} (m : io A) (f : A -> io B) :
  keeps_disk m -> (forall a, keeps_disk (f a)) -> keeps_disk (m ≫= f).
Proof.
  intros Hm Hf w r w' H. unfold mbind, io_bind in H.
  destruct (m w) as [[a|e] w1] eqn:E.
  - rewrite (Hf a _ _ _ H). apply (Hm _ _ _ E).
  - injection H as _ <-. apply (Hm _ _ _ E).
Qed.

Lemma input_tame : shrinks input /\ keeps_disk input.
Proof.
  split; intros w r w' H; unfold input in H;
    destruct (stdin w) as [|s rest] eqn:E; injection H as _ <-; cbn; rewrite ?E;
    try reflexivity.
  - now exists [].
  - now exists [s].
Qed.

Lemma emit_tame evs : shrinks (emit evs) /\ keeps_disk (emit evs).
Proof.
  split; intros w r w' H; injection H as _ <-; cbn; [now exists [] | reflexivity].
Qed.

Lemma get_mem_tame : shrinks get_mem /\ keeps_disk get_mem.
Proof. split; intros w r w' H; injection H as _ <-; [now exists [] | reflexivity]. Qed.

Lemma raise_tame {A : Type} e : shrinks (@raise A e) /\ keeps_disk (@raise A e).
Proof. split; intros w r w' H; injection H as _ <-; [now exists [] | reflexivity]. Qed.

Lemma ret_tame {A : Type} (a : A) : shrinks (mret a : io A) /\ keeps_disk (mret a : io A).
Proof. split; intros w r w' H; injection H as _ <-; [now exists [] | reflexivity]. Qed.

Lemma engine_tame op : shrinks (engine op) /\ keeps_disk (engine op).
Proof.
  split; intros w r w' H; injection H as _ <-; cbn; [now exists [] | reflexivity].
Qed.

Lemma to_int_tame s : shrinks (to_int py_int s) /\ keeps_disk (to_int py_int s).
Proof. unfold to_int. destruct (py_int s); [apply ret_tame | apply raise_tame]. Qed.

Lemma to_float_tame s : shrinks (to_float py_float s) /\ keeps_disk (to_float py_float s).
Proof. unfold to_float. destruct (py_float s); [apply ret_tame | apply raise_tame]. Qed.

Lemma save_io_shrinks : shrinks (save_io str_float set_order).
Proof.
  intros w r w' H. unfold save_io in H.
  destruct (save_all str_float set_order true (mem w) (disk w)) as [o fs].
  injection H as _ <-. cbn. now exists [].
Qed.

Ltac tame_step :=
  match goal with
  | |- shrinks (_ ≫= _) => apply shrinks_bind; [|intros ?]
  | |- keeps_disk (_ ≫= _) => apply keeps_disk_bind; [|intros ?]
  | |- shrinks input => apply input_tame
  | |- keeps_disk input => apply input_tame
  | |- shrinks (emit _) => apply emit_tame
  | |- keeps_disk (emit _) => apply emit_tame
  | |- shrinks get_mem => apply get_mem_tame
  | |- keeps_disk get_mem => apply get_mem_tame
  | |- shrinks (raise _) => apply raise_tame
  | |- keeps_disk (raise _) => apply raise_tame
  | |- shrinks (mret _) => apply ret_tame
  | |- keeps_disk (mret _) => apply ret_tame
  | |- shrinks (engine _) => apply engine_tame
  | |- keeps_disk (engine _) => apply engine_tame
  | |- shrinks (to_int _ _) => apply to_int_tame
  | |- keeps_disk (to_int _ _) => apply to_int_tame
  | |- shrinks (to_float _ _) => apply to_float_tame
  | |- keeps_disk (to_float _ _) => apply to_float_tame
  | |- context [if ?b then _ else _] => destruct b
  | |- context [let '(_, _) := ?p in _] => destruct p
  | |- context [match ?c with Returned => _ | Raised _ => _ end] => destruct c
  end.

Lemma operations_tame :
  (shrinks (add_student_io py_int py_float) /\ keeps_disk (add_student_io py_int py_float)) /\
  (shrinks (add_course_io py_int strip) /\ keeps_disk (add_course_io py_int strip)) /\
  (shrinks (enroll_io py_int) /\ keeps_disk (enroll_io py_int)) /\
  (shrinks (record_grade_io py_int py_float)
   /\ keeps_disk (record_grade_io py_int py_float)) /\
  (shrinks (transcript_io py_int) /\ keeps_disk (transcript_io py_int)) /\
  (shrinks (search_io lower) /\ keeps_disk (search_io lower)) /\
  (shrinks (analytics_io py_int py_sum) /\ keeps_disk (analytics_io py_int py_sum)) /\
  (shrinks (list_io str_float) /\ keeps_disk (list_io str_float)).
Proof.
  unfold add_student_io, add_course_io, enroll_io, record_grade_io, transcript_io,
    search_io, analytics_io, list_io.
  repeat split; repeat tame_step.
Qed.

Lemma dispatch_shrinks choice :
  shrinks (dispatch py_int py_float str_float set_order py_sum lower strip choice).
Proof.
  unfold dispatch.
  destruct operations_tame as ([] & [] & [] & [] & [] & [] & [] & []).
  repeat (match goal with |- context [if ?b then _ else _] => destruct b end);
    try assumption.
  - apply save_io_shrinks.
  - apply emit_tame.
Qed.

Lemma dispatch_keeps_disk choice :
  choice <> "8"%string ->
  keeps_disk (dispatch py_int py_float str_float set_order py_sum lower strip choice).
Proof.
  intros Hne. unfold dispatch.
  destruct operations_tame as ([] & [] & [] & [] & [] & [] & [] & []).
  apply String.eqb_neq in Hne. rewrite Hne.
  repeat (match goal with |- context [if ?b then _ else _] => destruct b end);
    try assumption.
  apply emit_tame.
Qed.



Lemma menu_then_input w :
  (emit main_menu;; input) w
  = match stdin w with
    | [] =>
        (inr EOFError,
         {| mem := mem w; disk := disk w; stdin := [];
            stdout := stdout w ++ main_menu |})
    | s :: rest =>
        (inl s,
         {| mem := mem w; disk := disk w; stdin := rest;
            stdout := stdout w ++ main_menu |})
    end.
Proof.
  unfold mbind, io_bind, emit, input. cbn [stdin mem disk stdout].
  destruct (stdin w); reflexivity.
Qed.

Lemma save_all_returns st fs :
  status (fst (save_all str_float set_order true st fs)) = Returned.
Proof. unfold save_all, save_courses. rewrite json_ok_listified. reflexivity. Qed.

Lemma save_io_result w :
  save_io str_float set_order w
  = (inl tt,
     {| mem := final (fst (save_all str_float set_order true (mem w) (disk w)));
        disk := snd (save_all str_float set_order true (mem w) (disk w));
        stdin := stdin w;
        stdout := stdout w
                  ++ trace (fst (save_all str_float set_order true (mem w) (disk w))) |}).
Proof.
  unfold save_io. pose proof (save_all_returns (mem w) (disk w)) as Hs.
  destruct (save_all str_float set_order true (mem w) (disk w)) as [o fs].
  cbn [fst snd] in *. rewrite Hs. reflexivity.
Qed.

Lemma loop_fuel fuel1 fuel2 w :
  (length (stdin w) < fuel1)%nat -> (length (stdin w) < fuel2)%nat ->
  main_loop py_int py_float str_float set_order py_sum lower strip fuel1 w
  = main_loop py_int py_float str_float set_order py_sum lower strip fuel2 w /\
  main_loop py_int py_float str_float set_order py_sum lower strip fuel1 w <> None.
Proof.
  revert fuel2 w. induction fuel1 as [|fuel1 IH]; intros fuel2 w H1 H2; [lia|].
  destruct fuel2 as [|fuel2]; [lia|]. cbn [main_loop].
  rewrite menu_then_input. destruct (stdin w) as [|choice rest] eqn:E.
  - split; [reflexivity|discriminate].
  - destruct (String.eqb choice "10").
    + destruct (save_io _ _ _) as [[[]|e] w2]; split; try reflexivity; discriminate.
    + destruct (dispatch py_int py_float str_float set_order py_sum lower strip choice _)
        as [[[]|e] w2] eqn:Ed;
        [|split; [reflexivity|discriminate]].
      destruct (dispatch_shrinks choice _ _ _ Ed) as [used Hu]. cbn [stdin] in Hu.
      assert (Hlen : (length (stdin w2) <= length rest)%nat).
      { rewrite Hu, length_app. lia. }
      cbn [length] in H1, H2. apply IH; lia.
Qed.

(** X24: on a finite list of input lines the program always comes to an
    end, by choice 10 or by an exception (the end of input among them), and
    it is the same end for every sufficient number of rounds. *)
Theorem program_ends (w : world) :
  exists r, forall fuel,
    (length (stdin w) < fuel)%nat ->
    main_loop py_int py_float str_float set_order py_sum lower strip fuel w = Some r.
Proof.
  destruct (main_loop py_int py_float str_float set_order py_sum lower strip
              (S (length (stdin w))) w) as [r|] eqn:E.
  - exists r. intros fuel Hf. rewrite <- E. apply loop_fuel; lia.
  - exfalso. apply (proj2 (loop_fuel (S (length (stdin w))) (S (length (stdin w))) w
                             ltac:(lia) ltac:(lia))).
    exact E.
Qed.

(** X25: choice 10 saves the three collections and ends the program
    without an exception, leaving the lines after it unread; the files then
    hold what [save_all] writes of the store. *)
Theorem exit_saves (fuel : nat) (w : world) (rest : list string) :
  stdin w = "10"%string :: rest ->
  main_loop py_int py_float str_float set_order py_sum lower strip (S fuel) w
  = Some (Exit,
          {| mem := final (fst (save_all str_float set_order true (mem w) (disk w)));
             disk := snd (save_all str_float set_order true (mem w) (disk w));
             stdin := rest;
             stdout := (stdout w ++ main_menu)
                       ++ trace (fst (save_all str_float set_order true (mem w)
                                        (disk w))) |}).
Proof.
  intros Hin. cbn [main_loop]. rewrite menu_then_input, Hin.
  cbn [String.eqb Ascii.eqb Bool.eqb]. rewrite save_io_result. reflexivity.
Qed.

(** X26: an answer that [int] rejects where a student id is asked for
    (choices 2, 4, 5 and 6) ends the program with [ValueError]; the store is
    as it was and nothing is written to the files. *)
Theorem bad_number_ends_program (fuel : nat) (w : world) (choice t : string)
    (rest : list string) :
  In choice ["2"; "4"; "5"; "6"]%string ->
  py_int t = None ->
  stdin w = choice :: t :: rest ->
  main_loop py_int py_float str_float set_order py_sum lower strip (S fuel) w
  = Some (Crash ValueError,
          {| mem := mem w; disk := disk w; stdin := rest;
             stdout := stdout w ++ main_menu |}).
Proof.
  intros Hc Ht Hin. cbn [main_loop]. rewrite menu_then_input, Hin.
  destruct Hc as [<-|[<-|[<-|[<-|[]]]]]; cbn [String.eqb Ascii.eqb Bool.eqb];
    unfold dispatch; cbn [String.eqb Ascii.eqb Bool.eqb];
    unfold add_student_io, enroll_io, record_grade_io, transcript_io,
      mbind, io_bind, input, to_int; cbn [stdin mem disk stdout];
    rewrite Ht; reflexivity.
Qed.

(** X27: the program ends without an exception only by choice 10: a run
    that ends so has read a line "10". *)
Theorem exit_only_by_choice_10 (fuel : nat) (w w' : world) :
  main_loop py_int py_float str_float set_order py_sum lower strip fuel w = Some (Exit, w') ->
  In "10"%string (stdin w).
Proof.
  revert w. induction fuel as [|fuel IH]; intros w; [discriminate|].
  cbn [main_loop]. rewrite menu_then_input.
  destruct (stdin w) as [|choice rest] eqn:E; [discriminate|].
  destruct (String.eqb choice "10") eqn:E10.
  - intros _. apply String.eqb_eq in E10. subst. now left.
  - destruct (dispatch py_int py_float str_float set_order py_sum lower strip choice _)
      as [[[]|e] w2] eqn:Ed; [|discriminate].
    intros Hloop. right.
    destruct (dispatch_shrinks choice _ _ _ Ed) as [used Hu]. cbn [stdin] in Hu.
    rewrite Hu. apply in_or_app. right. apply (IH _ Hloop).
Qed.

(** X28: a line that is none of the ten choices prints "Invalid choice."
    and the loop goes on with the next line, store and files as they
    were. *)
Theorem invalid_choice_goes_on (fuel : nat) (w : world) (choice : string)
    (rest : list string) :
  ~ In choice ["1"; "2"; "3"; "4"; "5"; "6"; "7"; "8"; "9"; "10"]%string ->
  stdin w = choice :: rest ->
  main_loop py_int py_float str_float set_order py_sum lower strip (S fuel) w
  = main_loop py_int py_float str_float set_order py_sum lower strip fuel
      {| mem := mem w; disk := disk w; stdin := rest;
         stdout := (stdout w ++ main_menu) ++ [Print (Text "Invalid choice.")] |}.
Proof.
  intros Hnot Hin. cbn [main_loop]. rewrite menu_then_input, Hin.
  assert (Hne : forall c, In c ["1"; "2"; "3"; "4"; "5"; "6"; "7"; "8"; "9"; "10"]%string
                          -> String.eqb choice c = false).
  { intros c Hc. apply String.eqb_neq. intros ->. contradiction. }
  rewrite (Hne "10"%string) by (cbn; tauto). unfold dispatch.
  rewrite !Hne by (cbn; tauto). reflexivity.
Qed.

Lemma set_grade_has_row sid code g rows :
  has_row sid code rows = false -> set_grade sid code g rows = None.
Proof.
  unfold has_row. induction rows as [|e rows IH]; cbn [existsb set_grade]; [reflexivity|].
  destruct (is_pair sid code e); cbn [orb]; [discriminate|].
  intros H. rewrite (IH H). reflexivity.
Qed.

Lemma has_row_set_grade sid code g rows :
  has_row sid code rows = true -> exists rows', set_grade sid code g rows = Some rows'.
Proof.
  unfold has_row. induction rows as [|e rows IH]; cbn [existsb set_grade]; [discriminate|].
  destruct (is_pair sid code e); cbn [orb]; [eauto|].
  intros H. destruct (IH H) as [r ->]. cbn. eauto.
Qed.

(** X29: typing a choice 2, 3, 4 or 5 and its answers does to the store and
    the output what the operation does, an exception of the operation ends
    the round with it, and the files stay as they were; the answers an early
    return never asked for stay in the input. *)
Theorem dispatch_runs_command (c : command) (answers rest : list string) (w : world) :
  reads_as py_int py_float strip c answers ->
  stdin w = answers ++ rest ->
  dispatch py_int py_float str_float set_order py_sum lower strip (choice_of c) w
  = (carried (status (exec c (mem w))),
     {| mem := final (exec c (mem w));
        disk := disk w;
        stdin := unread c (mem w) answers ++ rest;
        stdout := stdout w ++ trace (exec c (mem w)) |}).
Proof.
  intros Hr Hin.
  destruct c as [sid nm yr g|code ttl cr cap pre|sid code|sid code g];
    cbn [choice_of reads_as exec unread] in *.
  - destruct Hr as (ts & ty & tg & -> & Hs & Hy & Hg).
    unfold dispatch; cbn [String.eqb Ascii.eqb Bool.eqb].
    unfold add_student_io, mbind, io_bind, input, to_int, get_mem.
    rewrite Hin. cbn [app stdin mem disk stdout]. rewrite Hs.
    unfold mret, io_ret. cbn [stdin mem disk stdout].
    destruct (dict_mem sid (students (mem w))) eqn:E.
    + unfold add_student. rewrite E. reflexivity.
    + cbn [stdin mem disk stdout]. rewrite Hy.
      cbn [stdin mem disk stdout]. unfold to_float. rewrite Hg.
      unfold mret, io_ret, engine, add_student. cbn [stdin mem disk stdout].
      rewrite E. reflexivity.
  - destruct Hr as (tcr & tcap & answer & -> & Hc & Hp & <-).
    unfold dispatch; cbn [String.eqb Ascii.eqb Bool.eqb].
    unfold add_course_io, mbind, io_bind, input, to_int, get_mem.
    rewrite Hin. cbn [app stdin mem disk stdout].
    destruct (dict_mem code (courses (mem w))) eqn:E.
    + unfold add_course. rewrite E. reflexivity.
    + cbn [stdin mem disk stdout]. rewrite Hc.
      unfold mret, io_ret. cbn [stdin mem disk stdout]. rewrite Hp.
      unfold engine, add_course. cbn [stdin mem disk stdout].
      rewrite E. reflexivity.
  - destruct Hr as (ts & -> & Hs).
    unfold dispatch; cbn [String.eqb Ascii.eqb Bool.eqb].
    unfold enroll_io, mbind, io_bind, input, to_int.
    rewrite Hin. cbn [app stdin mem disk stdout]. rewrite Hs.
    unfold mret, io_ret, engine. cbn [stdin mem disk stdout]. reflexivity.
  - destruct Hr as (ts & tg & -> & Hs & Hg).
    unfold dispatch; cbn [String.eqb Ascii.eqb Bool.eqb].
    unfold record_grade_io, mbind, io_bind, input, to_int, get_mem.
    rewrite Hin. cbn [app stdin mem disk stdout]. rewrite Hs.
    unfold mret, io_ret. cbn [stdin mem disk stdout].
    destruct (has_row sid code (enrollments (mem w))) eqn:E.
    + cbn [stdin mem disk stdout]. unfold to_float. rewrite Hg.
      unfold mret, io_ret, engine. cbn [stdin mem disk stdout]. reflexivity.
    + unfold record_grade. rewrite (set_grade_has_row _ _ g _ E). reflexivity.
Qed.

(** X30: only a save writes to the three data files: a run whose input
    has neither a line "8" nor a line "10" ends with [students.csv],
    [courses.json] and [enrollments.csv] as it found them, whatever was
    added, enrolled or graded on the way.  (What such a run does write is
    the log: every addition, enrollment and grade appends a line to
    [app.log], which is recorded in the output, not in [files].) *)
Theorem nothing_saved_without_save (fuel : nat) (w w' : world) (e : ending) :
  ~ In "8"%string (stdin w) -> ~ In "10"%string (stdin w) ->
  main_loop py_int py_float str_float set_order py_sum lower strip fuel w = Some (e, w') ->
  disk w' = disk w.
Proof.
  revert w. induction fuel as [|fuel IH]; intros w H8 H10; [discriminate|].
  cbn [main_loop]. rewrite menu_then_input.
  destruct (stdin w) as [|choice rest] eqn:E.
  - intros [= <- <-]. reflexivity.
  - destruct (String.eqb choice "10") eqn:E10.
    { apply String.eqb_eq in E10. subst. exfalso. apply H10. now left. }
    assert (Hc8 : choice <> "8"%string) by (intros ->; apply H8; now left).
    destruct (dispatch py_int py_float str_float set_order py_sum lower strip choice _)
      as [[[]|err] w2] eqn:Ed.
    + intros Hloop.
      pose proof (dispatch_keeps_disk choice Hc8 _ _ _ Ed) as Hd. cbn [disk] in Hd.
      destruct (dispatch_shrinks choice _ _ _ Ed) as [used Hu]. cbn [stdin] in Hu.
      rewrite <- Hd. apply (IH w2); [| |exact Hloop].
      * intros Hin. apply H8. right. rewrite Hu. apply in_or_app. now right.
      * intros Hin. apply H10. right. rewrite Hu. apply in_or_app. now right.
    + intros [= <- <-].
      apply (dispatch_keeps_disk choice Hc8 _ _ _ Ed).
Qed.

End ProgramFacts.

(** *** The program facts on the example campus, with the decimal readers. *)

Lemma program_ends_witness :
  exists r, forall fuel,
    (length (stdin (desk ["4"; "x"]%string)) < fuel)%nat ->
    main_loop decimal_int decimal_float str_1 elements
      (fun gs => fold_left Float.add gs Float.zero) (fun s => s) (fun s => s)
      fuel (desk ["4"; "x"]%string) = Some r.
Proof.
  apply (program_ends decimal_int decimal_float str_1 elements
           (fun gs => fold_left Float.add gs Float.zero) (fun s => s) (fun s => s)
           (desk ["4"; "x"]%string)).
Defined.

Lemma exit_saves_witness :
  main_loop decimal_int decimal_float str_1 elements
    (fun gs => fold_left Float.add gs Float.zero) (fun s => s) (fun s => s)
    1 (desk ["10"; "1"]%string)
  = Some (Exit,
          {| mem := final (fst (save_all str_1 elements true campus no_files));
             disk := snd (save_all str_1 elements true campus no_files);
             stdin := ["1"%string];
             stdout := ([] ++ main_menu)
                       ++ trace (fst (save_all str_1 elements true campus no_files)) |}).
Proof.
  apply (exit_saves decimal_int decimal_float str_1 elements
           (fun gs => fold_left Float.add gs Float.zero) (fun s => s) (fun s => s)
           0 (desk ["10"; "1"]%string) ["1"%string]).
  reflexivity.
Defined.

Lemma bad_number_ends_program_witness :
  main_loop decimal_int decimal_float str_1 elements
    (fun gs => fold_left Float.add gs Float.zero) (fun s => s) (fun s => s)
    1 (desk ["4"; "one"; "CS101"]%string)
  = Some (Crash ValueError,
          {| mem := campus; disk := no_files; stdin := ["CS101"%string];
             stdout := [] ++ main_menu |}).
Proof.
  apply (bad_number_ends_program decimal_int decimal_float str_1 elements
           (fun gs => fold_left Float.add gs Float.zero) (fun s => s) (fun s => s)
           0 (desk ["4"; "one"; "CS101"]%string) "4"%string "one"%string
           ["CS101"%string]).
  - right. now left.
  - reflexivity.
  - reflexivity.
Defined.

Lemma exit_only_by_choice_10_witness :
  In "10"%string (stdin (desk ["1"; "10"]%string)).
Proof.
  apply (exit_only_by_choice_10 decimal_int decimal_float str_1 elements
           (fun gs => fold_left Float.add gs Float.zero) (fun s => s) (fun s => s)
           2 (desk ["1"; "10"]%string)
           (match main_loop decimal_int decimal_float str_1 elements
                    (fun gs => fold_left Float.add gs Float.zero) (fun s => s)
                    (fun s => s) 2 (desk ["1"; "10"]%string) with
            | Some (_, w') => w'
            | None => desk []
            end)).
  vm_compute. reflexivity.
Defined.

Lemma invalid_choice_goes_on_witness :
  main_loop decimal_int decimal_float str_1 elements
    (fun gs => fold_left Float.add gs Float.zero) (fun s => s) (fun s => s)
    2 (desk ["11"; "10"]%string)
  = main_loop decimal_int decimal_float str_1 elements
      (fun gs => fold_left Float.add gs Float.zero) (fun s => s) (fun s => s)
      1 {| mem := campus; disk := no_files; stdin := ["10"%string];
           stdout := ([] ++ main_menu) ++ [Print (Text "Invalid choice.")] |}.
Proof.
  apply (invalid_choice_goes_on decimal_int decimal_float str_1 elements
           (fun gs => fold_left Float.add gs Float.zero) (fun s => s) (fun s => s)
           1 (desk ["11"; "10"]%string) "11"%string ["10"%string]).
  - intros H. repeat (destruct H as [H|H]; [discriminate H|]). exact H.
  - reflexivity.
Defined.

Lemma dispatch_runs_command_witness :
  dispatch decimal_int decimal_float str_1 elements
    (fun gs => fold_left Float.add gs Float.zero) (fun s => s) (fun s => s)
    "2" (desk ["1"; "Eve"; "2"; "3.5"; "10"]%string)
  = (inl tt,
     {| mem := campus; disk := no_files;
        stdin := ["Eve"; "2"; "3.5"; "10"]%string;
        stdout := [Print (Text "Student already exists.")] |}).
Proof.
  apply (dispatch_runs_command decimal_int decimal_float str_1 elements
           (fun gs => fold_left Float.add gs Float.zero) (fun s => s) (fun s => s)
           (AddStudent 1 "Eve" 2 (Float.dec 35 1))
           ["1"; "Eve"; "2"; "3.5"]%string ["10"%string]
           (desk ["1"; "Eve"; "2"; "3.5"; "10"]%string)).
  - exists "1"%string, "2"%string, "3.5"%string. repeat split; reflexivity.
  - reflexivity.
Defined.

Lemma nothing_saved_without_save_witness :
  disk (match main_loop decimal_int decimal_float str_1 elements
                (fun gs => fold_left Float.add gs Float.zero) (fun s => s)
                (fun s => s) 3 (desk ["2"; "7"; "Eve"; "2"; "3.5"]%string) with
        | Some (_, w') => w'
        | None => desk []
        end)
  = disk (desk ["2"; "7"; "Eve"; "2"; "3.5"]%string).
Proof.
  apply (nothing_saved_without_save decimal_int decimal_float str_1 elements
           (fun gs => fold_left Float.add gs Float.zero) (fun s => s) (fun s => s)
           3 (desk ["2"; "7"; "Eve"; "2"; "3.5"]%string) _ (Crash EOFError)).
  - intros H. repeat (destruct H as [H|H]; [discriminate H|]). exact H.
  - intros H. repeat (destruct H as [H|H]; [discriminate H|]). exact H.
  - vm_compute. reflexivity.
Defined.
